(** * ExcelClone: the spreadsheet model of [model.c]

    A shallow embedding of [src/model.c]: the cell store, the formula parser
    ([string_to_formula]), the recursive evaluator ([evaluate_formula]), the
    renderer ([formula_to_string]) and the editing entry points
    ([set_cell_value], [clear_cell], [get_textual_value]), together with the
    parts of the C library they call ([strtol], [strtod], [strtok],
    [sprintf]/[snprintf]).

    Conventions.
    - A C [double] is an IEEE 754 binary64 number, [spec_float] with precision
      53 and maximal exponent 1024, rounded to nearest-even.
    - A C string is a [string]: the characters before the terminating NUL.
    - A [Cell*] is the offset of the cell from [&spreadsheet[0][0]], counted in
      cells; [NULL] is [None].
    - [NUM_ROWS], [NUM_COLS] and [CELL_DISPLAY_WIDTH] come from headers that
      are not part of the sources at hand; they are parameters of the model.
    - Behaviour that C leaves undefined (null dereference, access outside an
      object, writing past a buffer) is an explicit [Undefined] outcome.
    - [malloc] and [strdup] are taken to succeed; [free] has no effect on the
      model, in which a cell holds its formula or text by value. *)

From Stdlib Require Import ZArith Ascii String List Bool Lia SpecFloat DecimalString DecimalPos.
From stdpp Require Import base option list.

Local Open Scope Z_scope.

(** ** IEEE 754 binary64 *)

Module IEEE.

Definition double : Type := spec_float.

Definition prec : Z := 53.
Definition emax : Z := 1024.

Definition add (x y : double) : double := SFadd prec emax x y.

Definition isnan (x : double) : bool :=
  match x with S754_nan => true | _ => false end.

Definition isinf (x : double) : bool :=
  match x with S754_infinity _ => true | _ => false end.

Definition NAN : double := S754_nan.
Definition INFINITY : double := S754_infinity false.
Definition zero : double := S754_zero false.

(** The double nearest to the integer [m] times two to the [e]. *)
Definition of_Z_pow2 (neg : bool) (m e : Z) : double :=
  match m with
  | Z0 => S754_zero neg
  | Zpos p => binary_round prec emax neg p e
  | Zneg p => binary_round prec emax neg p e
  end.

(** The double nearest to [n / d], for positive [n] and [d]. *)
Definition of_quotient (neg : bool) (n d : Z) : double :=
  let '(q, e, l) := SFdiv_core_binary prec emax n 0 d 0 in
  binary_round_aux prec emax neg q e l.

(** The double nearest to [m] times ten to the [e10], for [m >= 0]. *)
Definition of_decimal (neg : bool) (m e10 : Z) : double :=
  if m =? 0 then S754_zero neg
  else if 0 <=? e10 then of_Z_pow2 neg (m * 10 ^ e10) 0
  else of_quotient neg m (10 ^ (- e10)).

Definition of_Z (z : Z) : double := of_Z_pow2 (z <? 0) z 0.

End IEEE.

Export IEEE.

(** ** The C library functions used by [model.c] *)

Module Libc.

Definition char_code (c : ascii) : Z := Z.of_N (N_of_ascii c).

Definition char_of_code (n : Z) : ascii := ascii_of_N (Z.to_N (n mod 256)).

(** The value of a plain [char] as an [int]: [char] is signed, as on x86. *)
Definition char_val (c : ascii) : Z :=
  let n := char_code c in if 128 <=? n then n - 256 else n.

Definition isspace (c : ascii) : bool :=
  let n := char_code c in (n =? 32) || ((9 <=? n) && (n <=? 13)).

Definition isdigit (c : ascii) : bool :=
  let n := char_code c in (48 <=? n) && (n <=? 57).

Definition tolower (c : ascii) : ascii :=
  let n := char_code c in
  if (65 <=? n) && (n <=? 90) then char_of_code (n + 32) else c.

(** Value of a hexadecimal digit, if [c] is one. *)
Definition xdigit_val (c : ascii) : option Z :=
  let n := char_code c in
  if (48 <=? n) && (n <=? 57) then Some (n - 48)
  else if (97 <=? n) && (n <=? 102) then Some (n - 87)
  else if (65 <=? n) && (n <=? 70) then Some (n - 55)
  else None.

Definition isalnum_ (c : ascii) : bool :=
  let n := char_code (tolower c) in
  isdigit c || ((97 <=? n) && (n <=? 122)) || (n =? 95).

Fixpoint skip_space (s : string) : string :=
  match s with
  | String c r => if isspace c then skip_space r else s
  | EmptyString => s
  end.

(** An optional sign: whether it is a minus, and the text after it. *)
Definition read_sign (s : string) : bool * string :=
  match s with
  | String c r =>
      if Ascii.eqb c "-" then (true, r)
      else if Ascii.eqb c "+" then (false, r)
      else (false, s)
  | EmptyString => (false, s)
  end.

(** [read_digits s acc n]: reads the decimal digits at the head of [s];
    returns the number they extend [acc] to, [n] plus how many were read,
    and the text after them. *)
Fixpoint read_digits (s : string) (acc n : Z) : Z * Z * string :=
  match s with
  | String c r =>
      if isdigit c then read_digits r (10 * acc + (char_code c - 48)) (n + 1)
      else (acc, n, s)
  | EmptyString => (acc, n, s)
  end.

Fixpoint read_xdigits (s : string) (acc n : Z) : Z * Z * string :=
  match s with
  | String c r =>
      match xdigit_val c with
      | Some d => read_xdigits r (16 * acc + d) (n + 1)
      | None => (acc, n, s)
      end
  | EmptyString => (acc, n, s)
  end.

Definition LONG_MAX : Z := 2 ^ 63 - 1.
Definition LONG_MIN : Z := - 2 ^ 63.

(** [strtol nptr &end 10]: the value and the text at [end].  Without a
    digit no conversion is performed: the value is 0 and [end] is [nptr]. *)
Definition strtol (nptr : string) : Z * string :=
  let '(neg, s) := read_sign (skip_space nptr) in
  let '(v, n, rest) := read_digits s 0 0 in
  if n =? 0 then (0, nptr)
  else
    let v := if neg then - v else v in
    (Z.max LONG_MIN (Z.min LONG_MAX v), rest).

(** Does [s] start with the lower-case word [w], ignoring case?  Returns
    the text after it. *)
Fixpoint skip_word (w s : string) : option string :=
  match w with
  | EmptyString => Some s
  | String a w' =>
      match s with
      | String c r => if Ascii.eqb (tolower c) a then skip_word w' r else None
      | EmptyString => None
      end
  end.

(** The optional [(n-char-sequence)] after [nan]. *)
Fixpoint skip_nchars (s : string) : option string :=
  match s with
  | String c r =>
      if Ascii.eqb c ")" then Some r
      else if isalnum_ c then skip_nchars r
      else None
  | EmptyString => None
  end.

Definition skip_nan_payload (s : string) : string :=
  match s with
  | String c r =>
      if Ascii.eqb c "(" then
        match skip_nchars r with Some r' => r' | None => s end
      else s
  | EmptyString => s
  end.

(** The optional exponent part: marker [mark] ([e] or [p]), optional sign,
    at least one decimal digit.  Returns the exponent and the text after
    it; without a digit nothing is consumed. *)
Definition read_exponent (mark : ascii) (s : string) : Z * string :=
  match s with
  | String c r =>
      if Ascii.eqb (tolower c) mark then
        let '(neg, r1) := read_sign r in
        let '(v, n, rest) := read_digits r1 0 0 in
        if n =? 0 then (0, s) else (if neg then - v else v, rest)
      else (0, s)
  | EmptyString => (0, s)
  end.

(** A digit sequence with an optional radix point, read by [digits]:
    mantissa, number of digits in all, number after the point, rest. *)
Definition read_mantissa (digits : string -> Z -> Z -> Z * Z * string)
    (s : string) : Z * Z * Z * string :=
  let '(m, ni, r1) := digits s 0 0 in
  match r1 with
  | String c r2 =>
      if Ascii.eqb c "." then
        let '(m', nf, r3) := digits r2 m 0 in
        if ni + nf =? 0 then (0, 0, 0, s) else (m', ni + nf, nf, r3)
      else (m, ni, 0, r1)
  | EmptyString => (m, ni, 0, r1)
  end.

(** The hexadecimal form [0x h.hhh p+-d], after the sign. *)
Definition read_hex (neg : bool) (s : string) : option (double * string) :=
  match s with
  | String z (String x r) =>
      if Ascii.eqb z "0" && Ascii.eqb (tolower x) "x" then
        let '(m, n, nf, r1) := read_mantissa read_xdigits r in
        if n =? 0 then None
        else
          let '(e, r2) := read_exponent "p" r1 in
          Some (of_Z_pow2 neg m (e - 4 * nf), r2)
      else None
  | _ => None
  end.

(** The decimal form [d.ddd e+-d], after the sign. *)
Definition read_decimal (neg : bool) (s : string) : option (double * string) :=
  let '(m, n, nf, r1) := read_mantissa read_digits s in
  if n =? 0 then None
  else
    let '(e, r2) := read_exponent "e" r1 in
    Some (of_decimal neg m (e - nf), r2).

(** The number at the head of [s], after the sign: [inf], [infinity],
    [nan] with an optional payload, a hexadecimal or a decimal number. *)
Definition read_number (neg : bool) (s : string) : option (double * string) :=
  match skip_word "infinity" s with
  | Some r => Some (S754_infinity neg, r)
  | None =>
  match skip_word "inf" s with
  | Some r => Some (S754_infinity neg, r)
  | None =>
  match skip_word "nan" s with
  | Some r => Some (S754_nan, skip_nan_payload r)
  | None =>
  match read_hex neg s with
  | Some res => Some res
  | None => read_decimal neg s
  end end end end.

(** [strtod nptr &end]: [Some (value, text at end)] when a conversion is
    performed, [None] when none is (the call then returns 0 and leaves
    [end == nptr]).  Results are correctly rounded; the sign of a NaN is
    not represented. *)
Definition strtod (nptr : string) : option (double * string) :=
  let '(neg, s) := read_sign (skip_space nptr) in
  read_number neg s.

(** The tokens that successive calls [strtok(s, "+")], [strtok(NULL, "+")],
    ... return: the maximal non-empty runs of characters other than ['+'].
    [tok] holds the characters of the token being read. *)
Fixpoint strtok_all (s : string) (tok : string) : list string :=
  match s with
  | EmptyString =>
      match tok with EmptyString => [] | _ => [tok] end
  | String c r =>
      if Ascii.eqb c "+" then
        match tok with
        | EmptyString => strtok_all r EmptyString
        | _ => tok :: strtok_all r EmptyString
        end
      else strtok_all r (tok ++ String c EmptyString)
  end.

(** [%d] *)
Definition fmt_d (n : Z) : string := NilZero.string_of_int (Z.to_int n).

(** [%c]: the argument converted to [unsigned char]. *)
Definition fmt_c (n : Z) : ascii := char_of_code n.

Definition digit_char (d : Z) : ascii := char_of_code (48 + d).

(** The six digits after the decimal point of [%f]. *)
Definition six_digits (n : Z) : string :=
  String (digit_char (n / 100000 mod 10))
 (String (digit_char (n / 10000 mod 10))
 (String (digit_char (n / 1000 mod 10))
 (String (digit_char (n / 100 mod 10))
 (String (digit_char (n / 10 mod 10))
 (String (digit_char (n mod 10)) EmptyString))))).

(** [n / d] rounded to the nearest integer, ties to even ([n >= 0], [d > 0]). *)
Definition div_nearest_even (n d : Z) : Z :=
  let q := n / d in
  let r := n mod d in
  match 2 * r ?= d with
  | Lt => q
  | Gt => q + 1
  | Eq => if Z.even q then q else q + 1
  end.

(** The magnitude of [m * 2^e] in millionths, rounded to nearest-even. *)
Definition millionths (m : positive) (e : Z) : Z :=
  if 0 <=? e then Zpos m * 2 ^ e * 1000000
  else div_nearest_even (Zpos m * 1000000) (2 ^ (- e)).

Definition fmt_sign (neg : bool) (s : string) : string :=
  if neg then String "-" s else s.

(** [%f]: six digits after the point. *)
Definition fmt_f (x : double) : string :=
  match x with
  | S754_nan => "nan"
  | S754_infinity neg => fmt_sign neg "inf"
  | S754_zero neg => fmt_sign neg "0.000000"
  | S754_finite neg m e =>
      let n := millionths m e in
      fmt_sign neg (fmt_d (n / 1000000) ++ String "." (six_digits (n mod 1000000)))
  end%string.

(** The first [n] characters of [s]. *)
Fixpoint string_take (n : nat) (s : string) : string :=
  match n, s with
  | S k, String c r => String c (string_take k r)
  | _, _ => EmptyString
  end.

(** What [snprintf(buf, size, ...)] leaves in [buf] when the formatted text
    is [s]: at most [size - 1] characters. *)
Definition snprintf (size : Z) (s : string) : string :=
  string_take (Z.to_nat (size - 1)) s.

(** A character array read as a C string: it ends at the first NUL. *)
Fixpoint c_str (s : string) : string :=
  match s with
  | String c r => if Ascii.eqb c Ascii.zero then EmptyString else String c (c_str r)
  | EmptyString => EmptyString
  end.

End Libc.

Export Libc.

(** ** The data model *)

(** [#define MAX_TERMS 10] *)
Definition MAX_TERMS : Z := 10.

Inductive CellType : Type := TEXT | NUMBER | FORMULA.

(** A [Cell*]: the offset from [&spreadsheet[0][0]], in cells. *)
Definition CellPtr : Type := Z.

(** [struct Terms { Cell* cell; double constant; }].  The code uses it as a
    tagged pair: [cell != NULL] marks a reference, whose [constant] is never
    written nor read; [cell == NULL] marks a constant. *)
Inductive Terms : Type :=
  | Reference (cell : CellPtr)
  | Constant (constant : double).

(** [struct Formula { Terms terms[MAX_TERMS]; int num_terms; }]: the first
    [num_terms] entries of the array. *)
Record Formula : Type := { terms : list Terms }.

Definition num_terms (f : Formula) : Z := Z.of_nat (length (terms f)).

(** [union CellValue], tagged with the member that was written last.  The
    pointers [text] and [formula] may be [NULL]. *)
Inductive CellValue : Type :=
  | value_text (text : option string)
  | value_number (number : double)
  | value_formula (formula : option Formula).

Inductive EvaluationState : Type := NOT_EVALUATED | EVALUATING | EVALUATED.

Record Cell : Type := { type : CellType; value : CellValue; state : EvaluationState }.

(** What C leaves undefined. *)
Inductive Fault : Type :=
  | NullDereference   (* [formula->...] with [formula == NULL] *)
  | OutOfBounds       (* access outside the array or object *)
  | BufferOverflow    (* [sprintf]/[strcat] writing past the buffer *)
  | InactiveMember.   (* reading a union member that does not hold the value *)

Inductive Outcome (A : Type) : Type :=
  | Done (a : A)
  | Undefined (why : Fault)
  | OutOfFuel.

Arguments Done {A} a.
Arguments Undefined {A} why.
Arguments OutOfFuel {A}.

#[global] Instance CellType_eq_dec : EqDecision CellType.
Proof. solve_decision. Defined.

#[global] Instance EvaluationState_eq_dec : EqDecision EvaluationState.
Proof. solve_decision. Defined.

Definition is_evaluating (c : Cell) : bool :=
  match state c with EVALUATING => true | _ => false end.

(** A cell as the loader leaves a static object: all bytes zero. *)
Definition zero_cell : Cell :=
  {| type := TEXT; value := value_text None; state := NOT_EVALUATED |}.

(** *** Computations on the cell array

    The array [spreadsheet] is a [list Cell], row after row.  A computation
    returns the array as it is when the computation stops, and how it
    stopped. *)

Definition M (A : Type) : Type := list Cell -> list Cell * Outcome A.

Definition ret {A} (a : A) : M A := fun s => (s, Done a).

Definition fail {A} (why : Fault) : M A := fun s => (s, Undefined why).

Definition out_of_fuel {A} : M A := fun s => (s, OutOfFuel).

Definition bind {A B} (m : M A) (k : A -> M B) : M B :=
  fun s =>
    match m s with
    | (s', Done a) => k a s'
    | (s', Undefined why) => (s', Undefined why)
    | (s', OutOfFuel) => (s', OutOfFuel)
    end.

Notation "'do' x <- m ; k" := (bind m (fun x => k))
  (at level 10, x name, m at level 100, k at level 200).
Notation "'run' m ; k" := (bind m (fun _ => k))
  (at level 10, m at level 100, k at level 200).

(** Reads the cell that [cell] points to. *)
Definition load (cell : CellPtr) : M Cell :=
  fun s =>
    if cell <? 0 then (s, Undefined OutOfBounds)
    else match s !! Z.to_nat cell with
         | Some c => (s, Done c)
         | None => (s, Undefined OutOfBounds)
         end.

Definition with_state (st : EvaluationState) (c : Cell) : Cell :=
  {| type := type c; value := value c; state := st |}.

Definition with_content (t : CellType) (v : CellValue) (c : Cell) : Cell :=
  {| type := t; value := v; state := state c |}.

(** Replaces the cell that [cell] points to by its image under [f]. *)
Definition modify (cell : CellPtr) (f : Cell -> Cell) : M unit :=
  do c <- load cell;
  fun s => (<[Z.to_nat cell := f c]> s, Done tt).

(** [cell->state = st] *)
Definition set_state (cell : CellPtr) (st : EvaluationState) : M unit :=
  modify cell (with_state st).

(** [cell->value.formula] *)
Definition get_formula (c : Cell) : M (option Formula) :=
  match value c with
  | value_formula f => ret f
  | _ => fail InactiveMember
  end.

(** [cell->value.number] *)
Definition get_number (c : Cell) : M double :=
  match value c with
  | value_number x => ret x
  | _ => fail InactiveMember
  end.

(** ** Evaluation *)

(** The loop of [evaluate_formula] over the terms from index [i] on, where
    [ts] are those terms and [answer] the running sum; [call] is the recursive
    call of [evaluate_formula].  A [return] inside the loop ends it. *)
Fixpoint evaluate_terms (call : option Formula -> M double)
    (ts : list Terms) (answer : double) : M double :=
  match ts with
  | [] => ret answer
  | Constant constant :: rest =>
      evaluate_terms call rest (add answer constant)
  | Reference cell :: rest =>
      do c <- load cell;
      if is_evaluating c then ret NAN
      else match type c with
           | FORMULA =>
               run set_state cell EVALUATING;
               do formula <- get_formula c;
               do formula_result <- call formula;
               if isinf formula_result then ret INFINITY
               else
                 run set_state cell EVALUATED;
                 evaluate_terms call rest (add answer formula_result)
           | NUMBER =>
               run set_state cell EVALUATING;
               do number <- get_number c;
               run set_state cell EVALUATED;
               evaluate_terms call rest (add answer number)
           | TEXT => ret INFINITY
           end
  end.

(** [evaluate_formula]; [fuel] bounds the depth of the recursion.  On a
    well-formed cell array, as many units of fuel as the array has cells
    are enough (lemma [evaluate_formula_ends] below), and more fuel does not
    change a result (lemma [evaluate_formula_more_fuel]). *)
Fixpoint evaluate_formula (fuel : nat) (formula : option Formula) : M double :=
  match formula with
  | None => fail NullDereference
  | Some f =>
      evaluate_terms
        (match fuel with
         | O => fun _ => out_of_fuel
         | S fuel' => evaluate_formula fuel'
         end)
        (terms f) zero
  end.

(** ** The operations of [model.c] *)

(** The state of the program: the cell array [spreadsheet] and the display,
    as the calls [update_cell_display(row, col, text)] made so far, oldest
    first. *)
Record World : Type := {
  spreadsheet : list Cell;
  shown : list (Z * Z * string)
}.

Definition update_cell_display (row col : Z) (text : string) (w : World) : World :=
  {| spreadsheet := spreadsheet w; shown := shown w ++ [(row, col, text)] |}.

Definition with_cells (s : list Cell) (w : World) : World :=
  {| spreadsheet := s; shown := shown w |}.

Definition starts_with_equals (text : string) : bool :=
  match text with
  | String c _ => Ascii.eqb c "="
  | EmptyString => false
  end.

Definition strlen (s : string) : Z := Z.of_nat (String.length s).

(** [strcat(dest, src)] into a buffer of [size] bytes. *)
Definition strcat (size : Z) (dest src : string) : Outcome string :=
  let r := (dest ++ src)%string in
  if strlen r + 1 <=? size then Done r else Undefined BufferOverflow.

Section Model.

(** From [model.h] / [interface.h]. *)
Variables NUM_ROWS NUM_COLS CELL_DISPLAY_WIDTH : Z.

(** [get_cell_by_reference]: the cell pointer, or [None] for [NULL]. *)
Definition get_cell_by_reference (reference : string) : option CellPtr :=
  match reference with
  | String c0 rest =>
      if strlen reference <? 2 then None
      else if (char_val "a" <=? char_val c0) && (char_val c0 <=? char_val "z") then None
      else
        let column := char_val c0 - char_val "A" in
        let '(row, end_) := strtol rest in
        if negb (String.eqb end_ "") || (row <? 1) || (NUM_ROWS <? row) then None
        else
          let row := row - 1 in
          Some (row * NUM_COLS + column)
  | EmptyString => None
  end.

(** [get_cell_reference]: [sprintf(reference, "%c%d", col + 'A', row + 1)]
    into a buffer of 4 bytes. *)
Definition get_cell_reference (cell : CellPtr) : Outcome string :=
  let row := Z.quot cell NUM_COLS in
  let col := Z.rem cell NUM_COLS in
  let reference := String (fmt_c (col + char_val "A")) (fmt_d (row + 1)) in
  if strlen reference + 1 <=? 4 then Done (c_str reference)
  else Undefined BufferOverflow.

(** One round of the loop of [string_to_formula]: the term that
    [split_term] stands for, or [None] when the function returns [NULL]. *)
Definition parse_term (split_term : string) : option Terms :=
  match strtod split_term with
  | Some (number, _) => Some (Constant number)
  | None =>
      match get_cell_by_reference split_term with
      | Some cell => Some (Reference cell)
      | None => None
      end
  end.

(** The loop of [string_to_formula] over the tokens still to come;
    [parsed] are the terms already in [formula->terms]. *)
Fixpoint parse_terms (tokens : list string) (parsed : list Terms)
    : Outcome (option Formula) :=
  match tokens with
  | [] => Done (Some {| terms := parsed |})
  | split_term :: rest =>
      match parse_term split_term with
      | None => Done None
      | Some term =>
          (* formula->terms[formula->num_terms++] = term *)
          if Z.of_nat (length parsed) <? MAX_TERMS
          then parse_terms rest (parsed ++ [term])
          else Undefined OutOfBounds
      end
  end.

(** [string_to_formula]: [Done None] is the [NULL] result. *)
Definition string_to_formula (text : string) : Outcome (option Formula) :=
  match text with
  | String _ rest => parse_terms (strtok_all rest EmptyString) []
  | EmptyString => Undefined OutOfBounds
  end.

(** The text that one term adds in [formula_to_string]. *)
Definition term_to_string (term : Terms) : Outcome string :=
  match term with
  | Reference cell => get_cell_reference cell
  | Constant constant => Done (snprintf 20 (fmt_f constant))
  end.

(** The loop of [formula_to_string]; [text] is the buffer so far. *)
Fixpoint terms_to_string (ts : list Terms) (text : string) : Outcome string :=
  match ts with
  | [] => Done text
  | term :: rest =>
      match term_to_string term with
      | Done piece =>
          match strcat (CELL_DISPLAY_WIDTH + 1) text piece with
          | Done text1 =>
              match rest with
              | [] => Done text1
              | _ :: _ =>
                  match strcat (CELL_DISPLAY_WIDTH + 1) text1 "+" with
                  | Done text2 => terms_to_string rest text2
                  | other => other
                  end
              end
          | other => other
          end
      | other => other
      end
  end.

Definition formula_to_string (formula : option Formula) : Outcome string :=
  if CELL_DISPLAY_WIDTH + 1 <? 2 then Undefined BufferOverflow
  else match formula with
       | None => Undefined NullDereference
       | Some f => terms_to_string (terms f) "="
       end.

(** [model_init] *)
Definition model_init (w : World) : World :=
  with_cells (map (with_content TEXT (value_text None)) (spreadsheet w)) w.

(** The static array before [main] runs. *)
Definition initial_world : World :=
  {| spreadsheet := replicate (Z.to_nat (NUM_ROWS * NUM_COLS)) zero_cell;
     shown := [] |}.

(** [&spreadsheet[row][col]] *)
Definition cell_at (row col : Z) : CellPtr := row * NUM_COLS + col.

(** The display text for the result of an evaluation. *)
Definition result_display (result : double) : string :=
  if isnan result then "Error: circular dependency detected"
  else if isinf result then "Error: cell contains non-numeric value"
  else snprintf (CELL_DISPLAY_WIDTH + 1) (fmt_f result).

(** Runs a computation on the cell array of a world. *)
Definition on_cells {A} (m : M A) (w : World) : World * Outcome A :=
  let '(s, o) := m (spreadsheet w) in (with_cells s w, o).

(** [set_cell_value]; [fuel] bounds the depth of the evaluation. *)
Definition set_cell_value (fuel : nat) (row col : Z) (text : string) (w : World)
    : World * Outcome unit :=
  let cell := cell_at row col in
  match on_cells (load cell) w with
  | (_, Done _) =>
      (* free_formula of the formula held so far: no effect on the model *)
      if starts_with_equals text then
        match on_cells (modify cell (fun c => with_content FORMULA (value c) c)) w with
        | (w1, Done _) =>
            match string_to_formula text with
            | Done formula =>
                match on_cells (modify cell (with_content FORMULA (value_formula formula))) w1 with
                | (w2, Done _) =>
                    let w3 :=
                      match formula with
                      | None => update_cell_display row col "Error: Failed to parse formula" w2
                      | Some _ => w2
                      end in
                    match on_cells (evaluate_formula fuel formula) w3 with
                    | (w4, Done result) =>
                        (update_cell_display row col (result_display result) w4, Done tt)
                    | (w4, Undefined why) => (w4, Undefined why)
                    | (w4, OutOfFuel) => (w4, OutOfFuel)
                    end
                | (w2, Undefined why) => (w2, Undefined why)
                | (w2, OutOfFuel) => (w2, OutOfFuel)
                end
            | Undefined why => (w1, Undefined why)
            | OutOfFuel => (w1, OutOfFuel)
            end
        | (w1, Undefined why) => (w1, Undefined why)
        | (w1, OutOfFuel) => (w1, OutOfFuel)
        end
      else
        match strtod text with
        | Some (number, _) =>
            match on_cells (modify cell (with_content NUMBER (value_number number))) w with
            | (w1, Done _) => (update_cell_display row col text w1, Done tt)
            | (w1, Undefined why) => (w1, Undefined why)
            | (w1, OutOfFuel) => (w1, OutOfFuel)
            end
        | None =>
            match on_cells (modify cell (with_content TEXT (value_text (Some text)))) w with
            | (w1, Done _) => (update_cell_display row col text w1, Done tt)
            | (w1, Undefined why) => (w1, Undefined why)
            | (w1, OutOfFuel) => (w1, OutOfFuel)
            end
        end
  | (w0, Undefined why) => (w0, Undefined why)
  | (w0, OutOfFuel) => (w0, OutOfFuel)
  end.

(** [clear_cell] *)
Definition clear_cell (row col : Z) (w : World) : World * Outcome unit :=
  match on_cells (modify (cell_at row col) (with_content TEXT (value_text None))) w with
  | (w1, Done _) => (update_cell_display row col "" w1, Done tt)
  | other => other
  end.

(** [get_textual_value] *)
Definition get_textual_value (row col : Z) (w : World) : Outcome string :=
  match load (cell_at row col) (spreadsheet w) with
  | (_, Done c) =>
      match type c, value c with
      | FORMULA, value_formula formula => formula_to_string formula
      | NUMBER, value_number number =>
          Done (snprintf (CELL_DISPLAY_WIDTH + 1) (fmt_f number))
      | TEXT, value_text (Some text) => Done text
      | TEXT, value_text None => Done EmptyString
      | _, _ => Undefined InactiveMember
      end
  | (_, Undefined why) => Undefined why
  | (_, OutOfFuel) => OutOfFuel
  end.

End Model.

(** ** Vocabulary of the properties *)

(** *** What the cells hold, and which are marked *)

(** What a cell holds: its type and value, without the evaluation state. *)
Definition content (c : Cell) : CellType * CellValue := (type c, value c).

Definition contents (s : list Cell) : list (CellType * CellValue) := map content s.

Definition marks (s : list Cell) : list bool := map is_evaluating s.

(** The cell array with the cell at [cell] marked [st]. *)
Definition mark (cell : CellPtr) (st : EvaluationState) (c : Cell) (s : list Cell) : list Cell :=
  <[Z.to_nat cell := with_state st c]> s.

(** The number of cells that are not marked [EVALUATING]. *)
Definition unmarked (s : list Cell) : nat := count_occ bool_dec (marks s) false.

(** No cell is marked [EVALUATING]: no evaluation is under way, and none
    has left a mark behind. *)
Definition no_marks (s : list Cell) : bool :=
  forallb (fun c => negb (is_evaluating c)) s.

(** No reference among the terms [ts] is to a cell marked [EVALUATING]. *)
Definition refs_unmarked (s : list Cell) (ts : list Terms) : Prop :=
  forall cell c,
    In (Reference cell) ts -> 0 <= cell -> s !! Z.to_nat cell = Some c ->
    is_evaluating c = false.

(** *** Well-formed cell arrays *)

Definition term_ok (n : Z) (t : Terms) : bool :=
  match t with
  | Reference cell => (0 <=? cell) && (cell <? n)
  | Constant _ => true
  end.

(** Every reference of the formula is to a cell of the array. *)
Definition formula_ok (s : list Cell) (f : Formula) : bool :=
  forallb (term_ok (Z.of_nat (length s))) (terms f).

(** The type of a cell agrees with the member of the union that holds its
    value, and a formula is present and refers to cells of the array. *)
Definition content_ok (n : Z) (tv : CellType * CellValue) : bool :=
  match tv with
  | (TEXT, value_text _) => true
  | (NUMBER, value_number _) => true
  | (FORMULA, value_formula (Some f)) => forallb (term_ok n) (terms f)
  | _ => false
  end.

Definition well_formed (s : list Cell) : bool :=
  forallb (content_ok (Z.of_nat (length s))) (contents s).

(** *** Properties of computations *)

(** A computation that leaves what the cells hold alone. *)
Definition keeps_contents {A} (m : M A) : Prop :=
  forall s s' o, m s = (s', o) -> contents s' = contents s.

(** A computation that, when it ends with a result other than an infinity,
    leaves no mark [EVALUATING] of its own behind and clears none. *)
Definition keeps_marks (m : M double) : Prop :=
  forall s s' r, m s = (s', Done r) -> isinf r = false -> marks s' = marks s.

(** [call'] agrees with [call] wherever [call] does not run out of fuel. *)
Definition extends (call call' : option Formula -> M double) : Prop :=
  forall f s s' o, call f s = (s', o) -> o <> OutOfFuel -> call' f s = (s', o).

(** A call that ends with a result on every well-formed array with fewer
    than [n] unmarked cells. *)
Definition call_ends (n : nat) (call : option Formula -> M double) : Prop :=
  forall f s,
    forallb (term_ok (Z.of_nat (length s))) (terms f) = true ->
    well_formed s = true -> (unmarked s < n)%nat ->
    exists s' r, call (Some f) s = (s', Done r).

(** A term [bad] of the loop that makes it return [INFINITY] whenever the
    loop reaches it in an array that holds and marks what [s] does. *)
Definition returns_INFINITY_at (call : option Formula -> M double)
    (s : list Cell) (bad : Terms) : Prop :=
  forall rest answer s0 s' r,
    contents s0 = contents s -> marks s0 = marks s ->
    evaluate_terms call (bad :: rest) answer s0 = (s', Done r) -> r = INFINITY.

(** *** Formulas and their texts *)

(** Does the formula have a term that refers to [cell]? *)
Definition references (f : Formula) (cell : CellPtr) : bool :=
  existsb (fun t => match t with Reference c => c =? cell | Constant _ => false end)
          (terms f).

(** The tokens that the loop of [string_to_formula] sees for [text]. *)
Definition formula_tokens (text : string) : list string :=
  match text with
  | String _ rest => strtok_all rest EmptyString
  | EmptyString => []
  end.

(** What [get_cell_reference] prints for column [col] and row [row]. *)
Definition reference_text (row col : Z) : string :=
  String (fmt_c (col + char_val "A")) (fmt_d (row + 1)).

Fixpoint has_plus (s : string) : bool :=
  match s with
  | String c r => Ascii.eqb c "+" || has_plus r
  | EmptyString => false
  end.

Fixpoint all_digits (s : string) : bool :=
  match s with
  | String c r => isdigit c && all_digits r
  | EmptyString => true
  end.

(** The text of a number: [nan], [inf], [-inf], or digits after an optional
    minus sign. *)
Inductive number_text : string -> Prop :=
  | text_nan : number_text "nan"
  | text_inf : number_text "inf"
  | text_minus_inf : number_text "-inf"
  | text_digits d r :
      isdigit d = true -> has_plus r = false -> number_text (String d r)
  | text_minus_digits d r :
      isdigit d = true -> has_plus r = false -> number_text (String "-" (String d r)).

(** The facts about the reference text of one cell that the round trips
    need, as a test that can be run. *)
Definition reference_check (row col : Z) : bool :=
  let reference := reference_text row col in
  match reference with
  | String c0 digits =>
      (strlen reference + 1 <=? 4) && (2 <=? strlen reference)
      && String.eqb (c_str reference) reference
      && negb ((char_val "a" <=? char_val c0) && (char_val c0 <=? char_val "z"))
      && (char_val c0 - char_val "A" =? col)
      && (fst (strtol digits) =? row + 1)
      && String.eqb (snd (strtol digits)) ""
      && match strtod reference with None => true | Some _ => false end
      && negb (has_plus reference)
  | EmptyString => false
  end.

(** What the parser reads back from the text that [formula_to_string]
    prints for the constant [x]. *)
Definition reread (x : double) : option double :=
  option_map fst (strtod (snprintf 20 (fmt_f x))).

(** A term and what it becomes when it is rendered and parsed again: a
    reference stays; a constant becomes what is read back from its text. *)
Definition reparsed (t t' : Terms) : Prop :=
  match t, t' with
  | Reference cell, Reference cell' => cell' = cell
  | Constant x, Constant x' => reread x = Some x'
  | _, _ => False
  end.

(** *** Sessions *)

(** A session: the calls of [set_cell_value] for a list of edits
    [(row, col, text)], in order, stopping at the first that does not
    return. *)
Fixpoint run_edits (NUM_ROWS NUM_COLS CELL_DISPLAY_WIDTH : Z) (fuel : nat)
    (edits : list (Z * Z * string)) (w : World) : World * Outcome unit :=
  match edits with
  | [] => (w, Done tt)
  | (row, col, text) :: rest =>
      match set_cell_value NUM_ROWS NUM_COLS CELL_DISPLAY_WIDTH fuel row col text w with
      | (w', Done _) => run_edits NUM_ROWS NUM_COLS CELL_DISPLAY_WIDTH fuel rest w'
      | other => other
      end
  end.

(** A sample configuration, for runs on concrete inputs. *)
Module Sample.
Definition NUM_ROWS : Z := 10.
Definition NUM_COLS : Z := 7.
Definition CELL_DISPLAY_WIDTH : Z := 20.
End Sample.

(** ** Vocabulary of the further properties *)

(** A computation that leaves every cell marked [EVALUATING] as it is. *)
Definition keeps_marked {A} (m : M A) : Prop :=
  forall s s' o i c,
    m s = (s', o) -> s !! i = Some c -> is_evaluating c = true -> s' !! i = Some c.

(** What a term adds to the running sum when it is a constant, or a
    reference to a cell of the array that holds a number and is not marked
    [EVALUATING]. *)
Definition numeric_term (s : list Cell) (t : Terms) : option double :=
  match t with
  | Constant constant => Some constant
  | Reference cell =>
      if cell <? 0 then None
      else match s !! Z.to_nat cell with
           | Some c =>
               if is_evaluating c then None
               else match type c, value c with
                    | NUMBER, value_number number => Some number
                    | _, _ => None
                    end
           | None => None
           end
  end.

(** The cell array after the loop went over a numeric term: a referenced
    cell is marked [EVALUATED]. *)
Definition visit (s : list Cell) (t : Terms) : list Cell :=
  match t with
  | Constant _ => s
  | Reference cell =>
      match s !! Z.to_nat cell with
      | Some c => mark cell EVALUATED c s
      | None => s
      end
  end.

(** The type of a cell agrees with the member of the union that holds its
    value, and a formula is present. *)
Definition typed_content (tv : CellType * CellValue) : bool :=
  match tv with
  | (TEXT, value_text _) => true
  | (NUMBER, value_number _) => true
  | (FORMULA, value_formula (Some _)) => true
  | _ => false
  end.

Definition typed (s : list Cell) : bool := forallb typed_content (contents s).

Definition non_numeric_error : string := "Error: cell contains non-numeric value".

(** Two cell arrays that hold the same and have the same cells marked
    [EVALUATING]: they differ at most in which cells are [NOT_EVALUATED] and
    which [EVALUATED]. *)
Definition same_view (s s' : list Cell) : Prop :=
  contents s = contents s' /\ marks s = marks s'.

(** A computation that tells two such arrays apart neither by how it stops
    nor by the array it leaves. *)
Definition keeps_view {A} (m : M A) : Prop :=
  forall s1 s2 s1' s2' o1 o2,
    same_view s1 s2 -> m s1 = (s1', o1) -> m s2 = (s2', o2) ->
    o1 = o2 /\ same_view s1' s2'.

(** * Properties *)

(** ** The cell array under evaluation *)

Lemma load_Done cell s s' c :
  load cell s = (s', Done c) ->
  s' = s /\ 0 <= cell /\ s !! Z.to_nat cell = Some c.
Proof.
  unfold load. destruct (Z.ltb_spec cell 0); [discriminate|].
  destruct (s !! Z.to_nat cell) eqn:E; intros [= <- <-]; auto.
Qed.

Lemma load_lookup cell s c :
  0 <= cell -> s !! Z.to_nat cell = Some c -> load cell s = (s, Done c).
Proof.
  intros H E. unfold load. destruct (Z.ltb_spec cell 0); [lia|]. now rewrite E.
Qed.

Lemma load_same cell s s' o : load cell s = (s', o) -> s' = s.
Proof.
  unfold load. destruct (cell <? 0); [now intros [= <- _]|].
  destruct (s !! Z.to_nat cell); now intros [= <- _].
Qed.

Lemma set_state_lookup cell st s c :
  0 <= cell -> s !! Z.to_nat cell = Some c ->
  set_state cell st s = (<[Z.to_nat cell := with_state st c]> s, Done tt).
Proof.
  intros H E. unfold set_state, modify, bind. now rewrite (load_lookup _ _ _ H E).
Qed.

Lemma contents_insert_state (s : list Cell) i st c :
  s !! i = Some c -> contents (<[i := with_state st c]> s) = contents s.
Proof.
  intros E. unfold contents. rewrite list_fmap_insert.
  apply list_insert_id. now rewrite list_lookup_fmap, E.
Qed.

Lemma marks_insert (s : list Cell) i c :
  marks (<[i := c]> s) = <[i := is_evaluating c]> (marks s).
Proof. unfold marks. apply list_fmap_insert. Qed.

Lemma marks_lookup (s : list Cell) i c :
  s !! i = Some c -> marks s !! i = Some (is_evaluating c).
Proof. intros E. unfold marks. now rewrite list_lookup_fmap, E. Qed.

Lemma contents_lookup (s s' : list Cell) i c :
  contents s' = contents s -> s !! i = Some c ->
  exists c', s' !! i = Some c' /\ type c' = type c /\ value c' = value c.
Proof.
  intros H E.
  assert (E' : contents s' !! i = Some (content c))
    by (rewrite H; unfold contents; now rewrite list_lookup_fmap, E).
  unfold contents in E'. rewrite list_lookup_fmap in E'.
  destruct (s' !! i) as [c'|]; [|discriminate].
  exists c'. cbn in E'. unfold content in E'. injection E' as Ht Hv. auto.
Qed.

Lemma contents_length (s s' : list Cell) :
  contents s' = contents s -> length s' = length s.
Proof.
  intros H. apply (f_equal (@length _)) in H. unfold contents in H.
  now rewrite !length_map in H.
Qed.

(** One round of the loop at a reference to a cell of the array. *)
Lemma evaluate_terms_reference call cell rest answer s c :
  0 <= cell -> s !! Z.to_nat cell = Some c ->
  evaluate_terms call (Reference cell :: rest) answer s =
  if is_evaluating c then (s, Done NAN)
  else
    match type c, value c with
    | TEXT, _ => (s, Done INFINITY)
    | NUMBER, value_number number =>
        evaluate_terms call rest (add answer number) (mark cell EVALUATED c s)
    | FORMULA, value_formula formula =>
        match call formula (mark cell EVALUATING c s) with
        | (s1, Done formula_result) =>
            if isinf formula_result then (s1, Done INFINITY)
            else
              match s1 !! Z.to_nat cell with
              | Some c1 =>
                  evaluate_terms call rest (add answer formula_result)
                    (mark cell EVALUATED c1 s1)
              | None => (s1, Undefined OutOfBounds)
              end
        | (s1, Undefined why) => (s1, Undefined why)
        | (s1, OutOfFuel) => (s1, OutOfFuel)
        end
    | _, _ => (mark cell EVALUATING c s, Undefined InactiveMember)
    end.
Proof.
  intros Hp Hc. cbn [evaluate_terms]. unfold bind at 1.
  rewrite (load_lookup _ _ _ Hp Hc).
  destruct (is_evaluating c); [reflexivity|].
  assert (Hlt : (Z.to_nat cell < length s)%nat) by (eapply lookup_lt_Some; exact Hc).
  destruct (type c); [reflexivity| |].
  - unfold bind. rewrite (set_state_lookup _ _ _ _ Hp Hc).
    unfold get_number. destruct (value c); try reflexivity. unfold ret.
    erewrite set_state_lookup; [|exact Hp|now apply list_lookup_insert_eq].
    unfold mark. now rewrite list_insert_insert_eq.
  - unfold bind. rewrite (set_state_lookup _ _ _ _ Hp Hc).
    unfold get_formula. destruct (value c); try reflexivity. unfold ret, mark.
    destruct (call formula _) as [s1 [r| |]]; try reflexivity.
    destruct (isinf r); [reflexivity|].
    unfold set_state, modify, bind, load.
    destruct (Z.ltb_spec cell 0); [lia|].
    now destruct (s1 !! Z.to_nat cell).
Qed.

Lemma evaluate_terms_reference_outside call cell rest answer s :
  cell < 0 \/ s !! Z.to_nat cell = None ->
  evaluate_terms call (Reference cell :: rest) answer s = (s, Undefined OutOfBounds).
Proof.
  intros H. cbn [evaluate_terms]. unfold bind, load.
  destruct (Z.ltb_spec cell 0); [reflexivity|].
  destruct H as [H|H]; [lia|]. now rewrite H.
Qed.

Lemma contents_mark cell st c s :
  s !! Z.to_nat cell = Some c -> contents (mark cell st c s) = contents s.
Proof. apply contents_insert_state. Qed.

Lemma evaluate_terms_keeps_contents call ts :
  (forall f, keeps_contents (call f)) ->
  forall answer, keeps_contents (evaluate_terms call ts answer).
Proof.
  intros Hcall. induction ts as [|[p|k] rest IH]; intros answer s s' o.
  - now intros [= <- _].
  - destruct (Z.ltb_spec p 0) as [Hp|Hp];
      [rewrite evaluate_terms_reference_outside by auto; now intros [= <- _]|].
    destruct (s !! Z.to_nat p) as [c|] eqn:Hc;
      [|rewrite evaluate_terms_reference_outside by auto; now intros [= <- _]].
    rewrite (evaluate_terms_reference _ _ _ _ _ _ Hp Hc).
    destruct (is_evaluating c); [now intros [= <- _]|].
    pose proof (contents_mark p EVALUATING c s Hc) as Hm.
    destruct (type c), (value c); try (now intros [= <- _]).
    + intros H. apply IH in H. rewrite H. now apply contents_mark.
    + destruct (call formula _) as [s1 o1] eqn:Ecall.
      apply Hcall in Ecall. rewrite Hm in Ecall.
      destruct o1 as [r| |]; [|now intros [= <- _]..].
      destruct (isinf r); [now intros [= <- _]|].
      destruct (s1 !! Z.to_nat p) as [c1|] eqn:Hc1; [|now intros [= <- _]].
      intros H. apply IH in H. rewrite H. now rewrite contents_mark.
  - cbn [evaluate_terms]. apply IH.
Qed.

Lemma evaluate_formula_keeps_contents fuel formula :
  keeps_contents (evaluate_formula fuel formula).
Proof.
  revert formula. induction fuel as [|fuel IH]; intros [f|]; cbn [evaluate_formula];
    try (intros s s' o [= <- _]; reflexivity);
    apply evaluate_terms_keeps_contents; auto.
  intros f' s s' o [= <- _]; reflexivity.
Qed.

Lemma marks_mark_evaluated cell c c1 s s1 :
  s !! Z.to_nat cell = Some c -> is_evaluating c = false ->
  marks s1 = marks (mark cell EVALUATING c s) ->
  marks (mark cell EVALUATED c1 s1) = marks s.
Proof.
  intros Hc Hn H. unfold mark in *. rewrite marks_insert, H, marks_insert.
  rewrite list_insert_insert_eq. cbn.
  apply list_insert_id. rewrite (marks_lookup _ _ _ Hc). now rewrite Hn.
Qed.

Lemma evaluate_terms_keeps_marks call ts :
  (forall f, keeps_marks (call f)) ->
  forall answer, keeps_marks (evaluate_terms call ts answer).
Proof.
  intros Hcall. induction ts as [|[p|k] rest IH]; intros answer s s' res.
  - now intros [= <- _].
  - destruct (Z.ltb_spec p 0) as [Hp|Hp];
      [rewrite evaluate_terms_reference_outside by auto; discriminate|].
    destruct (s !! Z.to_nat p) as [c|] eqn:Hc;
      [|rewrite evaluate_terms_reference_outside by auto; discriminate].
    rewrite (evaluate_terms_reference _ _ _ _ _ _ Hp Hc).
    destruct (is_evaluating c) eqn:Hn; [now intros [= <- _]|].
    destruct (type c), (value c); try discriminate;
      try (intros [= <- <-]; discriminate).
    + intros H Hr. rewrite (IH _ _ _ _ H Hr).
      unfold mark. rewrite marks_insert. apply list_insert_id.
      rewrite (marks_lookup _ _ _ Hc). now rewrite Hn.
    + destruct (call formula _) as [s1 o1] eqn:Ecall.
      destruct o1 as [r| |]; [|discriminate..].
      destruct (isinf r) eqn:Hinf; [intros [= <- <-]; discriminate|].
      pose proof (Hcall _ _ _ _ Ecall Hinf) as Em.
      destruct (s1 !! Z.to_nat p) as [c1|] eqn:Hc1; [|discriminate].
      intros H Hr. rewrite (IH _ _ _ _ H Hr).
      now apply (marks_mark_evaluated _ c).
  - cbn [evaluate_terms]. apply IH.
Qed.

Lemma evaluate_formula_keeps_marks fuel formula :
  keeps_marks (evaluate_formula fuel formula).
Proof.
  revert formula. induction fuel as [|fuel IH]; intros [f|]; cbn [evaluate_formula];
    try (intros s s' o; discriminate);
    apply evaluate_terms_keeps_marks; auto.
  intros f' s s' o; discriminate.
Qed.

(** ** More fuel does not change an evaluation that ended *)

Lemma evaluate_terms_extends call call' ts :
  extends call call' ->
  forall answer s s' o,
    evaluate_terms call ts answer s = (s', o) -> o <> OutOfFuel ->
    evaluate_terms call' ts answer s = (s', o).
Proof.
  intros Hext. induction ts as [|[p|k] rest IH]; intros answer s s' o.
  - auto.
  - destruct (Z.ltb_spec p 0) as [Hp|Hp];
      [now rewrite !evaluate_terms_reference_outside by auto|].
    destruct (s !! Z.to_nat p) as [c|] eqn:Hc;
      [|now rewrite !evaluate_terms_reference_outside by auto].
    rewrite !(evaluate_terms_reference _ _ _ _ _ _ Hp Hc).
    destruct (is_evaluating c); [auto|].
    destruct (type c), (value c); auto.
    destruct (call formula _) as [s1 o1] eqn:Ecall.
    destruct o1 as [r| |].
    + rewrite (Hext _ _ _ _ Ecall) by discriminate.
      destruct (isinf r); [auto|]. destruct (s1 !! Z.to_nat p); auto.
    + now rewrite (Hext _ _ _ _ Ecall) by discriminate.
    + intros [= <- <-] H. now destruct H.
  - cbn [evaluate_terms]. apply IH.
Qed.

Lemma evaluate_formula_more_fuel fuel fuel' :
  (fuel <= fuel')%nat ->
  forall formula s s' o,
    evaluate_formula fuel formula s = (s', o) -> o <> OutOfFuel ->
    evaluate_formula fuel' formula s = (s', o).
Proof.
  revert fuel'. induction fuel as [|fuel IH]; intros fuel' Hle [f|] s s' o;
    destruct fuel' as [|fuel']; try lia; cbn [evaluate_formula]; auto.
  - apply evaluate_terms_extends. intros f' s0 s0' o0 [= <- <-] H. now destruct H.
  - apply evaluate_terms_extends. intros f' s0 s0' o0. apply IH. lia.
Qed.

(** ** Evaluation ends *)

Lemma well_formed_contents s s' :
  contents s' = contents s -> well_formed s' = well_formed s.
Proof.
  intros H. unfold well_formed. now rewrite H, (contents_length _ _ H).
Qed.

Lemma well_formed_lookup s i c :
  well_formed s = true -> s !! i = Some c ->
  content_ok (Z.of_nat (length s)) (content c) = true.
Proof.
  unfold well_formed. rewrite forallb_forall. intros H E. apply H.
  apply list_elem_of_In. apply list_elem_of_lookup. exists i.
  unfold contents. now rewrite list_lookup_fmap, E.
Qed.

Lemma count_occ_insert_true (l : list bool) i :
  l !! i = Some false ->
  S (count_occ bool_dec (<[i := true]> l) false) = count_occ bool_dec l false.
Proof.
  revert i. induction l as [|b l IH]; intros [|i]; cbn; try discriminate.
  - intros [= ->]. reflexivity.
  - intros E. destruct (bool_dec b false); rewrite <- (IH _ E); reflexivity.
Qed.

Lemma unmarked_mark_evaluating cell c s :
  s !! Z.to_nat cell = Some c -> is_evaluating c = false ->
  S (unmarked (mark cell EVALUATING c s)) = unmarked s.
Proof.
  intros Hc Hn. unfold unmarked, mark. rewrite marks_insert. cbn.
  apply count_occ_insert_true. rewrite (marks_lookup _ _ _ Hc). now rewrite Hn.
Qed.

Lemma unmarked_le_length s : (unmarked s <= length s)%nat.
Proof.
  unfold unmarked. etransitivity; [apply count_occ_bound|].
  unfold marks. now rewrite length_map.
Qed.

Lemma evaluate_terms_ends n call ts :
  call_ends n call ->
  (forall f, keeps_contents (call f)) ->
  (forall f, keeps_marks (call f)) ->
  forall answer s,
    forallb (term_ok (Z.of_nat (length s))) ts = true ->
    well_formed s = true -> (unmarked s <= n)%nat ->
    exists s' r, evaluate_terms call ts answer s = (s', Done r).
Proof.
  intros Hends Hcont Hmarks.
  induction ts as [|[p|k] rest IH]; intros answer s Hts Hwf Hn.
  - now exists s, answer.
  - cbn in Hts. apply andb_prop in Hts as [Hp Hts].
    apply andb_prop in Hp as [Hp0 Hp1]. apply Z.leb_le in Hp0. apply Z.ltb_lt in Hp1.
    destruct (lookup_lt_is_Some_2 s (Z.to_nat p)) as [c Hc]; [lia|].
    rewrite (evaluate_terms_reference _ _ _ _ _ _ Hp0 Hc).
    destruct (is_evaluating c) eqn:Hev; [now exists s, NAN|].
    pose proof (well_formed_lookup _ _ _ Hwf Hc) as Hok. unfold content in Hok.
    pose proof (contents_mark p EVALUATING c s Hc) as Hcm.
    destruct (type c), (value c); try discriminate.
    + now exists s, INFINITY.
    + apply IH.
      * unfold mark. now rewrite length_insert.
      * now rewrite (well_formed_contents _ _ (contents_mark _ _ _ _ Hc)).
      * assert (marks (mark p EVALUATED c s) = marks s) as Hm.
        { unfold mark. rewrite marks_insert. apply list_insert_id.
          rewrite (marks_lookup _ _ _ Hc). now rewrite Hev. }
        unfold unmarked. now rewrite Hm.
    + destruct formula as [f|]; [|discriminate].
      destruct (Hends f (mark p EVALUATING c s)) as (s1 & r & Ecall).
      * unfold mark. now rewrite length_insert.
      * now rewrite (well_formed_contents _ _ Hcm).
      * pose proof (unmarked_mark_evaluating _ _ _ Hc Hev). lia.
      * rewrite Ecall. destruct (isinf r) eqn:Hinf; [now exists s1, INFINITY|].
        pose proof (Hcont _ _ _ _ Ecall) as Hc1. rewrite Hcm in Hc1.
        pose proof (Hmarks _ _ _ _ Ecall Hinf) as Hm1.
        destruct (contents_lookup _ _ _ _ Hc1 Hc) as (c1 & Hl1 & _).
        rewrite Hl1. apply IH.
        -- unfold mark. now rewrite length_insert, (contents_length _ _ Hc1).
        -- rewrite (well_formed_contents s); [exact Hwf|].
           now rewrite contents_mark.
        -- unfold unmarked. now rewrite (marks_mark_evaluated _ c _ _ _ Hc Hev Hm1).
  - cbn [evaluate_terms]. apply IH; auto.
Qed.

(** With at least as much fuel as there are unmarked cells, the evaluation
    of a formula over a well-formed array ends with a result. *)
Lemma evaluate_formula_ends fuel f s :
  forallb (term_ok (Z.of_nat (length s))) (terms f) = true ->
  well_formed s = true -> (unmarked s <= fuel)%nat ->
  exists s' r, evaluate_formula fuel (Some f) s = (s', Done r).
Proof.
  revert f s. induction fuel as [|fuel IH]; intros f s Hf Hwf Hn;
    cbn [evaluate_formula].
  - apply (evaluate_terms_ends 0); auto.
    + intros f' s0 _ _ H. lia.
    + intros f' s0 s0' o [= <- _]. reflexivity.
    + intros f' s0 s0' o. discriminate.
  - apply (evaluate_terms_ends (S fuel)); auto.
    + intros f' s0 Hf' Hwf' H. apply IH; auto. lia.
    + intros f'. apply evaluate_formula_keeps_contents.
    + intros f'. apply evaluate_formula_keeps_marks.
Qed.

(** ** Editing a cell *)

Section Editing.

Variables NUM_ROWS NUM_COLS CELL_DISPLAY_WIDTH : Z.

Abbreviation set_cell_value := (set_cell_value NUM_ROWS NUM_COLS CELL_DISPLAY_WIDTH).
Abbreviation string_to_formula := (string_to_formula NUM_ROWS NUM_COLS).
Abbreviation parse_terms := (parse_terms NUM_ROWS NUM_COLS).
Abbreviation parse_term := (parse_term NUM_ROWS NUM_COLS).
Abbreviation get_cell_by_reference := (get_cell_by_reference NUM_ROWS NUM_COLS).
Abbreviation get_cell_reference := (get_cell_reference NUM_COLS).
Abbreviation formula_to_string := (formula_to_string NUM_COLS CELL_DISPLAY_WIDTH).
Abbreviation terms_to_string := (terms_to_string NUM_COLS CELL_DISPLAY_WIDTH).
Abbreviation term_to_string := (term_to_string NUM_COLS).
Abbreviation get_textual_value := (get_textual_value NUM_COLS CELL_DISPLAY_WIDTH).
Abbreviation result_display := (result_display CELL_DISPLAY_WIDTH).
Abbreviation initial_world := (initial_world NUM_ROWS NUM_COLS).
Abbreviation run_edits := (run_edits NUM_ROWS NUM_COLS CELL_DISPLAY_WIDTH).
Abbreviation cell_at := (cell_at NUM_COLS).

Lemma modify_lookup cell f s c :
  0 <= cell -> s !! Z.to_nat cell = Some c ->
  modify cell f s = (<[Z.to_nat cell := f c]> s, Done tt).
Proof.
  intros H E. unfold modify, bind. now rewrite (load_lookup _ _ _ H E).
Qed.

(** An edit that is not a formula and starts with a number. *)
Lemma set_cell_value_number fuel row col text w c number rest :
  0 <= cell_at row col ->
  spreadsheet w !! Z.to_nat (cell_at row col) = Some c ->
  starts_with_equals text = false ->
  strtod text = Some (number, rest) ->
  set_cell_value fuel row col text w =
  (update_cell_display row col text
     (with_cells (<[Z.to_nat (cell_at row col) :=
                      with_content NUMBER (value_number number) c]> (spreadsheet w)) w),
   Done tt).
Proof.
  intros Hp Hc Heq Hnum. unfold set_cell_value, on_cells.
  rewrite (load_lookup _ _ _ Hp Hc), Heq, Hnum.
  now rewrite (modify_lookup _ _ _ _ Hp Hc).
Qed.

(** An edit that is neither a formula nor starts with a number. *)
Lemma set_cell_value_text fuel row col text w c :
  0 <= cell_at row col ->
  spreadsheet w !! Z.to_nat (cell_at row col) = Some c ->
  starts_with_equals text = false ->
  strtod text = None ->
  set_cell_value fuel row col text w =
  (update_cell_display row col text
     (with_cells (<[Z.to_nat (cell_at row col) :=
                      with_content TEXT (value_text (Some text)) c]> (spreadsheet w)) w),
   Done tt).
Proof.
  intros Hp Hc Heq Hnum. unfold set_cell_value, on_cells.
  rewrite (load_lookup _ _ _ Hp Hc), Heq, Hnum.
  now rewrite (modify_lookup _ _ _ _ Hp Hc).
Qed.

(** An edit that is a formula: the world in which it is evaluated. *)
Lemma set_cell_value_formula fuel row col text w c formula :
  0 <= cell_at row col ->
  spreadsheet w !! Z.to_nat (cell_at row col) = Some c ->
  starts_with_equals text = true ->
  string_to_formula text = Done formula ->
  let s1 := <[Z.to_nat (cell_at row col) :=
                with_content FORMULA (value_formula formula) c]> (spreadsheet w) in
  let w3 :=
    match formula with
    | None => update_cell_display row col "Error: Failed to parse formula" (with_cells s1 w)
    | Some _ => with_cells s1 w
    end in
  set_cell_value fuel row col text w =
  match evaluate_formula fuel formula s1 with
  | (s4, Done result) =>
      (update_cell_display row col (result_display result)
         (with_cells s4 w3), Done tt)
  | (s4, Undefined why) => (with_cells s4 w3, Undefined why)
  | (s4, OutOfFuel) => (with_cells s4 w3, OutOfFuel)
  end.
Proof.
  intros Hp Hc Heq Hparse s1 w3. unfold set_cell_value, on_cells.
  rewrite (load_lookup _ _ _ Hp Hc), Heq.
  rewrite (modify_lookup _ _ _ _ Hp Hc). cbn [spreadsheet with_cells].
  rewrite Hparse.
  assert (Hlt : (Z.to_nat (cell_at row col) < length (spreadsheet w))%nat)
    by (eapply lookup_lt_Some; exact Hc).
  erewrite modify_lookup; [|exact Hp|now apply list_lookup_insert_eq].
  rewrite list_insert_insert_eq.
  change (with_content FORMULA (value_formula formula) (with_content FORMULA (value c) c))
    with (with_content FORMULA (value_formula formula) c).
  fold s1. subst w3.
  destruct formula as [f|]; cbn [spreadsheet with_cells update_cell_display];
    destruct (evaluate_formula fuel _ s1) as [s4 [r| |]]; reflexivity.
Qed.

(** *** Parsing *)

Lemma parse_terms_Some tokens : forall parsed f,
  parse_terms tokens parsed = Done (Some f) ->
  exists ts, terms f = parsed ++ ts /\
             Forall2 (fun tok t => parse_term tok = Some t) tokens ts.
Proof.
  induction tokens as [|tok rest IH]; intros parsed f; cbn [parse_terms].
  - intros [= <-]. exists []. cbn. now rewrite app_nil_r.
  - destruct (parse_term tok) as [t|] eqn:Et; [|discriminate].
    destruct (_ <? MAX_TERMS); [|discriminate].
    intros H. destruct (IH _ _ H) as (ts & Hts & Hall).
    exists (t :: ts). rewrite <- app_assoc in Hts. split; [exact Hts|].
    now constructor.
Qed.

Lemma parse_terms_overflow tokens : forall parsed,
  (length parsed <= 10)%nat ->
  (10 < length parsed + length tokens)%nat ->
  (forall tok, In tok (firstn (11 - length parsed) tokens) ->
               parse_term tok <> None) ->
  parse_terms tokens parsed = Undefined OutOfBounds.
Proof.
  induction tokens as [|tok rest IH]; intros parsed Hle Hgt Hall; cbn [parse_terms].
  - cbn in Hgt. lia.
  - destruct (parse_term tok) as [t|] eqn:Et.
    + unfold MAX_TERMS. destruct (Z.ltb_spec (Z.of_nat (length parsed)) 10); [|reflexivity].
      apply IH.
      * rewrite length_app. cbn. lia.
      * rewrite length_app. cbn in *. lia.
      * intros tok' Hin. apply Hall.
        replace (11 - length parsed)%nat with (S (11 - length (parsed ++ [t])))
          by (rewrite length_app; cbn; lia).
        now right.
    + exfalso. apply (Hall tok); [|exact Et].
      replace (11 - length parsed)%nat with (S (10 - length parsed)) by lia.
      now left.
Qed.

(** *** Claims on parsing and editing *)

(** C9: the input [=] parses into a formula without terms, and evaluating
    that formula yields the number 0, on any cell array and with any fuel. *)
Theorem C9_empty_formula_is_zero fuel s :
  string_to_formula "=" = Done (Some {| terms := [] |}) /\
  evaluate_formula fuel (Some {| terms := [] |}) s = (s, Done (S754_zero false)).
Proof. split; [reflexivity|]. now destruct fuel. Qed.

(** C2: the parser has no check of the number of terms.  A text with more
    than [MAX_TERMS] terms of which the first eleven each parse makes
    [string_to_formula] write [formula->terms[10]], outside the array; it
    does not return the failure [NULL]. *)
Theorem C2_eleven_terms_overflow text :
  (Z.to_nat MAX_TERMS < length (formula_tokens text))%nat ->
  (forall tok, In tok (firstn 11 (formula_tokens text)) -> parse_term tok <> None) ->
  string_to_formula text = Undefined OutOfBounds /\
  string_to_formula text <> Done None.
Proof.
  intros Hlen Hall. assert (H : string_to_formula text = Undefined OutOfBounds).
  { destruct text as [|c rest]; [cbn in Hlen; lia|].
    unfold string_to_formula. cbn [formula_tokens] in *.
    apply parse_terms_overflow; cbn [length]; try lia.
    - change (Z.to_nat MAX_TERMS) with 10%nat in Hlen. lia.
    - exact Hall. }
  split; [exact H|]. rewrite H. discriminate.
Qed.

(** C6: when the text after [=] fails to parse, the cell becomes a [FORMULA]
    cell holding the null formula, the display receives the parse error, and
    [evaluate_formula] is still called on the null formula: the run ends
    there in a null dereference. *)
Theorem C6_failed_parse_is_evaluated fuel row col text w c :
  0 <= cell_at row col ->
  spreadsheet w !! Z.to_nat (cell_at row col) = Some c ->
  starts_with_equals text = true ->
  string_to_formula text = Done None ->
  let w' :=
    {| spreadsheet :=
         <[Z.to_nat (cell_at row col) :=
             {| type := FORMULA; value := value_formula None; state := state c |}]>
           (spreadsheet w);
       shown := shown w ++ [(row, col, "Error: Failed to parse formula"%string)] |} in
  set_cell_value fuel row col text w = (w', Undefined NullDereference) /\
  on_cells (evaluate_formula fuel None) w' = (w', Undefined NullDereference).
Proof.
  intros Hp Hc Heq Hparse w'. split.
  - rewrite (set_cell_value_formula _ _ _ _ _ _ _ Hp Hc Heq Hparse).
    now destruct fuel.
  - now destruct fuel.
Qed.

(** C10: an input that does not start with [=] and of which [strtod]
    converts a prefix is stored as a [NUMBER] cell holding the value of
    the prefix, whatever follows the prefix; a term of a formula of which
    [strtod] converts a prefix becomes a constant term with that value. *)
Theorem C10_numeric_prefix_accepted :
  (forall fuel row col text w c number rest,
      0 <= cell_at row col ->
      spreadsheet w !! Z.to_nat (cell_at row col) = Some c ->
      starts_with_equals text = false ->
      strtod text = Some (number, rest) ->
      exists w',
        set_cell_value fuel row col text w = (w', Done tt) /\
        spreadsheet w' !! Z.to_nat (cell_at row col) =
          Some {| type := NUMBER; value := value_number number; state := state c |} /\
        shown w' = shown w ++ [(row, col, text)]) /\
  (forall text f i split_term number rest,
      string_to_formula text = Done (Some f) ->
      formula_tokens text !! i = Some split_term ->
      strtod split_term = Some (number, rest) ->
      terms f !! i = Some (Constant number)) /\
  strtod "5abc" = Some (of_Z 5, "abc"%string) /\
  string_to_formula "=5x+3" =
    Done (Some {| terms := [Constant (of_Z 5); Constant (of_Z 3)] |}).
Proof.
  split; [|split; [|split; reflexivity]].
  - intros fuel row col text w c number rest Hp Hc Heq Hnum.
    eexists. split; [apply (set_cell_value_number _ _ _ _ _ _ _ _ Hp Hc Heq Hnum)|].
    cbn. split; [|reflexivity].
    apply list_lookup_insert_eq. eapply lookup_lt_Some; exact Hc.
  - intros text f i tok number rest Hparse Htok Hnum.
    destruct text as [|c0 rest0]; [discriminate|].
    unfold string_to_formula in Hparse. cbn [formula_tokens] in Htok.
    destruct (parse_terms_Some _ _ _ Hparse) as (ts & Hts & Hall).
    cbn in Hts. rewrite Hts.
    destruct (Forall2_lookup_l _ _ _ _ _ Hall Htok) as (t & Ht & Hpt).
    rewrite Ht. unfold parse_term in Hpt. rewrite Hnum in Hpt. now injection Hpt as <-.
Qed.

(** *** References *)

Lemma forallb_below (P : Z -> bool) (n : nat) :
  forallb P (map Z.of_nat (seq 0 n)) = true ->
  forall z, 0 <= z < Z.of_nat n -> P z = true.
Proof.
  rewrite forallb_forall. intros H z Hz. apply H.
  rewrite <- (Z2Nat.id z) by lia. apply in_map. apply in_seq. lia.
Qed.

Lemma reference_check_all row col :
  0 <= row < 99 -> 0 <= col < 26 -> reference_check row col = true.
Proof.
  intros Hrow Hcol.
  assert (H : forallb (fun r => forallb (fun c => reference_check r c)
                                  (map Z.of_nat (seq 0 26)))
                (map Z.of_nat (seq 0 99)) = true) by (vm_compute; reflexivity).
  pose proof (forallb_below _ _ H row ltac:(lia)) as H1. cbv beta in H1.
  exact (forallb_below _ _ H1 col ltac:(lia)).
Qed.

Lemma cell_at_row row col :
  0 <= row -> 0 <= col < NUM_COLS -> Z.quot (cell_at row col) NUM_COLS = row.
Proof.
  intros Hr Hc. unfold cell_at. rewrite Z.quot_div_nonneg by nia.
  rewrite Z.div_add_l by lia. rewrite Z.div_small by lia. lia.
Qed.

Lemma cell_at_col row col :
  0 <= row -> 0 <= col < NUM_COLS -> Z.rem (cell_at row col) NUM_COLS = col.
Proof.
  intros Hr Hc. unfold cell_at. rewrite Z.rem_mod_nonneg by nia.
  rewrite Z.add_comm, Z.mod_add by lia. now apply Z.mod_small.
Qed.

Lemma get_cell_reference_cell_at row col :
  0 <= row < 99 -> 0 <= col < NUM_COLS -> col < 26 ->
  get_cell_reference (cell_at row col) = Done (reference_text row col).
Proof.
  intros Hrow Hcol Hmax. unfold get_cell_reference.
  rewrite cell_at_row, cell_at_col by lia. fold (reference_text row col).
  pose proof (reference_check_all row col Hrow ltac:(lia)) as H.
  unfold reference_check in H. destruct (reference_text row col) as [|c0 digits]; [discriminate|].
  repeat (apply andb_prop in H as [H ?]).
  rewrite H. f_equal. now apply String.eqb_eq.
Qed.

Lemma get_cell_by_reference_text row col :
  0 <= row < 99 -> row < NUM_ROWS -> 0 <= col < 26 ->
  get_cell_by_reference (reference_text row col) = Some (cell_at row col).
Proof.
  intros Hrow Hrows Hcol.
  pose proof (reference_check_all row col Hrow Hcol) as H.
  unfold reference_check in H. unfold get_cell_by_reference.
  destruct (reference_text row col) as [|c0 digits]; [discriminate|].
  repeat (apply andb_prop in H as [H ?]).
  repeat match goal with
         | E : negb _ = true |- _ => apply negb_true_iff in E
         | E : (_ =? _) = true |- _ => apply Z.eqb_eq in E
         | E : (_ <=? _) = true |- _ => apply Z.leb_le in E
         | E : String.eqb _ _ = true |- _ => apply String.eqb_eq in E
         end.
  destruct (Z.ltb_spec (strlen (String c0 digits)) 2); [lia|].
  match goal with E : (_ && _) = false |- _ => rewrite E end.
  destruct (strtol digits) as [v e]. cbn [fst snd] in *. subst v e.
  cbn [String.eqb negb orb].
  destruct (Z.ltb_spec (row + 1) 1); [lia|].
  destruct (Z.ltb_spec NUM_ROWS (row + 1)); [lia|].
  cbn [orb]. unfold cell_at. f_equal. lia.
Qed.

(** C7: for a grid of at most 26 columns and 99 rows, the reference text of
    the cell at a valid coordinate is looked up to that same cell, and the
    cell determines the coordinate. *)
Theorem C7_reference_round_trip row col :
  0 < NUM_COLS <= 26 -> NUM_ROWS <= 99 ->
  0 <= row < NUM_ROWS -> 0 <= col < NUM_COLS ->
  exists reference,
    get_cell_reference (cell_at row col) = Done reference /\
    get_cell_by_reference reference = Some (cell_at row col) /\
    Z.quot (cell_at row col) NUM_COLS = row /\
    Z.rem (cell_at row col) NUM_COLS = col.
Proof.
  intros Hcols Hrows Hrow Hcol. exists (reference_text row col).
  split; [|split; [|split]].
  - apply get_cell_reference_cell_at; lia.
  - apply get_cell_by_reference_text; lia.
  - apply cell_at_row; lia.
  - apply cell_at_col; lia.
Qed.

(** *** Texts that fit their buffer *)

Lemma string_take_all s : forall n, (String.length s <= n)%nat -> string_take n s = s.
Proof.
  induction s as [|c s IH]; intros [|n] H; cbn in *; try reflexivity; try lia.
  f_equal. apply IH. lia.
Qed.

Lemma snprintf_fits size s : strlen s + 1 <= size -> snprintf size s = s.
Proof. intros H. apply string_take_all. unfold strlen in H. lia. Qed.

Lemma strcat_fits size dest src :
  strlen (dest ++ src) + 1 <= size -> strcat size dest src = Done (dest ++ src)%string.
Proof. intros H. unfold strcat. now destruct (Z.leb_spec (strlen (dest ++ src) + 1) size); [|lia]. Qed.

Lemma result_display_number result :
  isnan result = false -> isinf result = false ->
  strlen (fmt_f result) <= CELL_DISPLAY_WIDTH ->
  result_display result = fmt_f result.
Proof.
  intros Hn Hi Hlen. unfold result_display. rewrite Hn, Hi. apply snprintf_fits. lia.
Qed.

(** *** Steps of the parser *)

Lemma parse_term_reference split_term cell :
  strtod split_term = None -> get_cell_by_reference split_term = Some cell ->
  parse_term split_term = Some (Reference cell).
Proof. intros H1 H2. unfold parse_term. now rewrite H1, H2. Qed.

Lemma parse_terms_cons split_term rest parsed term :
  parse_term split_term = Some term -> (length parsed < 10)%nat ->
  parse_terms (split_term :: rest) parsed = parse_terms rest (parsed ++ [term]).
Proof.
  intros H Hlen. cbn [parse_terms]. rewrite H.
  unfold MAX_TERMS. now destruct (Z.ltb_spec (Z.of_nat (length parsed)) 10); [|lia].
Qed.

(** *** Sessions from the initial grid *)

Lemma model_init_initial_world : model_init initial_world = initial_world.
Proof.
  unfold model_init, initial_world, with_cells. cbn [spreadsheet shown].
  f_equal. induction (Z.to_nat (NUM_ROWS * NUM_COLS)) as [|n IH]; [reflexivity|].
  cbn. now rewrite IH.
Qed.

(** The first row of the initial grid, when it has at least three columns. *)
Lemma initial_world_first_cells :
  1 <= NUM_ROWS -> 3 <= NUM_COLS ->
  initial_world =
  {| spreadsheet :=
       zero_cell :: zero_cell :: zero_cell
       :: replicate (Z.to_nat (NUM_ROWS * NUM_COLS) - 3) zero_cell;
     shown := [] |}.
Proof.
  intros Hr Hc. unfold initial_world. f_equal.
  replace (Z.to_nat (NUM_ROWS * NUM_COLS))
    with (3 + (Z.to_nat (NUM_ROWS * NUM_COLS) - 3))%nat at 1 by nia.
  reflexivity.
Qed.

Lemma get_cell_by_reference_A1 : 1 <= NUM_ROWS -> get_cell_by_reference "A1" = Some 0.
Proof. intros H. apply (get_cell_by_reference_text 0 0); lia. Qed.

Lemma get_cell_by_reference_B1 : 1 <= NUM_ROWS -> get_cell_by_reference "B1" = Some 1.
Proof. intros H. apply (get_cell_by_reference_text 0 1); lia. Qed.

Lemma get_cell_reference_first_row col :
  0 <= col < NUM_COLS -> col < 26 ->
  get_cell_reference col = Done (reference_text 0 col).
Proof. intros H H'. apply (get_cell_reference_cell_at 0 col); lia. Qed.

(** Replaces a length in the goal by its value. *)
Ltac run_strlen :=
  match goal with
  | |- context [strlen ?s] =>
      let n := eval vm_compute in (strlen s) in
      replace (strlen s) with n by (vm_compute; reflexivity)
  end.

(** Replaces the evaluation in the goal by its value. *)
Ltac run_evaluation :=
  match goal with
  | |- context [evaluate_formula ?fuel ?f ?s] =>
      let r := eval vm_compute in (evaluate_formula fuel f s) in
      replace (evaluate_formula fuel f s) with r by (vm_compute; reflexivity)
  end.

Lemma string_to_formula_sum :
  1 <= NUM_ROWS ->
  string_to_formula "=A1+B1+2" =
  Done (Some {| terms := [Reference 0; Reference 1; Constant (of_Z 2)] |}).
Proof.
  intros H.
  change (string_to_formula "=A1+B1+2") with (parse_terms ["A1"; "B1"; "2"]%string []).
  rewrite (parse_terms_cons "A1" _ _ (Reference 0))
    by first [cbn; lia|apply parse_term_reference; [reflexivity|now apply get_cell_by_reference_A1]].
  rewrite (parse_terms_cons "B1" _ _ (Reference 1))
    by first [cbn; lia|apply parse_term_reference; [reflexivity|now apply get_cell_by_reference_B1]].
  rewrite (parse_terms_cons "2" _ _ (Constant (of_Z 2)))
    by first [cbn; lia|reflexivity].
  reflexivity.
Qed.

(** *** Rendering *)

Lemma append_assoc (a b c : string) : ((a ++ b) ++ c = a ++ (b ++ c))%string.
Proof. induction a as [|x a IH]; [reflexivity|]. cbn. now rewrite IH. Qed.

Lemma append_nil_r (a : string) : (a ++ "" = a)%string.
Proof. induction a as [|x a IH]; [reflexivity|]. cbn. now rewrite IH. Qed.

Lemma strlen_append (a b : string) : strlen (a ++ b) = strlen a + strlen b.
Proof.
  unfold strlen. induction a as [|x a IH]; [reflexivity|].
  cbn [String.append String.length]. lia.
Qed.

Lemma strlen_nonneg (a : string) : 0 <= strlen a.
Proof. unfold strlen. lia. Qed.

(** When every term renders and the whole text fits the buffer,
    [formula_to_string] joins the pieces with [+]. *)
Lemma terms_to_string_pieces ts pieces :
  Forall2 (fun t p => term_to_string t = Done p) ts pieces ->
  forall text,
    strlen (text ++ String.concat "+" pieces) <= CELL_DISPLAY_WIDTH ->
    terms_to_string ts text = Done (text ++ String.concat "+" pieces)%string.
Proof.
  induction 1 as [|t p ts pieces Ht Hall IH]; intros text Hlen.
  - cbn. now rewrite append_nil_r.
  - cbn [terms_to_string]. rewrite Ht.
    destruct Hall as [|t' p' ts' pieces' Ht' Hall'].
    + cbn [String.concat] in *. now rewrite strcat_fits by lia.
    + change (String.concat "+" (p :: p' :: pieces'))
        with (p ++ "+" ++ String.concat "+" (p' :: pieces'))%string in *.
      rewrite !strlen_append in Hlen.
      pose proof (strlen_nonneg (String.concat "+" (p' :: pieces'))).
      rewrite strcat_fits by (rewrite strlen_append; change (strlen "+") with 1 in *; lia).
      rewrite strcat_fits
        by (rewrite !strlen_append; change (strlen "+") with 1 in *; lia).
      rewrite IH by (rewrite !strlen_append; lia).
      now rewrite !append_assoc.
Qed.

Lemma get_textual_value_formula row col w c formula :
  0 <= cell_at row col ->
  spreadsheet w !! Z.to_nat (cell_at row col) = Some c ->
  type c = FORMULA -> value c = value_formula formula ->
  get_textual_value row col w = formula_to_string formula.
Proof.
  intros Hp Hc Ht Hv. unfold get_textual_value.
  now rewrite (load_lookup _ _ _ Hp Hc), Ht, Hv.
Qed.

(** C5: on a grid with at least one row and three columns, and a display
    width of at least 15, setting A1 to [5], B1 to [3] and C1 to [=A1+B1+2]
    shows [10.000000] for C1; evaluating the formula of C1 yields the number
    10, and the textual value of C1 is [=A1+B1+2.000000]. *)
Theorem C5_sum_scenario fuel :
  1 <= NUM_ROWS -> 3 <= NUM_COLS -> 15 <= CELL_DISPLAY_WIDTH ->
  let formula := {| terms := [Reference 0; Reference 1; Constant (of_Z 2)] |} in
  let final :=
    {| spreadsheet :=
         {| type := NUMBER; value := value_number (of_Z 5); state := EVALUATED |}
         :: {| type := NUMBER; value := value_number (of_Z 3); state := EVALUATED |}
         :: {| type := FORMULA; value := value_formula (Some formula);
               state := NOT_EVALUATED |}
         :: replicate (Z.to_nat (NUM_ROWS * NUM_COLS) - 3) zero_cell;
       shown := [(0, 0, "5"); (0, 1, "3"); (0, 2, "10.000000")]%string |} in
  run_edits fuel [(0, 0, "5"); (0, 1, "3"); (0, 2, "=A1+B1+2")]%string
    (model_init initial_world) = (final, Done tt) /\
  evaluate_formula fuel (Some formula) (spreadsheet final)
    = (spreadsheet final, Done (of_Z 10)) /\
  get_textual_value 0 2 final = Done "=A1+B1+2.000000"%string.
Proof.
  intros Hrows Hcols Hwidth. cbv zeta.
  rewrite model_init_initial_world, (initial_world_first_cells Hrows) by lia.
  generalize (replicate (Z.to_nat (NUM_ROWS * NUM_COLS) - 3) zero_cell) as tail.
  intros tail. split; [|split].
  - cbn [run_edits].
    rewrite (set_cell_value_number _ 0 0 "5" _ zero_cell (of_Z 5) "")
      by (try reflexivity; vm_compute; discriminate).
    rewrite (set_cell_value_number _ 0 1 "3" _ zero_cell (of_Z 3) "")
      by (try reflexivity; vm_compute; discriminate).
    erewrite (set_cell_value_formula _ 0 2 "=A1+B1+2" _ zero_cell);
      [|vm_compute; discriminate|reflexivity|reflexivity|now apply string_to_formula_sum].
    destruct fuel; run_evaluation;
      (rewrite result_display_number; [reflexivity..|run_strlen; lia]).
  - destruct fuel; vm_compute; reflexivity.
  - erewrite (get_textual_value_formula 0 2);
      [|vm_compute; discriminate|reflexivity|reflexivity|reflexivity].
    unfold formula_to_string.
    destruct (Z.ltb_spec (CELL_DISPLAY_WIDTH + 1) 2); [lia|].
    apply (terms_to_string_pieces _ ["A1"; "B1"; "2.000000"]%string).
    + repeat constructor; apply get_cell_reference_first_row; lia.
    + run_strlen. lia.
Qed.

Lemma initial_world_split (n : nat) :
  Z.of_nat n <= NUM_ROWS * NUM_COLS ->
  initial_world =
  {| spreadsheet :=
       replicate n zero_cell
       ++ replicate (Z.to_nat (NUM_ROWS * NUM_COLS) - n) zero_cell;
     shown := [] |}.
Proof.
  intros H. unfold initial_world. f_equal. rewrite <- replicate_add. f_equal. lia.
Qed.

Lemma string_to_formula_B1 :
  1 <= NUM_ROWS -> string_to_formula "=B1" = Done (Some {| terms := [Reference 1] |}).
Proof.
  intros H. change (string_to_formula "=B1") with (parse_terms ["B1"]%string []).
  rewrite (parse_terms_cons "B1" _ _ (Reference 1))
    by first [cbn; lia|apply parse_term_reference; [reflexivity|now apply get_cell_by_reference_B1]].
  reflexivity.
Qed.

Lemma string_to_formula_A1 :
  1 <= NUM_ROWS -> string_to_formula "=A1" = Done (Some {| terms := [Reference 0] |}).
Proof.
  intros H. change (string_to_formula "=A1") with (parse_terms ["A1"]%string []).
  rewrite (parse_terms_cons "A1" _ _ (Reference 0))
    by first [cbn; lia|apply parse_term_reference; [reflexivity|now apply get_cell_by_reference_A1]].
  reflexivity.
Qed.

(** The session of C1, for any fuel. *)
Lemma mutual_reference_session fuel :
  1 <= NUM_ROWS -> 2 <= NUM_COLS ->
  let tail := replicate (Z.to_nat (NUM_ROWS * NUM_COLS) - 2) zero_cell in
  let A1 st := {| type := FORMULA; value := value_formula (Some {| terms := [Reference 1] |});
                  state := st |} in
  let B1 st := {| type := FORMULA; value := value_formula (Some {| terms := [Reference 0] |});
                  state := st |} in
  let first := (0, 0, "Error: cell contains non-numeric value"%string) in
  run_edits fuel [(0, 0, "=B1"); (0, 1, "=A1")]%string (model_init initial_world) =
  match fuel with
  | O => ({| spreadsheet := A1 EVALUATING :: B1 NOT_EVALUATED :: tail;
             shown := [first] |}, OutOfFuel)
  | S O => ({| spreadsheet := A1 EVALUATING :: B1 EVALUATING :: tail;
               shown := [first] |}, OutOfFuel)
  | S (S _) => ({| spreadsheet := A1 EVALUATED :: B1 EVALUATED :: tail;
                   shown := [first; (0, 1, "Error: circular dependency detected"%string)] |},
                Done tt)
  end.
Proof.
  intros Hrows Hcols. cbv zeta.
  rewrite model_init_initial_world, (initial_world_split 2) by nia.
  generalize (replicate (Z.to_nat (NUM_ROWS * NUM_COLS) - 2) zero_cell) as tail.
  intros tail. cbn [replicate app run_edits].
  erewrite (set_cell_value_formula _ 0 0 "=B1" _ zero_cell);
    [|vm_compute; discriminate|reflexivity|reflexivity|now apply string_to_formula_B1].
  replace (evaluate_formula fuel _ _)
    with ({| type := FORMULA; value := value_formula (Some {| terms := [Reference 1] |});
             state := NOT_EVALUATED |} :: zero_cell :: tail, Done INFINITY)
    by (destruct fuel; reflexivity).
  erewrite (set_cell_value_formula _ 0 1 "=A1" _ zero_cell);
    [|vm_compute; discriminate|reflexivity|reflexivity|now apply string_to_formula_A1].
  destruct fuel as [|[|fuel]]; [vm_compute; reflexivity..|].
  erewrite (evaluate_formula_more_fuel 2 (S (S fuel)));
    [|lia|vm_compute; reflexivity|discriminate].
  reflexivity.
Qed.

(** C1, amended: on the initial grid, setting A1 to [=B1] displays the
    non-numeric error, because B1 is still an empty text cell; then setting
    B1 to [=A1] displays the circular-dependency error.  No evaluation
    changes the type or the value of any cell. *)
Theorem C1_mutual_reference fuel :
  1 <= NUM_ROWS -> 2 <= NUM_COLS -> (2 <= fuel)%nat ->
  (exists w,
      run_edits fuel [(0, 0, "=B1"); (0, 1, "=A1")]%string (model_init initial_world)
        = (w, Done tt) /\
      shown w = [(0, 0, "Error: cell contains non-numeric value");
                 (0, 1, "Error: circular dependency detected")]%string /\
      contents (spreadsheet w) =
        (FORMULA, value_formula (Some {| terms := [Reference 1] |}))
        :: (FORMULA, value_formula (Some {| terms := [Reference 0] |}))
        :: replicate (Z.to_nat (NUM_ROWS * NUM_COLS) - 2) (TEXT, value_text None)) /\
  (forall formula s s' o,
      evaluate_formula fuel formula s = (s', o) -> contents s' = contents s).
Proof.
  intros Hrows Hcols Hfuel. split.
  - rewrite (mutual_reference_session fuel Hrows Hcols).
    destruct fuel as [|[|fuel]]; try lia.
    eexists. split; [reflexivity|]. split; [reflexivity|].
    cbn. do 2 f_equal. unfold contents.
    induction (Z.to_nat (NUM_ROWS * NUM_COLS) - 2)%nat as [|n IH]; [reflexivity|].
    cbn. now rewrite IH.
  - intros formula s s' o. apply evaluate_formula_keeps_contents.
Qed.

(** *** Which result an evaluation reports *)

Lemma add_NAN_l x : add NAN x = NAN.
Proof. now destruct x. Qed.

Lemma add_NAN_r x : add x NAN = NAN.
Proof. now destruct x. Qed.

Lemma isnan_NAN r : isnan r = true -> r = NAN.
Proof. now destruct r. Qed.

Lemma marks_eq_lookup s s' i c' :
  marks s' = marks s -> s' !! i = Some c' ->
  exists c, s !! i = Some c /\ is_evaluating c = is_evaluating c'.
Proof.
  intros H E. apply marks_lookup in E. rewrite H in E. unfold marks in E.
  rewrite list_lookup_fmap in E. destruct (s !! i) as [c|]; [|discriminate].
  exists c. split; [reflexivity|]. now injection E.
Qed.

Lemma marks_mark_unmarked cell c s :
  s !! Z.to_nat cell = Some c -> is_evaluating c = false ->
  marks (mark cell EVALUATED c s) = marks s.
Proof.
  intros Hc Hn. unfold mark. rewrite marks_insert. apply list_insert_id.
  rewrite (marks_lookup _ _ _ Hc). now rewrite Hn.
Qed.

(** With the running sum already NaN, the loop ends with NaN or with the
    error value [INFINITY]. *)
Lemma evaluate_terms_from_NAN call ts :
  forall s s' r,
    evaluate_terms call ts NAN s = (s', Done r) -> r = NAN \/ r = INFINITY.
Proof.
  induction ts as [|[p|k] rest IH]; intros s s' r.
  - intros [= _ <-]. now left.
  - destruct (Z.ltb_spec p 0) as [Hp|Hp];
      [rewrite evaluate_terms_reference_outside by auto; discriminate|].
    destruct (s !! Z.to_nat p) as [c|] eqn:Hc;
      [|rewrite evaluate_terms_reference_outside by auto; discriminate].
    rewrite (evaluate_terms_reference _ _ _ _ _ _ Hp Hc).
    destruct (is_evaluating c); [intros [= _ <-]; now left|].
    destruct (type c), (value c); try discriminate;
      try (intros [= _ <-]; now right).
    + rewrite add_NAN_l. apply IH.
    + destruct (call formula _) as [s1 [r1| |]]; try discriminate.
      destruct (isinf r1); [intros [= _ <-]; now right|].
      destruct (s1 !! Z.to_nat p); [|discriminate].
      rewrite add_NAN_l. apply IH.
  - cbn [evaluate_terms]. rewrite add_NAN_l. apply IH.
Qed.

(** If no reference of the loop is to a marked cell, the loop reaches each
    of its terms unless it returns [INFINITY] before. *)
Lemma evaluate_terms_reaches call s bad ts :
  (forall f, keeps_contents (call f)) ->
  (forall f, keeps_marks (call f)) ->
  refs_unmarked s ts ->
  returns_INFINITY_at call s bad -> In bad ts ->
  forall answer s0 s' r,
    contents s0 = contents s -> marks s0 = marks s ->
    evaluate_terms call ts answer s0 = (s', Done r) -> r = INFINITY.
Proof.
  intros Hcont Hmarks Hno Hbad.
  induction ts as [|t rest IH]; intros Hin answer s0 s' r Hc0 Hm0; [destruct Hin|].
  destruct Hin as [->|Hin]; [now apply Hbad|].
  assert (Hno' : refs_unmarked s rest)
    by (intros cell c H; apply Hno; now right).
  destruct t as [p|k]; [|cbn [evaluate_terms]; now apply IH].
  destruct (Z.ltb_spec p 0) as [Hp|Hp];
    [rewrite evaluate_terms_reference_outside by auto; discriminate|].
  destruct (s0 !! Z.to_nat p) as [c|] eqn:Hc;
    [|rewrite evaluate_terms_reference_outside by auto; discriminate].
  rewrite (evaluate_terms_reference _ _ _ _ _ _ Hp Hc).
  assert (Hev : is_evaluating c = false).
  { destruct (marks_eq_lookup _ _ _ _ Hm0 Hc) as (c' & Hc' & <-).
    apply (Hno p c'); auto. now left. }
  rewrite Hev.
  destruct (type c), (value c); try discriminate; try (now intros [= _ <-]).
  - apply IH; auto.
    + now rewrite contents_mark.
    + now rewrite marks_mark_unmarked.
  - destruct (call formula _) as [s1 [r1| |]] eqn:Ecall; try discriminate.
    destruct (isinf r1) eqn:Hinf; [now intros [= _ <-]|].
    pose proof (Hcont _ _ _ _ Ecall) as Hc1. rewrite contents_mark in Hc1 by exact Hc.
    pose proof (Hmarks _ _ _ _ Ecall Hinf) as Hm1.
    destruct (s1 !! Z.to_nat p) as [c1|] eqn:Hl1; [|discriminate].
    apply IH; auto.
    + rewrite contents_mark by exact Hl1. congruence.
    + rewrite (marks_mark_evaluated _ c _ _ _ Hc Hev Hm1). exact Hm0.
Qed.

Lemma no_marks_lookup s i c :
  no_marks s = true -> s !! i = Some c -> is_evaluating c = false.
Proof.
  unfold no_marks. rewrite forallb_forall. intros H E.
  apply negb_true_iff. apply H. apply list_elem_of_In.
  apply list_elem_of_lookup. eauto.
Qed.

Lemma no_marks_refs_unmarked s ts : no_marks s = true -> refs_unmarked s ts.
Proof. intros H cell c _ _ E. exact (no_marks_lookup _ _ _ H E). Qed.

Lemma references_In f cell :
  references f cell = true -> In (Reference cell) (terms f).
Proof.
  unfold references. rewrite existsb_exists. intros ([c|k] & Hin & H); [|discriminate].
  apply Z.eqb_eq in H. now subst c.
Qed.

Lemma not_references_In f cell cell' :
  references f cell = false -> In (Reference cell') (terms f) -> cell' <> cell.
Proof.
  intros H Hin ->. unfold references in H.
  rewrite (proj2 (existsb_exists _ _)) in H; [discriminate|].
  exists (Reference cell). split; [exact Hin|apply Z.eqb_refl].
Qed.

Lemma call_keeps_contents fuel f :
  keeps_contents
    (match fuel with O => fun _ => out_of_fuel | S fuel' => evaluate_formula fuel' end f).
Proof.
  destruct fuel; [intros ? ? ? [= <- _]; reflexivity|].
  apply evaluate_formula_keeps_contents.
Qed.

Lemma call_keeps_marks fuel f :
  keeps_marks
    (match fuel with O => fun _ => out_of_fuel | S fuel' => evaluate_formula fuel' end f).
Proof.
  destruct fuel; [intros ? ? ?; discriminate|].
  apply evaluate_formula_keeps_marks.
Qed.

Lemma evaluate_formula_Some fuel f :
  evaluate_formula fuel (Some f) =
  evaluate_terms
    (match fuel with O => fun _ => out_of_fuel | S fuel' => evaluate_formula fuel' end)
    (terms f) zero.
Proof. now destruct fuel. Qed.

(** A reference to an unmarked text cell makes the loop return [INFINITY]. *)
Lemma text_returns_INFINITY call s cell c :
  s !! Z.to_nat cell = Some c -> type c = TEXT -> is_evaluating c = false ->
  returns_INFINITY_at call s (Reference cell).
Proof.
  intros Hc Ht Hev rest answer s0 s' r Hc0 Hm0.
  destruct (Z.ltb_spec cell 0) as [Hp|Hp];
    [rewrite evaluate_terms_reference_outside by auto; discriminate|].
  destruct (contents_lookup _ _ _ _ Hc0 Hc) as (c0 & Hl0 & Ht0 & _).
  rewrite (evaluate_terms_reference _ _ _ _ _ _ Hp Hl0).
  destruct (marks_eq_lookup _ _ _ _ Hm0 Hl0) as (c' & Hc' & Hev').
  rewrite Hc in Hc'. injection Hc' as <-.
  rewrite <- Hev', Hev, Ht0, Ht. now intros [= _ <-].
Qed.

(** The evaluation of a formula that refers to a text cell, none of its
    references being to a marked cell, reports [INFINITY] if it ends with a
    result. *)
Lemma formula_over_text fuel f s cellA cA :
  s !! Z.to_nat cellA = Some cA -> type cA = TEXT ->
  references f cellA = true -> refs_unmarked s (terms f) ->
  forall s' r, evaluate_formula fuel (Some f) s = (s', Done r) -> r = INFINITY.
Proof.
  intros HcA HtA Href Hno s' r. rewrite evaluate_formula_Some.
  destruct (Z.ltb_spec cellA 0) as [Hp|Hp].
  - (* a reference before the array ends the evaluation without a result *)
    apply (evaluate_terms_reaches _ s (Reference cellA));
      auto using call_keeps_contents, call_keeps_marks, references_In.
    intros rest answer s0 s0' r0 _ _.
    rewrite evaluate_terms_reference_outside by auto. discriminate.
  - apply (evaluate_terms_reaches _ s (Reference cellA));
      auto using call_keeps_contents, call_keeps_marks, references_In.
    apply (text_returns_INFINITY _ _ _ cA); auto.
    apply (Hno cellA cA); auto using references_In.
Qed.

(** A reference to an unmarked formula cell of which the formula refers to a
    text cell, and not to the formula cell itself, makes the loop return
    [INFINITY]. *)
Lemma formula_over_text_returns_INFINITY fuel s cellB cB fB cellA cA :
  no_marks s = true ->
  s !! Z.to_nat cellB = Some cB -> type cB = FORMULA ->
  value cB = value_formula (Some fB) ->
  references fB cellA = true -> references fB cellB = false ->
  s !! Z.to_nat cellA = Some cA -> type cA = TEXT ->
  returns_INFINITY_at
    (match fuel with O => fun _ => out_of_fuel | S fuel' => evaluate_formula fuel' end)
    s (Reference cellB).
Proof.
  intros Hno HcB HtB HvB HrefA HrefB HcA HtA rest answer s0 s' r Hc0 Hm0.
  destruct (Z.ltb_spec cellB 0) as [Hp|Hp];
    [rewrite evaluate_terms_reference_outside by auto; discriminate|].
  destruct (contents_lookup _ _ _ _ Hc0 HcB) as (c0 & Hl0 & Ht0 & Hv0).
  rewrite (evaluate_terms_reference _ _ _ _ _ _ Hp Hl0).
  destruct (marks_eq_lookup _ _ _ _ Hm0 Hl0) as (c' & Hc' & Hev).
  rewrite <- Hev, (no_marks_lookup _ _ _ Hno Hc'), Ht0, HtB, Hv0, HvB.
  destruct fuel as [|fuel]; [discriminate|].
  destruct (evaluate_formula fuel (Some fB) _) as [s1 [r1| |]] eqn:Ecall; try discriminate.
  assert (HcsB : contents (mark cellB EVALUATING c0 s0) = contents s)
    by (rewrite contents_mark by exact Hl0; exact Hc0).
  destruct (contents_lookup _ _ _ _ HcsB HcA) as (cA' & HlA & HtA' & _).
  rewrite (formula_over_text _ _ _ _ _ HlA (eq_trans HtA' HtA) HrefA) with (2 := Ecall);
    [now intros [= _ <-]|].
  intros cell c Hin Hcell Hl.
  pose proof (not_references_In _ _ _ HrefB Hin) as Hne.
  unfold mark in Hl. rewrite list_lookup_insert_ne in Hl by lia.
  destruct (marks_eq_lookup _ _ _ _ Hm0 Hl) as (c'' & Hc'' & <-).
  exact (no_marks_lookup _ _ _ Hno Hc'').
Qed.

(** *** Claims on the evaluation *)

(** C3, amended: the call that finds a referenced cell marked [EVALUATING]
    returns NaN at once, whatever its running sum, leaving the array as it
    is and its remaining terms alone.  An enclosing call of which the
    recursive call reported NaN does not abort: it marks the cell
    [EVALUATED] and goes on with its remaining terms, the running sum being
    NaN; it then ends with NaN unless a later term makes it return the
    non-numeric error [INFINITY]. *)
Theorem C3_circular_detection call cell rest answer s c :
  0 <= cell -> s !! Z.to_nat cell = Some c ->
  (is_evaluating c = true ->
   evaluate_terms call (Reference cell :: rest) answer s = (s, Done NAN)) /\
  (forall formula s1 c1 r,
      is_evaluating c = false -> type c = FORMULA -> value c = value_formula formula ->
      call formula (mark cell EVALUATING c s) = (s1, Done r) -> isnan r = true ->
      s1 !! Z.to_nat cell = Some c1 ->
      evaluate_terms call (Reference cell :: rest) answer s =
      evaluate_terms call rest NAN (mark cell EVALUATED c1 s1)) /\
  (forall s2 s' r,
      evaluate_terms call rest NAN s2 = (s', Done r) -> r = NAN \/ r = INFINITY).
Proof.
  intros Hp Hc. split; [|split].
  - intros Hev. now rewrite (evaluate_terms_reference _ _ _ _ _ _ Hp Hc), Hev.
  - intros formula s1 c1 r Hev Ht Hv Hcall Hnan Hc1.
    rewrite (evaluate_terms_reference _ _ _ _ _ _ Hp Hc), Hev, Ht, Hv, Hcall, Hc1.
    apply isnan_NAN in Hnan. subst r. cbn [isinf NAN]. now rewrite add_NAN_r.
  - apply evaluate_terms_from_NAN.
Qed.

(** C4, amended: on a well-formed cell array without marks [EVALUATING],
    with enough fuel, a formula that refers to a text cell evaluates to the
    non-numeric error [INFINITY]; so does a formula that refers to a formula
    cell B of which the formula refers to a text cell and not to B itself.
    On the initial grid, A1 set to [hello] and B1 to [=A1+1] displays the
    non-numeric error for B1. *)
Theorem C4_non_numeric_propagation fuel :
  (forall s,
      well_formed s = true -> no_marks s = true -> (length s <= fuel)%nat ->
      (forall f cellA cA,
          formula_ok s f = true -> references f cellA = true ->
          s !! Z.to_nat cellA = Some cA -> type cA = TEXT ->
          exists s', evaluate_formula fuel (Some f) s = (s', Done INFINITY)) /\
      (forall g cellB cB fB cellA cA,
          formula_ok s g = true -> references g cellB = true ->
          s !! Z.to_nat cellB = Some cB -> type cB = FORMULA ->
          value cB = value_formula (Some fB) ->
          references fB cellA = true -> references fB cellB = false ->
          s !! Z.to_nat cellA = Some cA -> type cA = TEXT ->
          exists s', evaluate_formula fuel (Some g) s = (s', Done INFINITY))) /\
  (1 <= NUM_ROWS -> 2 <= NUM_COLS ->
   exists w,
     run_edits fuel [(0, 0, "hello"); (0, 1, "=A1+1")]%string (model_init initial_world)
       = (w, Done tt) /\
     shown w = [(0, 0, "hello"); (0, 1, "Error: cell contains non-numeric value")]%string).
Proof.
  split.
  - intros s Hwf Hno Hfuel.
    assert (Hends : forall f, formula_ok s f = true ->
                         exists s' r, evaluate_formula fuel (Some f) s = (s', Done r)).
    { intros f Hf. apply evaluate_formula_ends; auto.
      pose proof (unmarked_le_length s). lia. }
    split.
    + intros f cellA cA Hf Href HcA HtA.
      destruct (Hends f Hf) as (s' & r & E). exists s'.
      now rewrite (formula_over_text _ _ _ _ _ HcA HtA Href
                     (no_marks_refs_unmarked _ _ Hno) _ _ E) in E.
    + intros g cellB cB fB cellA cA Hg HrefB HcB HtB HvB HrefA Hself HcA HtA.
      destruct (Hends g Hg) as (s' & r & E). exists s'.
      enough (r = INFINITY) by congruence.
      rewrite evaluate_formula_Some in E.
      apply (evaluate_terms_reaches _ s (Reference cellB) (terms g)) with (8 := E);
        auto using call_keeps_contents, call_keeps_marks, references_In,
          no_marks_refs_unmarked.
      now apply (formula_over_text_returns_INFINITY fuel s cellB cB fB cellA cA).
  - intros Hrows Hcols.
    rewrite model_init_initial_world, (initial_world_split 2) by nia.
    generalize (replicate (Z.to_nat (NUM_ROWS * NUM_COLS) - 2) zero_cell) as tail.
    intros tail. cbn [replicate app run_edits].
    rewrite (set_cell_value_text _ 0 0 "hello" _ zero_cell)
      by (try reflexivity; vm_compute; discriminate).
    assert (Hparse : string_to_formula "=A1+1" =
                     Done (Some {| terms := [Reference 0; Constant (of_Z 1)] |})).
    { change (string_to_formula "=A1+1") with (parse_terms ["A1"; "1"]%string []).
      rewrite (parse_terms_cons "A1" _ _ (Reference 0))
        by first [cbn; lia|apply parse_term_reference;
                            [reflexivity|now apply get_cell_by_reference_A1]].
      rewrite (parse_terms_cons "1" _ _ (Constant (of_Z 1))) by first [cbn; lia|reflexivity].
      reflexivity. }
    erewrite (set_cell_value_formula _ 0 1 "=A1+1" _ zero_cell);
      [|vm_compute; discriminate|reflexivity|reflexivity|exact Hparse].
    eexists. destruct fuel; split; reflexivity.
Qed.

(** *** Rendering and parsing again *)

Lemma strtok_all_token p : forall s tok,
  has_plus p = false -> strtok_all (p ++ s) tok = strtok_all s (tok ++ p).
Proof.
  induction p as [|c p IH]; intros s tok H.
  - now rewrite append_nil_r.
  - cbn [has_plus] in H. apply orb_false_iff in H as [Hc Hp].
    cbn [String.append strtok_all]. rewrite Hc, IH by exact Hp.
    now rewrite append_assoc.
Qed.

Lemma strtok_all_end tok : tok <> EmptyString -> strtok_all EmptyString tok = [tok].
Proof. now destruct tok. Qed.

Lemma strtok_all_plus s tok :
  tok <> EmptyString -> strtok_all (String "+" s) tok = tok :: strtok_all s EmptyString.
Proof. now destruct tok. Qed.

(** Pieces without [+] that are joined by [+] are the tokens of the text. *)
Lemma strtok_all_concat pieces :
  Forall (fun p => p <> EmptyString /\ has_plus p = false) pieces ->
  strtok_all (String.concat "+" pieces) EmptyString = pieces.
Proof.
  induction 1 as [|p pieces [Hne Hp] Hall IH]; [reflexivity|].
  destruct pieces as [|p' pieces].
  - cbn [String.concat]. rewrite <- (append_nil_r p) at 1.
    rewrite strtok_all_token by exact Hp. now apply strtok_all_end.
  - change (String.concat "+" (p :: p' :: pieces))
      with (p ++ String "+" (String.concat "+" (p' :: pieces)))%string.
    rewrite strtok_all_token by exact Hp. cbn [String.append].
    rewrite strtok_all_plus by exact Hne. now rewrite IH.
Qed.

Lemma strcat_Done size dest src r :
  strcat size dest src = Done r -> r = (dest ++ src)%string.
Proof. unfold strcat. destruct (_ <=? _); [now intros [= <-]|discriminate]. Qed.

(** What [formula_to_string] returns is made of the texts of the terms. *)
Lemma terms_to_string_Done ts : forall text r,
  terms_to_string ts text = Done r ->
  exists pieces,
    Forall2 (fun t p => term_to_string t = Done p) ts pieces /\
    r = (text ++ String.concat "+" pieces)%string.
Proof.
  induction ts as [|t rest IH]; intros text r.
  - intros [= <-]. exists []. split; [constructor|]. now rewrite append_nil_r.
  - cbn [terms_to_string].
    destruct (term_to_string t) as [piece| |] eqn:Et; try discriminate.
    destruct (strcat _ text piece) as [text1| |] eqn:E1; try discriminate.
    apply strcat_Done in E1. subst text1.
    destruct rest as [|t' rest'].
    + intros [= <-]. exists [piece]. split; [now repeat constructor|reflexivity].
    + destruct (strcat _ _ "+") as [text2| |] eqn:E2; try discriminate.
      apply strcat_Done in E2. subst text2. intros H.
      destruct (IH _ _ H) as (pieces & Hall & ->).
      exists (piece :: pieces). split; [now constructor|].
      inversion Hall; subst.
      change (String.concat "+" (piece :: ?y :: ?l'))
        with (piece ++ String "+" (String.concat "+" (y :: l')))%string.
      now rewrite !append_assoc.
Qed.

Lemma parse_terms_all pieces : forall ts parsed,
  Forall2 (fun p t => parse_term p = Some t) pieces ts ->
  (length parsed + length pieces <= 10)%nat ->
  parse_terms pieces parsed = Done (Some {| terms := parsed ++ ts |}).
Proof.
  induction pieces as [|p pieces IH]; intros ts parsed Hall Hlen; inversion Hall; subst.
  - cbn. now rewrite app_nil_r.
  - cbn [length] in Hlen. rewrite (parse_terms_cons _ _ _ y) by (auto; lia).
    rewrite (IH l') by (auto; rewrite length_app; cbn; lia).
    now rewrite <- app_assoc.
Qed.

Lemma parse_terms_length tokens : forall parsed f,
  parse_terms tokens parsed = Done (Some f) ->
  (length parsed <= 10)%nat -> (length (terms f) <= 10)%nat.
Proof.
  induction tokens as [|tok rest IH]; intros parsed f; cbn [parse_terms].
  - now intros [= <-].
  - destruct (parse_term tok) as [t|]; [|discriminate].
    unfold MAX_TERMS. destruct (Z.ltb_spec (Z.of_nat (length parsed)) 10); [|discriminate].
    intros Hparse _. apply (IH _ _ Hparse). rewrite length_app. cbn. lia.
Qed.

(** *** The text of a constant *)

Lemma digit_cases d :
  isdigit d = true ->
  In d ["0"; "1"; "2"; "3"; "4"; "5"; "6"; "7"; "8"; "9"]%char.
Proof.
  destruct d as [[] [] [] [] [] [] [] []]; intros H; try discriminate H;
    cbn; auto 12.
Qed.

Lemma digit_no_plus d : isdigit d = true -> Ascii.eqb d "+" = false.
Proof.
  intros H. apply digit_cases in H. cbn in H.
  repeat (destruct H as [<-|H]; [reflexivity|]). destruct H.
Qed.

Lemma all_digits_no_plus s : all_digits s = true -> has_plus s = false.
Proof.
  induction s as [|c s IH]; [reflexivity|]. cbn. intros H.
  apply andb_prop in H as [Hc Hs]. now rewrite (digit_no_plus _ Hc), IH.
Qed.

Lemma has_plus_append a b : has_plus (a ++ b) = has_plus a || has_plus b.
Proof.
  induction a as [|c a IH]; [reflexivity|]. cbn. rewrite IH. apply orb_assoc.
Qed.

Lemma has_plus_take s : forall n, has_plus s = false -> has_plus (string_take n s) = false.
Proof.
  induction s as [|c s IH]; intros [|n] H; try reflexivity.
  cbn in *. apply orb_false_iff in H as [Hc Hs]. now rewrite Hc, IH.
Qed.

Lemma all_digits_uint d : all_digits (NilEmpty.string_of_uint d) = true.
Proof. induction d; cbn; auto. Qed.

(** [%d] of a number that is not negative: digits, at least one. *)
Lemma fmt_d_digits n :
  0 <= n -> exists c r, fmt_d n = String c r /\ isdigit c = true /\ all_digits r = true.
Proof.
  intros Hn. unfold fmt_d. destruct n as [|p|p]; [now exists "0"%char, EmptyString| |lia].
  cbn [Z.to_int NilZero.string_of_int NilZero.string_of_uint].
  pose proof (all_digits_uint (Pos.to_uint p)) as H.
  destruct (Pos.to_uint p) eqn:E; cbn in *; try (apply andb_prop in H as [Hc Hr]);
    eexists _, _; (split; [reflexivity|auto]).
Qed.

Lemma digit_char_digit d : 0 <= d < 10 -> isdigit (digit_char d) = true.
Proof.
  intros H. apply (forallb_below (fun d => isdigit (digit_char d)) 10); [reflexivity|lia].
Qed.

Lemma six_digits_digits n : all_digits (six_digits n) = true.
Proof.
  unfold six_digits. cbn [all_digits].
  rewrite !digit_char_digit by (apply Z.mod_pos_bound; lia). reflexivity.
Qed.

Lemma millionths_nonneg m e : 0 <= millionths m e.
Proof.
  unfold millionths, div_nearest_even. destruct (Z.leb_spec 0 e).
  - pose proof (Z.pow_nonneg 2 e ltac:(lia)). nia.
  - assert (0 < 2 ^ (- e)) by (apply Z.pow_pos_nonneg; lia).
    pose proof (Z.div_pos (Z.pos m * 1000000) (2 ^ (- e)) ltac:(lia) ltac:(lia)).
    destruct (_ ?= _); try destruct (Z.even _); lia.
Qed.

Lemma fmt_f_number_text x : number_text (fmt_f x).
Proof.
  destruct x as [[]|[]| |[] m e]; cbn [fmt_f fmt_sign];
    try (constructor; reflexivity).
  all: assert (Hn : 0 <= millionths m e / 1000000)
         by (apply Z.div_pos; [apply millionths_nonneg|lia]).
  all: destruct (fmt_d_digits _ Hn) as (c & r & -> & Hc & Hr); cbn [String.append].
  all: constructor; [exact Hc|].
  all: rewrite has_plus_append; cbn [has_plus].
  all: rewrite (all_digits_no_plus _ Hr), (all_digits_no_plus _ (six_digits_digits _)).
  all: reflexivity.
Qed.

Lemma snprintf_number_text s : number_text s -> number_text (snprintf 20 s).
Proof.
  intros [| | |d r Hd Hr|d r Hd Hr].
  - exact text_nan.
  - exact text_inf.
  - exact text_minus_inf.
  - apply (text_digits d (string_take 18 r)); auto using has_plus_take.
  - apply (text_minus_digits d (string_take 17 r)); auto using has_plus_take.
Qed.

Lemma number_text_no_plus s : number_text s -> has_plus s = false.
Proof.
  intros [| | |d r Hd Hr|d r Hd Hr]; try reflexivity; cbn;
    now rewrite (digit_no_plus _ Hd), Hr.
Qed.

Lemma number_text_not_empty s : number_text s -> s <> EmptyString.
Proof. intros [| | |d r Hd Hr|d r Hd Hr]; discriminate. Qed.

Lemma read_digits_count s : forall acc n,
  n <= snd (fst (read_digits s acc n)).
Proof.
  induction s as [|c s IH]; intros acc n; cbn [read_digits]; [cbn; lia|].
  destruct (isdigit c); [|cbn; lia].
  etransitivity; [|apply IH]. lia.
Qed.

Lemma read_decimal_digit neg d r :
  isdigit d = true -> read_decimal neg (String d r) <> None.
Proof.
  intros Hd. unfold read_decimal, read_mantissa. cbn [read_digits]. rewrite Hd.
  pose proof (read_digits_count r (10 * 0 + (char_code d - 48)) (0 + 1)) as Hn.
  destruct (read_digits r _ _) as [[m ni] r1]. cbn [fst snd] in Hn.
  destruct r1 as [|c r2].
  - destruct (Z.eqb_spec ni 0); [lia|]. now destruct (read_exponent _ _).
  - destruct (Ascii.eqb c ".").
    + pose proof (read_digits_count r2 m 0) as Hf.
      destruct (read_digits r2 m 0) as [[m' nf] r3]. cbn [fst snd] in Hf.
      destruct (Z.eqb_spec (ni + nf) 0); [lia|].
      destruct (Z.eqb_spec (ni + nf) 0); [lia|]. now destruct (read_exponent _ _).
    + destruct (Z.eqb_spec ni 0); [lia|]. now destruct (read_exponent _ _).
Qed.

Lemma read_number_digit neg d r :
  isdigit d = true -> read_number neg (String d r) <> None.
Proof.
  intros Hd. unfold read_number.
  assert (Hw : forall w, In w ["infinity"; "inf"; "nan"]%string ->
                         skip_word w (String d r) = None).
  { intros w Hw. apply digit_cases in Hd. cbn in Hd, Hw.
    repeat (destruct Hd as [<-|Hd];
            [repeat (destruct Hw as [<-|Hw]; [reflexivity|]); destruct Hw|]).
    destruct Hd. }
  rewrite !Hw by (cbn; auto).
  destruct (read_hex neg _); [discriminate|]. now apply read_decimal_digit.
Qed.

Lemma strtod_digit d r : isdigit d = true -> strtod (String d r) <> None.
Proof.
  intros Hd. unfold strtod.
  assert (E : read_sign (skip_space (String d r)) = (false, String d r)).
  { apply digit_cases in Hd. cbn in Hd.
    repeat (destruct Hd as [<-|Hd]; [reflexivity|]). destruct Hd. }
  rewrite E. now apply read_number_digit.
Qed.

Lemma strtod_minus_digit d r :
  isdigit d = true -> strtod (String "-" (String d r)) <> None.
Proof. intros Hd. unfold strtod. cbn. now apply read_number_digit. Qed.

(** The text of a number is read back as a number. *)
Lemma strtod_number_text s : number_text s -> strtod s <> None.
Proof.
  intros [| | |d r Hd Hr|d r Hd Hr]; try discriminate.
  - now apply strtod_digit.
  - now apply strtod_minus_digit.
Qed.

Lemma parse_term_number x :
  exists x', reread x = Some x' /\
             parse_term (snprintf 20 (fmt_f x)) = Some (Constant x').
Proof.
  pose proof (strtod_number_text _ (snprintf_number_text _ (fmt_f_number_text x))) as H.
  unfold reread, parse_term.
  destruct (strtod (snprintf 20 (fmt_f x))) as [[x' rest]|]; [|congruence].
  now exists x'.
Qed.

(** The text of a reference to a cell of the grid is parsed as a reference
    to that cell. *)
Lemma reference_piece cell piece :
  0 < NUM_COLS <= 26 -> NUM_ROWS <= 99 ->
  0 <= cell < NUM_ROWS * NUM_COLS ->
  get_cell_reference cell = Done piece ->
  parse_term piece = Some (Reference cell) /\
  piece <> EmptyString /\ has_plus piece = false.
Proof.
  intros Hcols Hrows Hcell.
  set (row := cell / NUM_COLS). set (col := cell mod NUM_COLS).
  assert (Hcol : 0 <= col < NUM_COLS) by (apply Z.mod_pos_bound; lia).
  assert (Hrow : 0 <= row < NUM_ROWS).
  { split; [apply Z.div_pos; lia|]. apply Z.div_lt_upper_bound; nia. }
  assert (E : cell = cell_at row col).
  { unfold cell_at, row, col. rewrite (Z.div_mod cell NUM_COLS) at 1 by lia. lia. }
  rewrite E, get_cell_reference_cell_at by lia. intros [= <-].
  pose proof (reference_check_all row col ltac:(lia) ltac:(lia)) as H.
  pose proof (get_cell_by_reference_text row col ltac:(lia) ltac:(lia) ltac:(lia)) as Hget.
  unfold reference_check in H.
  destruct (reference_text row col) as [|c0 digits] eqn:Et; [discriminate|].
  repeat (apply andb_prop in H as [H ?]).
  split; [|split].
  - apply parse_term_reference; [|exact Hget].
    now destruct (strtod (String c0 digits)).
  - discriminate.
  - now apply negb_true_iff.
Qed.

(** C8, amended: let the text [t] parse into the formula [f], every
    reference of [f] be to a cell of the grid, of at most 26 columns and 99
    rows, and [formula_to_string] return a text for [f] (it fits the
    buffer).  Then that text parses into a formula with the same number of
    terms, the same references at the same places and, at the place of each
    constant, the constant that is read back from its [%f] text. *)
Theorem C8_round_trip text f rendered :
  0 < NUM_COLS <= 26 -> NUM_ROWS <= 99 ->
  string_to_formula text = Done (Some f) ->
  (forall cell, In (Reference cell) (terms f) -> 0 <= cell < NUM_ROWS * NUM_COLS) ->
  formula_to_string (Some f) = Done rendered ->
  exists f',
    string_to_formula rendered = Done (Some f') /\
    Forall2 reparsed (terms f) (terms f').
Proof.
  intros Hcols Hrows Hparse Hrefs Hrender.
  assert (Hlen : (length (terms f) <= 10)%nat).
  { destruct text as [|c0 rest]; [discriminate|].
    apply (parse_terms_length _ _ _ Hparse). cbn. lia. }
  unfold formula_to_string in Hrender.
  destruct (_ <? 2); [discriminate|].
  destruct (terms_to_string_Done _ _ _ Hrender) as (pieces & Hpieces & ->).
  assert (Hall : exists ts',
             Forall2 (fun p t => parse_term p = Some t) pieces ts' /\
             Forall2 reparsed (terms f) ts' /\
             Forall (fun p => p <> EmptyString /\ has_plus p = false) pieces).
  { clear Hparse Hrender Hlen. revert Hrefs.
    induction Hpieces as [|t p ts ps Ht Hrest IH]; intros Hrefs.
    - exists []. repeat constructor.
    - destruct IH as (ts' & H1 & H2 & H3); [intros cell Hin; apply Hrefs; now right|].
      destruct t as [cell|x]; cbn [term_to_string] in Ht.
      + destruct (reference_piece cell p Hcols Hrows (Hrefs cell (or_introl eq_refl)) Ht)
          as (Hp & Hne & Hplus).
        exists (Reference cell :: ts'). repeat constructor; auto.
      + injection Ht as <-.
        destruct (parse_term_number x) as (x' & Hx & Hp).
        pose proof (snprintf_number_text _ (fmt_f_number_text x)) as Hnt.
        exists (Constant x' :: ts'). repeat constructor;
          auto using number_text_not_empty, number_text_no_plus. }
  destruct Hall as (ts' & Hparse' & Hre & Hplain).
  exists {| terms := ts' |}. split; [|exact Hre].
  cbn [String.append string_to_formula]. rewrite (strtok_all_concat _ Hplain).
  apply (parse_terms_all pieces ts' [] Hparse').
  apply Forall2_length in Hpieces. cbn. lia.
Qed.

(** * Further properties of the code *)

(** ** Marks and sums of the evaluation *)

Lemma evaluate_terms_keeps_marked call ts :
  (forall f, keeps_marked (call f)) ->
  forall answer, keeps_marked (evaluate_terms call ts answer).
Proof.
  intros Hcall. induction ts as [|[p|k] rest IH]; intros answer s s' o i ci.
  - now intros [= <- _].
  - destruct (Z.ltb_spec p 0) as [Hp|Hp];
      [rewrite evaluate_terms_reference_outside by auto; now intros [= <- _]|].
    destruct (s !! Z.to_nat p) as [c|] eqn:Hc;
      [|rewrite evaluate_terms_reference_outside by auto; now intros [= <- _]].
    rewrite (evaluate_terms_reference _ _ _ _ _ _ Hp Hc).
    destruct (is_evaluating c) eqn:Hev; [now intros [= <- _]|].
    intros Hrun Hi Hm.
    assert (Hne : i <> Z.to_nat p) by (intros ->; congruence).
    assert (Hmark : forall st, mark p st c s !! i = Some ci)
      by (intros st; unfold mark; now rewrite list_lookup_insert_ne).
    destruct (type c), (value c); try (now injection Hrun as <- _);
      try (injection Hrun as <- _; apply Hmark).
    + apply (IH _ _ _ _ _ _ Hrun); auto.
    + destruct (call formula _) as [s1 o1] eqn:Ecall.
      pose proof (Hcall _ _ _ _ _ _ Ecall (Hmark EVALUATING) Hm) as H1.
      destruct o1 as [r| |]; try (now injection Hrun as <- _).
      destruct (isinf r); [now injection Hrun as <- _|].
      destruct (s1 !! Z.to_nat p) as [c1|] eqn:Hc1; [|now injection Hrun as <- _].
      apply (IH _ _ _ _ _ _ Hrun); auto.
      unfold mark. now rewrite list_lookup_insert_ne.
  - cbn [evaluate_terms]. apply IH.
Qed.

Lemma evaluate_formula_keeps_marked fuel formula :
  keeps_marked (evaluate_formula fuel formula).
Proof.
  revert formula. induction fuel as [|fuel IH]; intros [f|]; cbn [evaluate_formula];
    try (intros s s' o i c [= <- _]; auto; fail);
    apply evaluate_terms_keeps_marked; auto.
  intros f' s s' o i c [= <- _]; auto.
Qed.

(** ** The editing operations, case by case *)

Lemma load_outside cell s :
  cell < 0 \/ s !! Z.to_nat cell = None -> load cell s = (s, Undefined OutOfBounds).
Proof.
  intros H. unfold load. destruct (Z.ltb_spec cell 0); [reflexivity|].
  destruct H as [H|H]; [lia|]. now rewrite H.
Qed.

(** The world in which [set_cell_value] stops, and how, for a cell of the
    array. *)
Lemma set_cell_value_inside fuel row col text w c :
  0 <= cell_at row col ->
  spreadsheet w !! Z.to_nat (cell_at row col) = Some c ->
  let put t v := <[Z.to_nat (cell_at row col) := with_content t v c]> (spreadsheet w) in
  set_cell_value fuel row col text w =
  if starts_with_equals text then
    match string_to_formula text with
    | Done formula =>
        let s1 := put FORMULA (value_formula formula) in
        let w3 :=
          match formula with
          | None => update_cell_display row col "Error: Failed to parse formula"
                      (with_cells s1 w)
          | Some _ => with_cells s1 w
          end in
        match evaluate_formula fuel formula s1 with
        | (s4, Done result) =>
            (update_cell_display row col (result_display result) (with_cells s4 w3),
             Done tt)
        | (s4, Undefined why) => (with_cells s4 w3, Undefined why)
        | (s4, OutOfFuel) => (with_cells s4 w3, OutOfFuel)
        end
    | Undefined why => (with_cells (put FORMULA (value c)) w, Undefined why)
    | OutOfFuel => (with_cells (put FORMULA (value c)) w, OutOfFuel)
    end
  else
    match strtod text with
    | Some (number, _) =>
        (update_cell_display row col text
           (with_cells (put NUMBER (value_number number)) w), Done tt)
    | None =>
        (update_cell_display row col text
           (with_cells (put TEXT (value_text (Some text))) w), Done tt)
    end.
Proof.
  intros Hp Hc put.
  destruct (starts_with_equals text) eqn:Heq.
  - destruct (string_to_formula text) as [formula| |] eqn:Hparse.
    + now rewrite (set_cell_value_formula _ _ _ _ _ _ _ Hp Hc Heq Hparse).
    + unfold set_cell_value, on_cells.
      rewrite (load_lookup _ _ _ Hp Hc), Heq, (modify_lookup _ _ _ _ Hp Hc).
      now rewrite Hparse.
    + unfold set_cell_value, on_cells.
      rewrite (load_lookup _ _ _ Hp Hc), Heq, (modify_lookup _ _ _ _ Hp Hc).
      now rewrite Hparse.
  - destruct (strtod text) as [[number rest]|] eqn:Hnum.
    + now rewrite (set_cell_value_number _ _ _ _ _ _ _ _ Hp Hc Heq Hnum).
    + now rewrite (set_cell_value_text _ _ _ _ _ _ Hp Hc Heq Hnum).
Qed.

Lemma set_cell_value_outside fuel row col text w :
  cell_at row col < 0 \/ spreadsheet w !! Z.to_nat (cell_at row col) = None ->
  set_cell_value fuel row col text w = (w, Undefined OutOfBounds).
Proof.
  intros H. unfold set_cell_value, on_cells. rewrite (load_outside _ _ H).
  now destruct w.
Qed.

Lemma clear_cell_inside row col w c :
  0 <= cell_at row col ->
  spreadsheet w !! Z.to_nat (cell_at row col) = Some c ->
  clear_cell NUM_COLS row col w =
  (update_cell_display row col ""
     (with_cells (<[Z.to_nat (cell_at row col) :=
                      with_content TEXT (value_text None) c]> (spreadsheet w)) w),
   Done tt).
Proof.
  intros Hp Hc. unfold clear_cell, on_cells. now rewrite (modify_lookup _ _ _ _ Hp Hc).
Qed.

Lemma clear_cell_outside row col w :
  cell_at row col < 0 \/ spreadsheet w !! Z.to_nat (cell_at row col) = None ->
  clear_cell NUM_COLS row col w = (w, Undefined OutOfBounds).
Proof.
  intros H. unfold clear_cell, on_cells, modify, bind. rewrite (load_outside _ _ H).
  now destruct w.
Qed.

(** The cell of the array that an edit is about, or none. *)
Lemma cell_inside_or_outside (s : list Cell) cell :
  (cell < 0 \/ s !! Z.to_nat cell = None) \/
  (exists c, 0 <= cell /\ s !! Z.to_nat cell = Some c).
Proof.
  destruct (Z.ltb_spec cell 0); [now left; left|].
  destruct (s !! Z.to_nat cell) as [c|] eqn:E; [right; now exists c|now left; right].
Qed.

Lemma omap_same {A B} (f g : A -> option B) (l : list A) :
  (forall a, f a = g a) -> omap f l = omap g l.
Proof.
  intros H. induction l as [|a l IH]; [reflexivity|].
  cbn. rewrite (H a), IH. reflexivity.
Qed.

(** What [numeric_term] says of a reference. *)
Lemma numeric_term_reference s cell x :
  numeric_term s (Reference cell) = Some x ->
  exists c, 0 <= cell /\ s !! Z.to_nat cell = Some c /\ is_evaluating c = false /\
            type c = NUMBER /\ value c = value_number x.
Proof.
  cbn. destruct (Z.ltb_spec cell 0); [discriminate|].
  destruct (s !! Z.to_nat cell) as [c|] eqn:Hc; [|discriminate].
  destruct (is_evaluating c) eqn:Hev; [discriminate|].
  destruct (type c) eqn:Ht; try discriminate.
  destruct (value c) eqn:Hv; try discriminate.
  intros [= <-]. exists c. auto.
Qed.

Lemma numeric_term_visit s t t' x :
  numeric_term s t = Some x -> numeric_term (visit s t) t' = numeric_term s t'.
Proof.
  destruct t as [cell|k]; [|reflexivity].
  intros H. destruct (numeric_term_reference _ _ _ H) as (c & Hp & Hc & Hev & Ht & Hv).
  destruct t' as [cell'|k']; [|reflexivity].
  cbn. rewrite Hc. destruct (Z.ltb_spec cell' 0); [reflexivity|].
  unfold mark. destruct (decide (Z.to_nat cell' = Z.to_nat cell)) as [E|E].
  - rewrite E, Hc, list_lookup_insert_eq by (eapply lookup_lt_Some; exact Hc).
    unfold is_evaluating in *. cbn. now destruct (state c).
  - now rewrite list_lookup_insert_ne by auto.
Qed.

Lemma evaluate_terms_numeric call ts : forall s answer,
  Forall (fun t => is_Some (numeric_term s t)) ts ->
  evaluate_terms call ts answer s =
  (fold_left visit ts s, Done (fold_left add (omap (numeric_term s) ts) answer)).
Proof.
  induction ts as [|t rest IH]; intros s answer Hts; [reflexivity|].
  apply Forall_cons in Hts as [[x Hx] Hrest].
  assert (Hstep : evaluate_terms call (t :: rest) answer s =
                  evaluate_terms call rest (add answer x) (visit s t)).
  { destruct t as [cell|k]; [|injection Hx as <-; reflexivity].
    destruct (numeric_term_reference _ _ _ Hx) as (c & Hp & Hc & Hev & Ht & Hv).
    rewrite (evaluate_terms_reference _ _ _ _ _ _ Hp Hc), Hev, Ht, Hv.
    cbn [visit]. now rewrite Hc. }
  rewrite Hstep, IH.
  - cbn [fold_left]. replace (omap (numeric_term s) (t :: rest))
      with (x :: omap (numeric_term s) rest) by (cbn; now rewrite Hx).
    cbn [fold_left].
    now rewrite (omap_same _ (numeric_term s) rest
                   (fun t' => numeric_term_visit s t t' x Hx)).
  - eapply Forall_impl; [exact Hrest|]. intros t' Ht'. cbn beta in *.
    now rewrite (numeric_term_visit _ _ _ _ Hx).
Qed.

(** X1: a formula whose terms are constants and references to cells that
    hold a number and are not marked [EVALUATING] evaluates, whatever the
    fuel, to the sum of these numbers added from left to right to 0.0, and
    the run changes nothing but the state of the referenced cells, which
    becomes [EVALUATED]. *)
Theorem X1_numeric_formula_sum fuel f s :
  Forall (fun t => is_Some (numeric_term s t)) (terms f) ->
  evaluate_formula fuel (Some f) s =
  (fold_left visit (terms f) s,
   Done (fold_left add (omap (numeric_term s) (terms f)) zero)).
Proof.
  intros H. rewrite evaluate_formula_Some. now apply evaluate_terms_numeric.
Qed.

(** X2: on a well-formed cell array the evaluation of a formula whose
    references are to cells of the array ends with a result, and as many
    units of fuel as the array has cells are enough: every such fuel gives
    the same array and the same result. *)
Theorem X2_evaluation_ends f s :
  well_formed s = true -> formula_ok s f = true ->
  exists s' r,
    forall fuel, (length s <= fuel)%nat ->
                 evaluate_formula fuel (Some f) s = (s', Done r).
Proof.
  intros Hwf Hf.
  destruct (evaluate_formula_ends (length s) f s Hf Hwf (unmarked_le_length s))
    as (s' & r & Hrun).
  exists s', r. intros fuel Hfuel.
  apply (evaluate_formula_more_fuel (length s) fuel Hfuel _ _ _ _ Hrun). discriminate.
Qed.

(** X3: when the loop finds that the formula of a referenced cell evaluates
    to an infinity, it returns [INFINITY] at once and leaves the cell marked
    [EVALUATING]; from then on every evaluation that comes to a reference to
    this cell first returns the result for a circular dependency. *)
Theorem X3_non_numeric_leaves_mark fuel s cell c formula s1 r rest :
  0 <= cell -> s !! Z.to_nat cell = Some c -> is_evaluating c = false ->
  type c = FORMULA -> value c = value_formula formula ->
  evaluate_formula fuel formula (mark cell EVALUATING c s) = (s1, Done r) ->
  isinf r = true ->
  evaluate_formula (S fuel) (Some {| terms := Reference cell :: rest |}) s
    = (s1, Done INFINITY) /\
  s1 !! Z.to_nat cell = Some (with_state EVALUATING c) /\
  (forall fuel' rest',
      evaluate_formula fuel' (Some {| terms := Reference cell :: rest' |}) s1
        = (s1, Done NAN)).
Proof.
  intros Hp Hc Hev Ht Hv Hrun Hinf.
  assert (Hmarked : s1 !! Z.to_nat cell = Some (with_state EVALUATING c)).
  { apply (evaluate_formula_keeps_marked _ _ _ _ _ _ _ Hrun); [|reflexivity].
    unfold mark. apply list_lookup_insert_eq. eapply lookup_lt_Some; exact Hc. }
  split; [|split; [exact Hmarked|]].
  - rewrite evaluate_formula_Some. cbn [terms].
    rewrite (evaluate_terms_reference _ _ _ _ _ _ Hp Hc), Hev, Ht, Hv, Hrun, Hinf.
    reflexivity.
  - intros fuel' rest'. rewrite evaluate_formula_Some. cbn [terms].
    now rewrite (evaluate_terms_reference _ _ _ _ _ _ Hp Hmarked).
Qed.

(** ** What an edit changes *)

Lemma marks_put (s : list Cell) i c t v :
  s !! i = Some c -> marks (<[i := with_content t v c]> s) = marks s.
Proof.
  intros H. rewrite marks_insert. apply list_insert_id.
  now apply (marks_lookup _ _ _ H).
Qed.

Lemma contents_put (s : list Cell) i c t v :
  contents (<[i := with_content t v c]> s) = <[i := (t, v)]> (contents s).
Proof. unfold contents. now rewrite list_fmap_insert. Qed.

(** The cell array in which [set_cell_value] stops: the array as it was, or
    the array with new content in the cell, or what the evaluation of the new
    formula makes of that. *)
Lemma set_cell_value_cells fuel row col text w w' o :
  set_cell_value fuel row col text w = (w', o) ->
  spreadsheet w' = spreadsheet w \/
  exists c t v,
    spreadsheet w !! Z.to_nat (cell_at row col) = Some c /\
    (spreadsheet w' = <[Z.to_nat (cell_at row col) := with_content t v c]> (spreadsheet w) \/
     exists formula o',
       evaluate_formula fuel formula
         (<[Z.to_nat (cell_at row col) := with_content t v c]> (spreadsheet w))
       = (spreadsheet w', o')).
Proof.
  destruct (cell_inside_or_outside (spreadsheet w) (cell_at row col))
    as [Hout|(c & Hp & Hc)].
  - rewrite (set_cell_value_outside _ _ _ _ _ Hout). intros [= <- _]. now left.
  - rewrite (set_cell_value_inside _ _ _ _ _ _ Hp Hc). cbv zeta. intros Hrun. right.
    exists c. destruct (starts_with_equals text).
    + destruct (string_to_formula text) as [formula|why|].
      * exists FORMULA, (value_formula formula). split; [exact Hc|right].
        exists formula.
        destruct (evaluate_formula fuel formula _) as [s4 [r|why|]];
          injection Hrun as <- _; eexists; destruct formula; reflexivity.
      * exists FORMULA, (value c). split; [exact Hc|left]. now injection Hrun as <- _.
      * exists FORMULA, (value c). split; [exact Hc|left]. now injection Hrun as <- _.
    + destruct (strtod text) as [[number rest]|].
      * exists NUMBER, (value_number number). split; [exact Hc|left].
        now injection Hrun as <- _.
      * exists TEXT, (value_text (Some text)). split; [exact Hc|left].
        now injection Hrun as <- _.
Qed.

Lemma clear_cell_cells row col w w' o :
  clear_cell NUM_COLS row col w = (w', o) ->
  spreadsheet w' = spreadsheet w \/
  exists c,
    spreadsheet w !! Z.to_nat (cell_at row col) = Some c /\
    spreadsheet w' = <[Z.to_nat (cell_at row col) :=
                         with_content TEXT (value_text None) c]> (spreadsheet w).
Proof.
  destruct (cell_inside_or_outside (spreadsheet w) (cell_at row col))
    as [Hout|(c & Hp & Hc)].
  - rewrite (clear_cell_outside _ _ _ Hout). intros [= <- _]. now left.
  - rewrite (clear_cell_inside _ _ _ _ Hp Hc). intros [= <- _]. right. now exists c.
Qed.

Lemma marks_true_lookup (s : list Cell) i :
  marks s !! i = Some true <-> exists c, s !! i = Some c /\ is_evaluating c = true.
Proof.
  unfold marks. rewrite list_lookup_fmap. destruct (s !! i) as [c|]; cbn.
  - split; [intros [= H]; now exists c|intros (c' & [= <-] & ->); reflexivity].
  - split; [discriminate|intros (c' & H & _); discriminate].
Qed.

(** X4: no operation of the model takes the mark [EVALUATING] off a cell:
    a cell that is marked is still marked after [set_cell_value], however
    it stops, after [clear_cell] and after [model_init], also when the
    operation is on that very cell. *)
Theorem X4_marks_are_never_cleared w i :
  marks (spreadsheet w) !! i = Some true ->
  (forall fuel row col text w' o,
      set_cell_value fuel row col text w = (w', o) ->
      marks (spreadsheet w') !! i = Some true) /\
  (forall row col w' o,
      clear_cell NUM_COLS row col w = (w', o) -> marks (spreadsheet w') !! i = Some true) /\
  marks (spreadsheet (model_init w)) !! i = Some true.
Proof.
  intros Hi. split; [|split].
  - intros fuel row col text w' o Hrun.
    destruct (set_cell_value_cells _ _ _ _ _ _ _ Hrun)
      as [->|(c & t & v & Hc & [->|(formula & o' & Heval)])]; auto.
    + now rewrite (marks_put _ _ _ _ _ Hc).
    + rewrite <- (marks_put _ _ _ t v Hc) in Hi.
      apply marks_true_lookup in Hi as (c1 & Hc1 & Hev).
      apply marks_true_lookup. exists c1. split; [|exact Hev].
      exact (evaluate_formula_keeps_marked _ _ _ _ _ _ _ Heval Hc1 Hev).
  - intros row col w' o Hrun.
    destruct (clear_cell_cells _ _ _ _ _ Hrun) as [->|(c & Hc & ->)]; auto.
    now rewrite (marks_put _ _ _ _ _ Hc).
  - unfold model_init, marks in *. cbn. rewrite map_map. exact Hi.
Qed.

(** X5: [set_cell_value] and [clear_cell] change the type and the value of
    no cell but the one they are called for, and the array keeps its length,
    however the operation stops: the formulas of other cells are neither
    evaluated into their cells nor touched. *)
Theorem X5_edit_frame row col w :
  (forall fuel text w' o,
      set_cell_value fuel row col text w = (w', o) ->
      length (spreadsheet w') = length (spreadsheet w) /\
      forall i, i <> Z.to_nat (cell_at row col) ->
                contents (spreadsheet w') !! i = contents (spreadsheet w) !! i) /\
  (forall w' o,
      clear_cell NUM_COLS row col w = (w', o) ->
      length (spreadsheet w') = length (spreadsheet w) /\
      forall i, i <> Z.to_nat (cell_at row col) ->
                contents (spreadsheet w') !! i = contents (spreadsheet w) !! i).
Proof.
  split.
  - intros fuel text w' o Hrun.
    destruct (set_cell_value_cells _ _ _ _ _ _ _ Hrun)
      as [->|(c & t & v & Hc & [->|(formula & o' & Heval)])]; auto.
    + split; [apply length_insert|]. intros i Hi.
      rewrite contents_put. now apply list_lookup_insert_ne.
    + apply evaluate_formula_keeps_contents in Heval. split.
      * rewrite (contents_length _ _ Heval). apply length_insert.
      * intros i Hi. rewrite Heval, contents_put. now apply list_lookup_insert_ne.
  - intros w' o Hrun.
    destruct (clear_cell_cells _ _ _ _ _ Hrun) as [->|(c & Hc & ->)]; auto.
    split; [apply length_insert|]. intros i Hi.
    rewrite contents_put. now apply list_lookup_insert_ne.
Qed.

Lemma isinf_result_display result :
  isinf result = true -> result_display result = non_numeric_error.
Proof. now destruct result. Qed.

Lemma evaluate_formula_None fuel s :
  evaluate_formula fuel None s = (s, Undefined NullDereference).
Proof. now destruct fuel. Qed.

(** X6: [set_cell_value] and [clear_cell] call [update_cell_display] for the
    cell they are called for only: the display of no other cell is
    refreshed, whatever formulas refer to the cell.  An edit that returns
    has displayed exactly one text. *)
Theorem X6_edit_displays_one_cell row col w :
  (forall fuel text w' o,
      set_cell_value fuel row col text w = (w', o) ->
      exists l,
        shown w' = shown w ++ l /\
        Forall (fun e => fst e = (row, col)) l /\
        (o = Done tt -> length l = 1%nat)) /\
  (forall w' o,
      clear_cell NUM_COLS row col w = (w', o) ->
      (o = Done tt /\ shown w' = shown w ++ [(row, col, EmptyString)]) \/
      (o = Undefined OutOfBounds /\ w' = w)).
Proof.
  split.
  - intros fuel text w' o.
    destruct (cell_inside_or_outside (spreadsheet w) (cell_at row col))
      as [Hout|(c & Hp & Hc)].
    { rewrite (set_cell_value_outside _ _ _ _ _ Hout). intros [= <- <-].
      exists []. rewrite app_nil_r. repeat split; [constructor|discriminate]. }
    rewrite (set_cell_value_inside _ _ _ _ _ _ Hp Hc). cbv zeta.
    assert (Hnone : forall (o' : Outcome unit),
               o' <> Done tt ->
               exists l : list (Z * Z * string),
                 shown w = shown w ++ l /\ Forall (fun e => fst e = (row, col)) l /\
                 (o' = Done tt -> length l = 1%nat)).
    { intros o' Ho'. exists []. rewrite app_nil_r. repeat split; [constructor|].
      intros E. now destruct Ho'. }
    assert (Hone : forall text' (o' : Outcome unit),
               exists l : list (Z * Z * string),
                 shown w ++ [(row, col, text')] = shown w ++ l /\
                 Forall (fun e => fst e = (row, col)) l /\
                 (o' = Done tt -> length l = 1%nat)).
    { intros text' o'. exists [(row, col, text')]. repeat split.
      repeat constructor. }
    destruct (starts_with_equals text).
    + destruct (string_to_formula text) as [[f|]|why|].
      * destruct (evaluate_formula fuel (Some f) _) as [s4 [r|why|]];
          intros [= <- <-]; cbn [shown update_cell_display with_cells];
          [apply Hone|apply Hnone; discriminate|apply Hnone; discriminate].
      * rewrite evaluate_formula_None. intros [= <- <-]. apply Hone.
      * intros [= <- <-]. apply Hnone. discriminate.
      * intros [= <- <-]. apply Hnone. discriminate.
    + destruct (strtod text) as [[number rest]|]; intros [= <- <-]; apply Hone.
  - intros w' o.
    destruct (cell_inside_or_outside (spreadsheet w) (cell_at row col))
      as [Hout|(c & Hp & Hc)].
    + rewrite (clear_cell_outside _ _ _ Hout). intros [= <- <-]. now right.
    + rewrite (clear_cell_inside _ _ _ _ Hp Hc). intros [= <- <-]. now left.
Qed.

(** X7: an edit that returns and does not display the non-numeric error
    leaves the marks of the array as they were: only the return of
    [INFINITY] from inside the loop leaves a mark [EVALUATING] behind. *)
Theorem X7_marks_after_edit fuel row col text w w' :
  set_cell_value fuel row col text w = (w', Done tt) ->
  last (shown w') <> Some (row, col, non_numeric_error) ->
  marks (spreadsheet w') = marks (spreadsheet w).
Proof.
  destruct (cell_inside_or_outside (spreadsheet w) (cell_at row col))
    as [Hout|(c & Hp & Hc)].
  { now rewrite (set_cell_value_outside _ _ _ _ _ Hout). }
  rewrite (set_cell_value_inside _ _ _ _ _ _ Hp Hc). cbv zeta.
  destruct (starts_with_equals text).
  - destruct (string_to_formula text) as [[f|]|why|]; try discriminate;
      [|now rewrite evaluate_formula_None].
    destruct (evaluate_formula fuel (Some f) _) as [s4 [r|why|]] eqn:Heval;
      try discriminate.
    intros [= <-]. cbn [shown spreadsheet update_cell_display with_cells].
    rewrite last_snoc. intros Hlast.
    destruct (isinf r) eqn:Hinf.
    + destruct Hlast. now rewrite (isinf_result_display _ Hinf).
    + rewrite (evaluate_formula_keeps_marks _ _ _ _ _ Heval Hinf).
      now apply marks_put.
  - destruct (strtod text) as [[number rest]|]; intros [= <-] _;
      cbn [spreadsheet update_cell_display with_cells]; now apply marks_put.
Qed.

(** ** Cells and the member of the union they hold *)

Lemma forallb_insert {A} (P : A -> bool) (l : list A) : forall i x,
  forallb P l = true -> P x = true -> forallb P (<[i := x]> l) = true.
Proof.
  induction l as [|a l IH]; intros i x Hl Hx; [exact Hl|].
  cbn in Hl. apply andb_true_iff in Hl as [Ha Hl].
  destruct i as [|i]; cbn; apply andb_true_iff; auto.
Qed.

Lemma typed_put (s : list Cell) i c t v :
  typed s = true -> typed_content (t, v) = true ->
  typed (<[i := with_content t v c]> s) = true.
Proof.
  intros Hs Htv. unfold typed. rewrite contents_put. now apply forallb_insert.
Qed.

Lemma typed_lookup s i c :
  typed s = true -> s !! i = Some c -> typed_content (content c) = true.
Proof.
  unfold typed, contents. rewrite forallb_forall. intros H Hc. apply H.
  apply in_map. eapply list_elem_of_In, list_elem_of_lookup_2. exact Hc.
Qed.

Lemma get_cell_reference_failure cell :
  (exists reference, get_cell_reference cell = Done reference) \/
  get_cell_reference cell = Undefined BufferOverflow.
Proof.
  unfold get_cell_reference. destruct (_ <=? 4); [left; eauto|now right].
Qed.

Lemma strcat_failure size dest src :
  strcat size dest src = Done (dest ++ src)%string \/
  strcat size dest src = Undefined BufferOverflow.
Proof. unfold strcat. destruct (_ <=? size); auto. Qed.

Lemma terms_to_string_failure ts : forall text,
  (exists r, terms_to_string ts text = Done r) \/
  terms_to_string ts text = Undefined BufferOverflow.
Proof.
  induction ts as [|t rest IH]; intros text; [left; now exists text|].
  cbn [terms_to_string].
  assert (Hpiece : (exists piece, term_to_string t = Done piece) \/
                   term_to_string t = Undefined BufferOverflow).
  { destruct t; [apply get_cell_reference_failure|left; eauto]. }
  destruct Hpiece as [[piece ->]| ->]; [|now right].
  destruct (strcat_failure (CELL_DISPLAY_WIDTH + 1) text piece) as [-> | ->];
    [|now right].
  destruct rest as [|t' rest]; [left; eauto|].
  destruct (strcat_failure (CELL_DISPLAY_WIDTH + 1) (text ++ piece) "+") as [-> | ->];
    [apply IH|now right].
Qed.

(** X8: in the array as it is before [main] runs the type of every cell
    agrees with the member of the union that holds its value, with a formula
    present in every formula cell, and the operations keep it so:
    [set_cell_value] whenever it returns, [clear_cell] and [model_init]
    always. *)
Theorem X8_typed_is_kept :
  typed (spreadsheet initial_world) = true /\
  (forall w,
      typed (spreadsheet w) = true ->
      (forall fuel row col text w',
          set_cell_value fuel row col text w = (w', Done tt) ->
          typed (spreadsheet w') = true) /\
      (forall row col w' o,
          clear_cell NUM_COLS row col w = (w', o) -> typed (spreadsheet w') = true)) /\
  (forall w, typed (spreadsheet (model_init w)) = true).
Proof.
  split; [|split].
  - unfold initial_world. cbn [spreadsheet].
    induction (Z.to_nat (NUM_ROWS * NUM_COLS)) as [|n IH]; [reflexivity|exact IH].
  - intros w Hw. split.
    + intros fuel row col text w'.
      destruct (cell_inside_or_outside (spreadsheet w) (cell_at row col))
        as [Hout|(c & Hp & Hc)].
      { now rewrite (set_cell_value_outside _ _ _ _ _ Hout). }
      rewrite (set_cell_value_inside _ _ _ _ _ _ Hp Hc). cbv zeta.
      destruct (starts_with_equals text).
      * destruct (string_to_formula text) as [[f|]|why|]; try discriminate;
          [|now rewrite evaluate_formula_None].
        destruct (evaluate_formula fuel (Some f) _) as [s4 [r|why|]] eqn:Heval;
          try discriminate.
        intros [= <-]. cbn [spreadsheet update_cell_display with_cells].
        apply evaluate_formula_keeps_contents in Heval.
        unfold typed. rewrite Heval. now apply typed_put.
      * destruct (strtod text) as [[number rest]|]; intros [= <-];
          cbn [spreadsheet update_cell_display with_cells]; now apply typed_put.
    + intros row col w' o Hrun.
      destruct (clear_cell_cells _ _ _ _ _ Hrun) as [->|(c & Hc & ->)]; auto.
      now apply typed_put.
  - intros w. unfold model_init, typed, contents. cbn [spreadsheet with_cells].
    rewrite map_map. cbn. induction (spreadsheet w) as [|c s IH]; [reflexivity|exact IH].
Qed.

(** X9: where the type of every cell agrees with the member of the union
    that holds its value, [get_textual_value] reads no inactive member and
    no null formula: for a cell of the array it returns a text or overflows
    a buffer while it prints a formula, and it reads outside the array for
    any other cell. *)
Theorem X9_get_textual_value_outcomes row col w :
  typed (spreadsheet w) = true ->
  if (0 <=? cell_at row col) && (cell_at row col <? Z.of_nat (length (spreadsheet w)))
  then (exists text, get_textual_value row col w = Done text) \/
       get_textual_value row col w = Undefined BufferOverflow
  else get_textual_value row col w = Undefined OutOfBounds.
Proof.
  intros Hw. unfold get_textual_value.
  destruct (Z.leb_spec 0 (cell_at row col)) as [Hp|Hp]; cbn [andb];
    [|now rewrite load_outside by (left; lia)].
  destruct (Z.ltb_spec (cell_at row col) (Z.of_nat (length (spreadsheet w)))) as [Hlt|Hge];
    [|now rewrite load_outside by (right; apply lookup_ge_None; lia)].
  destruct (lookup_lt_is_Some_2 (spreadsheet w) (Z.to_nat (cell_at row col))
              ltac:(lia)) as [c Hc].
  rewrite (load_lookup _ _ _ Hp Hc).
    pose proof (typed_lookup _ _ _ Hw Hc) as Hty. unfold content in Hty.
    destruct (type c), (value c) as [[text|]|number|[f|]]; try discriminate Hty;
      try (left; eauto; fail).
    unfold formula_to_string. destruct (_ <? 2); [now right|].
    apply terms_to_string_failure.
Qed.

(** ** What a cell shows after an edit *)

Lemma get_textual_value_lookup row col w c :
  0 <= cell_at row col ->
  spreadsheet w !! Z.to_nat (cell_at row col) = Some c ->
  get_textual_value row col w =
  match type c, value c with
  | FORMULA, value_formula formula => formula_to_string formula
  | NUMBER, value_number number =>
      Done (snprintf (CELL_DISPLAY_WIDTH + 1) (fmt_f number))
  | TEXT, value_text (Some text) => Done text
  | TEXT, value_text None => Done EmptyString
  | _, _ => Undefined InactiveMember
  end.
Proof.
  intros Hp Hc. unfold get_textual_value. now rewrite (load_lookup _ _ _ Hp Hc).
Qed.

(** X10: what [get_textual_value] gives for a cell after [set_cell_value]
    has returned for it.  A text that starts with [=] is not given back: the
    formula it parses to is printed anew.  Of any other text from which
    [strtod] reads a number, only that number is given back, printed with
    [%f] and cut to the display width.  Only a text that is neither is given
    back as it was typed. *)
Theorem X10_get_after_set fuel row col text w w' :
  set_cell_value fuel row col text w = (w', Done tt) ->
  if starts_with_equals text then
    exists f, string_to_formula text = Done (Some f) /\
              get_textual_value row col w' = formula_to_string (Some f)
  else
    get_textual_value row col w' =
    match strtod text with
    | Some (number, _) => Done (snprintf (CELL_DISPLAY_WIDTH + 1) (fmt_f number))
    | None => Done text
    end.
Proof.
  destruct (cell_inside_or_outside (spreadsheet w) (cell_at row col))
    as [Hout|(c & Hp & Hc)].
  { now rewrite (set_cell_value_outside _ _ _ _ _ Hout). }
  rewrite (set_cell_value_inside _ _ _ _ _ _ Hp Hc). cbv zeta.
  pose proof (lookup_lt_Some _ _ _ Hc) as Hlt.
  destruct (starts_with_equals text).
  - destruct (string_to_formula text) as [[f|]|why|]; try discriminate;
      [|now rewrite evaluate_formula_None].
    destruct (evaluate_formula fuel (Some f) _) as [s4 [r|why|]] eqn:Heval;
      try discriminate.
    intros [= <-]. exists f. split; [reflexivity|].
    apply evaluate_formula_keeps_contents in Heval.
    destruct (contents_lookup _ _ _ _ Heval (list_lookup_insert_eq _ _ _ Hlt))
      as (c' & Hc' & Ht & Hv).
    etransitivity; [apply (get_textual_value_lookup _ _ _ c' Hp); exact Hc'|].
    now rewrite Ht, Hv.
  - destruct (strtod text) as [[number rest]|]; intros [= <-];
      erewrite get_textual_value_lookup;
      try (cbn [spreadsheet update_cell_display with_cells];
           apply list_lookup_insert_eq; exact Hlt);
      try exact Hp; reflexivity.
Qed.

(** X11: a cell that [clear_cell] or [model_init] has emptied gives the
    empty text, and [model_init] displays nothing. *)
Theorem X11_emptied_cells w :
  (forall row col w',
      clear_cell NUM_COLS row col w = (w', Done tt) ->
      get_textual_value row col w' = Done EmptyString) /\
  (forall row col,
      0 <= cell_at row col < Z.of_nat (length (spreadsheet w)) ->
      get_textual_value row col (model_init w) = Done EmptyString) /\
  shown (model_init w) = shown w.
Proof.
  split; [|split; [|reflexivity]].
  - intros row col w'.
    destruct (cell_inside_or_outside (spreadsheet w) (cell_at row col))
      as [Hout|(c & Hp & Hc)].
    { now rewrite (clear_cell_outside _ _ _ Hout). }
    rewrite (clear_cell_inside _ _ _ _ Hp Hc). intros [= <-].
    rewrite (get_textual_value_lookup row col _
               (with_content TEXT (value_text None) c) Hp); [reflexivity|].
    apply list_lookup_insert_eq. eapply lookup_lt_Some; exact Hc.
  - intros row col Hin.
    destruct (lookup_lt_is_Some_2 (spreadsheet w) (Z.to_nat (cell_at row col))
                ltac:(lia)) as [c Hc].
    rewrite (get_textual_value_lookup row col _
               (with_content TEXT (value_text None) c) ltac:(lia)); [reflexivity|].
    unfold model_init. cbn [spreadsheet with_cells].
    change (map ?f ?l) with (f <$> l). now rewrite list_lookup_fmap, Hc.
Qed.

(** ** References *)

(** X12: [get_cell_by_reference] takes white space between the column
    letter and the row number, as [strtol] skips it: the reference names the
    same cell as the reference without it. *)
Theorem X12_reference_white_space c0 ws rest :
  isspace ws = true ->
  get_cell_by_reference (String c0 (String ws rest)) =
  get_cell_by_reference (String c0 rest).
Proof.
  intros Hws. unfold get_cell_by_reference, strlen.
  destruct rest as [|c r]; cbn [String.length].
  - unfold strtol. cbn [skip_space]. rewrite Hws. cbn.
    now destruct (_ && _).
  - destruct (Z.ltb_spec (Z.of_nat (S (S (String.length r)))) 2); [lia|].
    destruct (Z.ltb_spec (Z.of_nat (S (S (S (String.length r))))) 2); [lia|].
    destruct (_ && _); [reflexivity|].
    unfold strtol. cbn [skip_space]. rewrite Hws.
    destruct (read_sign _) as [neg s].
    destruct (read_digits s 0 0) as [[v n] rest'].
    now destruct (n =? 0).
Qed.

(** X13: [get_cell_by_reference] checks the row number against
    [NUM_ROWS] and the column letter against nothing: a reference with a
    letter past the last column names a cell of the next row, and in the last
    row a cell past the end of the array, at which every evaluation reads
    outside the array. *)
Theorem X13_column_is_not_checked row col :
  0 < NUM_COLS -> NUM_COLS <= col < 26 -> 0 <= row < 99 -> row < NUM_ROWS ->
  get_cell_by_reference (reference_text row col) = Some (cell_at row col) /\
  (row + 1 < NUM_ROWS -> row + 1 < 99 ->
   get_cell_by_reference (reference_text row col) =
   get_cell_by_reference (reference_text (row + 1) (col - NUM_COLS))) /\
  (row + 1 = NUM_ROWS ->
   forall fuel rest s,
     length s = Z.to_nat (NUM_ROWS * NUM_COLS) ->
     evaluate_formula fuel (Some {| terms := Reference (cell_at row col) :: rest |}) s
       = (s, Undefined OutOfBounds)).
Proof.
  intros Hcols Hcol Hrow Hrows.
  split; [apply get_cell_by_reference_text; lia|split].
  - intros Hnext Hnext'.
    rewrite !get_cell_by_reference_text by lia. f_equal. unfold cell_at. lia.
  - intros Hlast fuel rest s Hlen.
    rewrite evaluate_formula_Some. cbn [terms].
    apply evaluate_terms_reference_outside. right.
    apply lookup_ge_None. unfold cell_at. nia.
Qed.

(** ** Tokens and terms *)

Lemma strtok_all_piece p s :
  has_plus p = false ->
  strtok_all (p ++ String "+" s) EmptyString =
  (if String.eqb p "" then [] else [p]) ++ strtok_all s EmptyString.
Proof.
  intros Hp. rewrite (strtok_all_token p _ _ Hp). cbn [append].
  destruct p; reflexivity.
Qed.

Lemma strtok_all_last p :
  has_plus p = false ->
  strtok_all p EmptyString = if String.eqb p "" then [] else [p].
Proof.
  intros Hp. rewrite <- (append_nil_r p) at 1.
  rewrite (strtok_all_token p _ _ Hp). cbn [append]. destruct p; reflexivity.
Qed.

Lemma strtok_all_pieces pieces :
  Forall (fun p => has_plus p = false) pieces ->
  strtok_all (String.concat "+" pieces) EmptyString =
  List.filter (fun p => negb (String.eqb p "")) pieces.
Proof.
  induction 1 as [|p rest Hp Hrest IH]; [reflexivity|].
  destruct rest as [|q rest].
  - cbn [String.concat List.filter]. rewrite (strtok_all_last _ Hp).
    now destruct (String.eqb p "").
  - change (String.concat "+" (p :: q :: rest))
      with (p ++ String "+" (String.concat "+" (q :: rest)))%string.
    rewrite (strtok_all_piece _ _ Hp), IH. cbn [List.filter].
    now destruct (String.eqb p "").
Qed.

(** X14: [strtok] takes a run of ['+'] for one delimiter and skips those at
    either end, so that empty terms do not count: the tokens of a text are
    its non-empty pieces between the ['+'], and the text parses as the text
    without its empty pieces does.  The first character is not looked at. *)
Theorem X14_empty_terms_are_skipped c pieces :
  Forall (fun p => has_plus p = false) pieces ->
  formula_tokens (String c (String.concat "+" pieces)) =
    List.filter (fun p => negb (String.eqb p "")) pieces /\
  string_to_formula (String c (String.concat "+" pieces)) =
    parse_terms (List.filter (fun p => negb (String.eqb p "")) pieces) [].
Proof.
  intros H. unfold string_to_formula, formula_tokens.
  now rewrite (strtok_all_pieces _ H).
Qed.

Lemma parse_terms_null tokens : forall parsed,
  (length parsed <= 10)%nat ->
  parse_terms tokens parsed = Done None <->
  exists k tok,
    (length parsed + k <= 10)%nat /\ tokens !! k = Some tok /\ parse_term tok = None /\
    forall j tok', (j < k)%nat -> tokens !! j = Some tok' -> parse_term tok' <> None.
Proof.
  induction tokens as [|tok rest IH]; intros parsed Hlen; cbn [parse_terms].
  - split; [discriminate|]. now intros (k & tok & _ & H & _).
  - destruct (parse_term tok) as [term|] eqn:Htok.
    + unfold MAX_TERMS. destruct (Z.ltb_spec (Z.of_nat (length parsed)) 10) as [Hlt|Hge].
      * rewrite IH by (rewrite length_app; cbn; lia). rewrite length_app. cbn [length].
        split.
        -- intros (k & tok' & Hk & Hlook & Hnone & Hbefore).
           exists (S k), tok'. repeat split; auto; [lia|].
           intros [|j] tok'' Hj Hl; [injection Hl as <-; congruence|].
           apply (Hbefore j); [lia|exact Hl].
        -- intros ([|k] & tok' & Hk & Hlook & Hnone & Hbefore);
             [injection Hlook as <-; congruence|].
           exists k, tok'. repeat split; auto; [lia|].
           intros j tok'' Hj Hl. apply (Hbefore (S j)); [lia|exact Hl].
      * split; [discriminate|].
        intros ([|k] & tok' & Hk & Hlook & Hnone & _);
          [injection Hlook as <-; congruence|lia].
    + split; [|reflexivity]. intros _. exists 0%nat, tok.
      repeat split; auto; [lia|]. intros j tok' Hj. lia.
Qed.

(** X15: [string_to_formula] returns [NULL] exactly when one of the first
    eleven tokens is neither a number nor a reference and those before it
    are: a token that does not parse is found before the term would be
    stored, and no token after the eleventh is looked at. *)
Theorem X15_null_formula text :
  text <> EmptyString ->
  string_to_formula text = Done None <->
  exists k tok,
    (k <= 10)%nat /\ formula_tokens text !! k = Some tok /\ parse_term tok = None /\
    forall j tok', (j < k)%nat -> formula_tokens text !! j = Some tok' ->
                   parse_term tok' <> None.
Proof.
  intros Htext. destruct text as [|c rest]; [now destruct Htext|].
  unfold string_to_formula, formula_tokens.
  apply (parse_terms_null _ [] ltac:(cbn; lia)).
Qed.

(** ** Buffers of the printed texts *)

Lemma terms_to_string_overflow ts pieces :
  Forall2 (fun t p => term_to_string t = Done p) ts pieces ->
  forall text,
    strlen text <= CELL_DISPLAY_WIDTH ->
    CELL_DISPLAY_WIDTH < strlen (text ++ String.concat "+" pieces) ->
    terms_to_string ts text = Undefined BufferOverflow.
Proof.
  induction 1 as [|t p ts ps Hp Hrest IH]; intros text Hfit Hlong.
  - cbn [String.concat] in Hlong. rewrite append_nil_r in Hlong. lia.
  - cbn [terms_to_string]. rewrite Hp. unfold strcat at 1.
    destruct (Z.leb_spec (strlen (text ++ p) + 1) (CELL_DISPLAY_WIDTH + 1)) as [H1|H1];
      [|reflexivity].
    destruct Hrest as [|t' p' ts' ps' Hp' Hrest'].
    + cbn [String.concat] in Hlong. lia.
    + unfold strcat at 1.
      destruct (Z.leb_spec (strlen ((text ++ p) ++ "+") + 1) (CELL_DISPLAY_WIDTH + 1))
        as [H2|H2]; [|reflexivity].
      apply IH; [lia|].
      change (String.concat "+" (p :: p' :: ps'))
        with (p ++ String "+" (String.concat "+" (p' :: ps')))%string in Hlong.
      now rewrite !append_assoc.
Qed.

(** X16: [formula_to_string] writes into a buffer of [CELL_DISPLAY_WIDTH + 1]
    bytes without a check: for a formula whose terms can be printed, it
    returns the text ([=], then the texts of the terms with [+] between them)
    when that is at most [CELL_DISPLAY_WIDTH] characters long, and writes past
    the end of the buffer when it is longer. *)
Theorem X16_formula_text_buffer f pieces :
  1 <= CELL_DISPLAY_WIDTH ->
  Forall2 (fun t p => term_to_string t = Done p) (terms f) pieces ->
  formula_to_string (Some f) =
  if strlen ("=" ++ String.concat "+" pieces) <=? CELL_DISPLAY_WIDTH
  then Done ("=" ++ String.concat "+" pieces)%string
  else Undefined BufferOverflow.
Proof.
  intros Hwidth Hpieces. unfold formula_to_string.
  destruct (Z.ltb_spec (CELL_DISPLAY_WIDTH + 1) 2); [lia|].
  destruct (Z.leb_spec (strlen ("=" ++ String.concat "+" pieces)) CELL_DISPLAY_WIDTH).
  - now apply terms_to_string_pieces.
  - apply (terms_to_string_overflow _ _ Hpieces); [exact Hwidth|lia].
Qed.

Lemma length_string_of_uint d :
  String.length (NilEmpty.string_of_uint d) = Decimal.nb_digits d.
Proof. induction d; cbn; congruence. Qed.

Lemma short_uint d :
  (Decimal.nb_digits d < 3)%nat -> (Pos.of_uint d < 100)%N.
Proof.
  intros H.
  destruct d as [|d|d|d|d|d|d|d|d|d|d]; [reflexivity|..];
    (destruct d as [|d|d|d|d|d|d|d|d|d|d]; [reflexivity|..];
     (destruct d; [reflexivity|cbn in H; lia..])).
Qed.

Lemma fmt_d_long n : 100 <= n -> 3 <= strlen (fmt_d n).
Proof.
  intros Hn. unfold fmt_d, strlen. destruct n as [|p|p]; try lia.
  cbn [Z.to_int NilZero.string_of_int].
  assert (Hd : (3 <= Decimal.nb_digits (Pos.to_uint p))%nat).
  { destruct (Nat.le_gt_cases 3 (Decimal.nb_digits (Pos.to_uint p))) as [H|H]; [exact H|].
    apply short_uint in H. rewrite DecimalPos.Unsigned.of_to in H. lia. }
  unfold NilZero.string_of_uint.
  destruct (Pos.to_uint p) eqn:E; [cbn in Hd; lia|..];
    rewrite length_string_of_uint; lia.
Qed.

(** X17: [get_cell_reference] prints into a buffer of four bytes: for a
    cell of the array it returns the reference when the cell is in one of the
    first 99 rows, and writes past the end of the buffer for every cell of a
    later row. *)
Theorem X17_reference_buffer row col :
  0 <= row -> 0 <= col < NUM_COLS -> col < 26 ->
  get_cell_reference (cell_at row col) =
  if row <? 99 then Done (reference_text row col) else Undefined BufferOverflow.
Proof.
  intros Hrow Hcol Hmax. destruct (Z.ltb_spec row 99) as [Hlt|Hge].
  - apply get_cell_reference_cell_at; lia.
  - unfold get_cell_reference. rewrite cell_at_row, cell_at_col by lia.
    pose proof (fmt_d_long (row + 1) ltac:(lia)) as Hlong.
    unfold strlen in *. cbn [String.length].
    destruct (Z.leb_spec (Z.of_nat (S (String.length (fmt_d (row + 1)))) + 1) 4);
      [lia|reflexivity].
Qed.

(** ** Formulas that need no other formula *)

Lemma reference_text_term row col :
  0 <= row < 99 -> row < NUM_ROWS -> 0 <= col < 26 ->
  formula_tokens (String "=" (reference_text row col)) = [reference_text row col] /\
  parse_term (reference_text row col) = Some (Reference (cell_at row col)).
Proof.
  intros Hrow Hrows Hcol.
  pose proof (get_cell_by_reference_text row col Hrow Hrows Hcol) as Hcell.
  pose proof (reference_check_all row col Hrow Hcol) as H.
  unfold reference_check in H. cbn [formula_tokens].
  destruct (reference_text row col) as [|c0 digits] eqn:E; [discriminate|].
  repeat (apply andb_prop in H as [H ?]).
  split.
  - rewrite strtok_all_last; [reflexivity|].
    match goal with Hplus : negb _ = true |- _ => now apply negb_true_iff in Hplus end.
  - apply parse_term_reference; [|exact Hcell].
    now destruct (strtod (String c0 digits)).
Qed.

(** X18: a cell set to the formula that is just the reference of the cell
    itself displays the error of a circular dependency, for every fuel but
    0 and whatever the mark of the cell, and the marks of the array are then
    as before. *)
Theorem X18_self_reference fuel row col w c :
  0 <= row < 99 -> row < NUM_ROWS -> 0 <= col < 26 -> 0 <= cell_at row col ->
  spreadsheet w !! Z.to_nat (cell_at row col) = Some c ->
  exists w',
    set_cell_value (S fuel) row col (String "=" (reference_text row col)) w
      = (w', Done tt) /\
    shown w' = shown w ++ [(row, col, "Error: circular dependency detected"%string)] /\
    marks (spreadsheet w') = marks (spreadsheet w).
Proof.
  intros Hrow Hrows Hcol Hp Hc.
  destruct (reference_text_term row col Hrow Hrows Hcol) as [Htokens Hterm].
  assert (Hparse : string_to_formula (String "=" (reference_text row col)) =
                   Done (Some {| terms := [Reference (cell_at row col)] |})).
  { unfold string_to_formula. cbn [formula_tokens] in Htokens. rewrite Htokens.
    cbn [parse_terms]. now rewrite Hterm. }
  rewrite (set_cell_value_formula (S fuel) row col (String "=" (reference_text row col))
             w c _ Hp Hc eq_refl Hparse). cbv zeta.
  set (c1 := with_content FORMULA
               (value_formula (Some {| terms := [Reference (cell_at row col)] |})) c).
  set (s1 := <[Z.to_nat (cell_at row col) := c1]> (spreadsheet w)).
  assert (Hc1 : s1 !! Z.to_nat (cell_at row col) = Some c1)
    by (apply list_lookup_insert_eq; eapply lookup_lt_Some; exact Hc).
  assert (Hrun : exists s4, evaluate_formula (S fuel)
                              (Some {| terms := [Reference (cell_at row col)] |}) s1
                            = (s4, Done NAN)).
  { rewrite evaluate_formula_Some. cbn [terms].
    rewrite (evaluate_terms_reference _ _ _ _ _ _ Hp Hc1).
    destruct (is_evaluating c1) eqn:Hev; [now exists s1|].
    cbn [type value c1 with_content].
    set (s2 := mark (cell_at row col) EVALUATING c1 s1).
    assert (Hc2 : s2 !! Z.to_nat (cell_at row col) = Some (with_state EVALUATING c1))
      by (apply list_lookup_insert_eq; eapply lookup_lt_Some; exact Hc1).
    rewrite evaluate_formula_Some. cbn [terms].
    rewrite (evaluate_terms_reference _ _ _ _ _ _ Hp Hc2).
    cbn [is_evaluating with_state state]. cbn [isinf NAN]. rewrite Hc2.
    cbn [evaluate_terms ret]. rewrite add_NAN_r. eauto. }
  destruct Hrun as [s4 Hrun]. rewrite Hrun. eexists. split; [reflexivity|].
  split; [reflexivity|]. cbn [spreadsheet update_cell_display with_cells].
  rewrite (evaluate_formula_keeps_marks _ _ _ _ _ Hrun eq_refl).
  now apply marks_put.
Qed.

Lemma omap_Forall_same {A B} (f g : A -> option B) (l : list A) :
  Forall (fun a => f a = g a) l -> omap f l = omap g l.
Proof.
  induction 1 as [|a l Ha Hl IH]; [reflexivity|]. cbn. now rewrite Ha, IH.
Qed.

Lemma numeric_term_put s cell x t :
  0 <= cell -> t <> Reference cell ->
  numeric_term (<[Z.to_nat cell := x]> s) t = numeric_term s t.
Proof.
  intros Hp Ht. destruct t as [cell'|k]; [|reflexivity]. cbn.
  destruct (Z.ltb_spec cell' 0); [reflexivity|].
  rewrite list_lookup_insert_ne; [reflexivity|].
  intros E. apply Ht. f_equal. lia.
Qed.

(** X19: a cell set to a formula whose terms are constants and references
    to other cells that hold numbers displays the sum of these numbers as
    [result_display] prints it.  So a sum that is NaN, or one that is an
    infinity, is displayed as the error of a circular dependency, or of a
    non-numeric value, although the formula has neither. *)
Theorem X19_numeric_formula_display fuel row col text w c f :
  0 <= cell_at row col ->
  spreadsheet w !! Z.to_nat (cell_at row col) = Some c ->
  starts_with_equals text = true ->
  string_to_formula text = Done (Some f) ->
  Forall (fun t => is_Some (numeric_term (spreadsheet w) t) /\
                   t <> Reference (cell_at row col)) (terms f) ->
  let sum := fold_left add (omap (numeric_term (spreadsheet w)) (terms f)) zero in
  (exists w',
      set_cell_value fuel row col text w = (w', Done tt) /\
      shown w' = shown w ++ [(row, col, result_display sum)]) /\
  (isnan sum = true ->
   result_display sum = "Error: circular dependency detected"%string) /\
  (isinf sum = true ->
   result_display sum = "Error: cell contains non-numeric value"%string).
Proof.
  intros Hp Hc Heq Hparse Hterms sum. split; [|split].
  - rewrite (set_cell_value_formula _ _ _ _ _ _ _ Hp Hc Heq Hparse). cbv zeta.
    rewrite evaluate_formula_Some, evaluate_terms_numeric.
    + eexists. split; [reflexivity|]. cbn [shown update_cell_display with_cells].
      unfold sum. rewrite (omap_Forall_same _ (numeric_term (spreadsheet w)) (terms f));
        [reflexivity|].
      eapply Forall_impl; [exact Hterms|]. intros t [_ Ht].
      now apply numeric_term_put.
    + eapply Forall_impl; [exact Hterms|]. intros t [Hnum Ht]. cbn beta.
      now rewrite numeric_term_put.
  - unfold result_display. now intros ->.
  - apply isinf_result_display.
Qed.

(** ** The state [EVALUATED] *)

Lemma same_view_lookup s s' i c :
  same_view s s' -> s !! i = Some c ->
  exists c', s' !! i = Some c' /\ type c' = type c /\ value c' = value c /\
             is_evaluating c' = is_evaluating c.
Proof.
  intros [Hc Hm] Hi.
  destruct (contents_lookup s s' i c (eq_sym Hc) Hi) as (c' & Hi' & Ht & Hv).
  exists c'. repeat split; auto.
  pose proof (marks_lookup _ _ _ Hi) as H. pose proof (marks_lookup _ _ _ Hi') as H'.
  rewrite Hm in H. congruence.
Qed.

Lemma same_view_None s s' i : same_view s s' -> s !! i = None -> s' !! i = None.
Proof.
  intros [Hc _] Hi. apply lookup_ge_None. apply lookup_ge_None in Hi.
  now rewrite <- (contents_length _ _ Hc).
Qed.

Lemma same_view_mark s s' cell st c c' :
  same_view s s' -> s !! Z.to_nat cell = Some c -> s' !! Z.to_nat cell = Some c' ->
  same_view (mark cell st c s) (mark cell st c' s').
Proof.
  intros [Hc Hm] Hi Hi'. split.
  - now rewrite !contents_mark.
  - unfold mark. rewrite !marks_insert, Hm. reflexivity.
Qed.

Lemma evaluate_terms_keeps_view call ts :
  (forall f, keeps_view (call f)) ->
  forall answer, keeps_view (evaluate_terms call ts answer).
Proof.
  intros Hcall.
  induction ts as [|[p|k] rest IH]; intros answer s1 s2 s1' s2' o1 o2 Hview.
  - intros [= <- <-] [= <- <-]. now split.
  - destruct (Z.ltb_spec p 0) as [Hp|Hp].
    { rewrite !evaluate_terms_reference_outside by auto.
      intros [= <- <-] [= <- <-]. now split. }
    destruct (s1 !! Z.to_nat p) as [c1|] eqn:Hc1.
    2:{ rewrite !evaluate_terms_reference_outside
          by (right; eauto using same_view_None).
        intros [= <- <-] [= <- <-]. now split. }
    destruct (same_view_lookup _ _ _ _ Hview Hc1) as (c2 & Hc2 & Ht & Hv & Hev).
    rewrite (evaluate_terms_reference _ _ _ _ _ _ Hp Hc1),
      (evaluate_terms_reference _ _ _ _ _ _ Hp Hc2), Hev, Ht, Hv.
    destruct (is_evaluating c1); [intros [= <- <-] [= <- <-]; now split|].
    pose proof (same_view_mark _ _ p EVALUATING _ _ Hview Hc1 Hc2) as Hmarked.
    destruct (type c1), (value c1) as [text|number|formula];
      try (intros [= <- <-] [= <- <-]; now split).
    + apply IH. now apply same_view_mark.
    + destruct (call formula (mark p EVALUATING c1 s1)) as [t1 r1] eqn:E1.
      destruct (call formula (mark p EVALUATING c2 s2)) as [t2 r2] eqn:E2.
      destruct (Hcall _ _ _ _ _ _ _ Hmarked E1 E2) as [<- Hview'].
      destruct r1 as [r| |]; try (intros [= <- <-] [= <- <-]; now split).
      destruct (isinf r); [intros [= <- <-] [= <- <-]; now split|].
      destruct (t1 !! Z.to_nat p) as [d1|] eqn:Hd1.
      * destruct (same_view_lookup _ _ _ _ Hview' Hd1) as (d2 & Hd2 & _).
        rewrite Hd2. apply IH. now apply same_view_mark.
      * rewrite (same_view_None _ _ _ Hview' Hd1).
        intros [= <- <-] [= <- <-]. now split.
  - cbn [evaluate_terms]. now apply IH.
Qed.

Lemma evaluate_formula_keeps_view fuel formula :
  keeps_view (evaluate_formula fuel formula).
Proof.
  revert formula. induction fuel as [|fuel IH]; intros [f|]; cbn [evaluate_formula];
    try (intros s1 s2 s1' s2' o1 o2 Hview [= <- <-] [= <- <-]; now split);
    apply evaluate_terms_keeps_view; auto.
  intros f' s1 s2 s1' s2' o1 o2 Hview [= <- <-] [= <- <-]. now split.
Qed.

(** X20: the state [EVALUATED] is written and never read, so no result is
    kept for a later evaluation: on two cell arrays that hold the same
    contents and have the same cells marked [EVALUATING], the evaluation of a
    formula stops in the same way with the same result, and leaves arrays
    that again differ at most in [NOT_EVALUATED] and [EVALUATED]. *)
Theorem X20_evaluated_is_never_read fuel formula s1 s2 s1' s2' o1 o2 :
  contents s1 = contents s2 -> marks s1 = marks s2 ->
  evaluate_formula fuel formula s1 = (s1', o1) ->
  evaluate_formula fuel formula s2 = (s2', o2) ->
  o1 = o2 /\ contents s1' = contents s2' /\ marks s1' = marks s2'.
Proof.
  intros Hc Hm H1 H2.
  exact (evaluate_formula_keeps_view fuel formula s1 s2 s1' s2' o1 o2
           (conj Hc Hm) H1 H2).
Qed.

End Editing.

(** * Runs on concrete inputs *)

Lemma C2_eleven_terms_overflow_witness :
  string_to_formula Sample.NUM_ROWS Sample.NUM_COLS "=1+1+1+1+1+1+1+1+1+1+1"
    = Undefined OutOfBounds /\
  string_to_formula Sample.NUM_ROWS Sample.NUM_COLS "=1+1+1+1+1+1+1+1+1+1+1"
    <> Done None.
Proof.
  apply C2_eleven_terms_overflow.
  - vm_compute. lia.
  - intros tok Hin. vm_compute in Hin.
    repeat (destruct Hin as [<-|Hin]; [discriminate|]). destruct Hin.
Defined.

Lemma C6_failed_parse_is_evaluated_witness :
  let w := initial_world Sample.NUM_ROWS Sample.NUM_COLS in
  let w' :=
    {| spreadsheet :=
         <[0%nat := {| type := FORMULA; value := value_formula None;
                       state := NOT_EVALUATED |}]> (spreadsheet w);
       shown := [(0, 0, "Error: Failed to parse formula"%string)] |} in
  set_cell_value Sample.NUM_ROWS Sample.NUM_COLS Sample.CELL_DISPLAY_WIDTH 1 0 0 "=foo" w
    = (w', Undefined NullDereference) /\
  on_cells (evaluate_formula 1 None) w' = (w', Undefined NullDereference).
Proof.
  apply (C6_failed_parse_is_evaluated Sample.NUM_ROWS Sample.NUM_COLS
           Sample.CELL_DISPLAY_WIDTH 1 0 0 "=foo"
           (initial_world Sample.NUM_ROWS Sample.NUM_COLS) zero_cell);
    [vm_compute; discriminate | reflexivity | reflexivity | reflexivity].
Defined.

Lemma C10_numeric_prefix_accepted_witness :
  (exists w',
      set_cell_value Sample.NUM_ROWS Sample.NUM_COLS Sample.CELL_DISPLAY_WIDTH 1 0 0 "5abc"
        (initial_world Sample.NUM_ROWS Sample.NUM_COLS) = (w', Done tt) /\
      spreadsheet w' !! 0%nat =
        Some {| type := NUMBER; value := value_number (of_Z 5); state := NOT_EVALUATED |} /\
      shown w' = [(0, 0, "5abc"%string)]) /\
  terms {| terms := [Constant (of_Z 5); Constant (of_Z 3)] |} !! 0%nat
    = Some (Constant (of_Z 5)).
Proof.
  destruct (C10_numeric_prefix_accepted Sample.NUM_ROWS Sample.NUM_COLS
              Sample.CELL_DISPLAY_WIDTH) as (Hset & Hterm & _).
  split.
  - apply (Hset 1%nat 0 0 "5abc"%string
             (initial_world Sample.NUM_ROWS Sample.NUM_COLS) zero_cell (of_Z 5) "abc"%string);
      [vm_compute; discriminate | reflexivity | reflexivity | reflexivity].
  - apply (Hterm "=5x+3"%string {| terms := [Constant (of_Z 5); Constant (of_Z 3)] |}
             0%nat "5x"%string (of_Z 5) "x"%string); reflexivity.
Defined.

Lemma C7_reference_round_trip_witness :
  exists reference,
    get_cell_reference Sample.NUM_COLS (cell_at Sample.NUM_COLS 3 2) = Done reference /\
    get_cell_by_reference Sample.NUM_ROWS Sample.NUM_COLS reference
      = Some (cell_at Sample.NUM_COLS 3 2) /\
    Z.quot (cell_at Sample.NUM_COLS 3 2) Sample.NUM_COLS = 3 /\
    Z.rem (cell_at Sample.NUM_COLS 3 2) Sample.NUM_COLS = 2.
Proof.
  apply C7_reference_round_trip; unfold Sample.NUM_ROWS, Sample.NUM_COLS; lia.
Defined.

Lemma C5_sum_scenario_witness :
  let formula := {| terms := [Reference 0; Reference 1; Constant (of_Z 2)] |} in
  let final :=
    {| spreadsheet :=
         {| type := NUMBER; value := value_number (of_Z 5); state := EVALUATED |}
         :: {| type := NUMBER; value := value_number (of_Z 3); state := EVALUATED |}
         :: {| type := FORMULA; value := value_formula (Some formula);
               state := NOT_EVALUATED |}
         :: replicate 67 zero_cell;
       shown := [(0, 0, "5"); (0, 1, "3"); (0, 2, "10.000000")]%string |} in
  run_edits Sample.NUM_ROWS Sample.NUM_COLS Sample.CELL_DISPLAY_WIDTH 1
    [(0, 0, "5"); (0, 1, "3"); (0, 2, "=A1+B1+2")]%string
    (model_init (initial_world Sample.NUM_ROWS Sample.NUM_COLS)) = (final, Done tt) /\
  evaluate_formula 1 (Some formula) (spreadsheet final)
    = (spreadsheet final, Done (of_Z 10)) /\
  get_textual_value Sample.NUM_COLS Sample.CELL_DISPLAY_WIDTH 0 2 final
    = Done "=A1+B1+2.000000"%string.
Proof.
  apply (C5_sum_scenario Sample.NUM_ROWS Sample.NUM_COLS Sample.CELL_DISPLAY_WIDTH 1);
    unfold Sample.NUM_ROWS, Sample.NUM_COLS, Sample.CELL_DISPLAY_WIDTH; lia.
Defined.

Lemma C1_mutual_reference_witness :
  (exists w,
      run_edits Sample.NUM_ROWS Sample.NUM_COLS Sample.CELL_DISPLAY_WIDTH 2
        [(0, 0, "=B1"); (0, 1, "=A1")]%string
        (model_init (initial_world Sample.NUM_ROWS Sample.NUM_COLS)) = (w, Done tt) /\
      shown w = [(0, 0, "Error: cell contains non-numeric value");
                 (0, 1, "Error: circular dependency detected")]%string /\
      contents (spreadsheet w) =
        (FORMULA, value_formula (Some {| terms := [Reference 1] |}))
        :: (FORMULA, value_formula (Some {| terms := [Reference 0] |}))
        :: replicate 68 (TEXT, value_text None)) /\
  (forall formula s s' o,
      evaluate_formula 2 formula s = (s', o) -> contents s' = contents s).
Proof.
  apply (C1_mutual_reference Sample.NUM_ROWS Sample.NUM_COLS Sample.CELL_DISPLAY_WIDTH 2);
    unfold Sample.NUM_ROWS, Sample.NUM_COLS; lia.
Defined.

(** C1 as stated fails: with the sample configuration, whatever the fuel,
    the two edits do not both display the circular-dependency error. *)
Lemma C1_first_display_is_not_circular :
  ~ exists fuel w,
      run_edits Sample.NUM_ROWS Sample.NUM_COLS Sample.CELL_DISPLAY_WIDTH fuel
        [(0, 0, "=B1"); (0, 1, "=A1")]%string
        (model_init (initial_world Sample.NUM_ROWS Sample.NUM_COLS)) = (w, Done tt) /\
      shown w = [(0, 0, "Error: circular dependency detected");
                 (0, 1, "Error: circular dependency detected")]%string.
Proof.
  intros (fuel & w & Hrun & Hshown).
  rewrite mutual_reference_session in Hrun
    by (unfold Sample.NUM_ROWS, Sample.NUM_COLS; lia).
  destruct fuel as [|[|fuel]]; try discriminate Hrun.
  injection Hrun as <-. discriminate Hshown.
Qed.

Lemma C3_circular_detection_witness :
  let A1 := {| type := FORMULA; value := value_formula (Some {| terms := [Reference 1] |});
               state := EVALUATING |} in
  let s := [A1; zero_cell] in
  evaluate_terms (evaluate_formula 0) [Reference 0; Reference 1] (of_Z 7) s
    = (s, Done NAN).
Proof.
  intros A1 s.
  apply (proj1 (C3_circular_detection (evaluate_formula 0) 0 [Reference 1] (of_Z 7) s A1
                  ltac:(lia) eq_refl)).
  reflexivity.
Defined.

(** C3 as stated fails.  After C1 is set to [text] and A1 to [=B1], setting
    B1 to [=A1+C1] evaluates the formula of B1, then inside it the formula of
    A1, then inside that the formula of B1 again, which finds A1 marked.  The
    innermost call returns NaN at once; the call on the formula of A1 goes on
    and marks B1 [EVALUATED]; the outermost call goes on to its term C1 and
    reports the non-numeric error, which is what is displayed. *)
Lemma C3_enclosing_calls_go_on :
  let fA := {| terms := [Reference 1] |} in
  let fB := {| terms := [Reference 0; Reference 2] |} in
  let A1 st := {| type := FORMULA; value := value_formula (Some fA); state := st |} in
  let B1 st := {| type := FORMULA; value := value_formula (Some fB); state := st |} in
  let C1 := {| type := TEXT; value := value_text (Some "text"%string);
               state := NOT_EVALUATED |} in
  evaluate_formula 0 (Some fB) [A1 EVALUATING; B1 EVALUATING; C1]
    = ([A1 EVALUATING; B1 EVALUATING; C1], Done NAN) /\
  evaluate_formula 1 (Some fA) [A1 EVALUATING; B1 NOT_EVALUATED; C1]
    = ([A1 EVALUATING; B1 EVALUATED; C1], Done NAN) /\
  evaluate_formula 2 (Some fB) [A1 NOT_EVALUATED; B1 NOT_EVALUATED; C1]
    = ([A1 EVALUATED; B1 EVALUATED; C1], Done INFINITY) /\
  INFINITY <> NAN /\
  exists w,
    run_edits Sample.NUM_ROWS Sample.NUM_COLS Sample.CELL_DISPLAY_WIDTH 2
      [(0, 2, "text"); (0, 0, "=B1"); (0, 1, "=A1+C1")]%string
      (model_init (initial_world Sample.NUM_ROWS Sample.NUM_COLS)) = (w, Done tt) /\
    shown w = [(0, 2, "text"); (0, 0, "Error: cell contains non-numeric value");
               (0, 1, "Error: cell contains non-numeric value")]%string.
Proof.
  cbv zeta. repeat split; try reflexivity; try discriminate.
  eexists. split; vm_compute; reflexivity.
Qed.

Lemma C4_non_numeric_propagation_witness :
  let fB := {| terms := [Reference 0; Constant (of_Z 1)] |} in
  let fC := {| terms := [Reference 1] |} in
  let s := [ {| type := TEXT; value := value_text (Some "hello"%string);
                state := NOT_EVALUATED |};
             {| type := FORMULA; value := value_formula (Some fB); state := NOT_EVALUATED |};
             {| type := FORMULA; value := value_formula (Some fC); state := NOT_EVALUATED |} ] in
  (exists s', evaluate_formula 3 (Some fB) s = (s', Done INFINITY)) /\
  (exists s', evaluate_formula 3 (Some fC) s = (s', Done INFINITY)) /\
  (exists w,
     run_edits Sample.NUM_ROWS Sample.NUM_COLS Sample.CELL_DISPLAY_WIDTH 3
       [(0, 0, "hello"); (0, 1, "=A1+1")]%string
       (model_init (initial_world Sample.NUM_ROWS Sample.NUM_COLS)) = (w, Done tt) /\
     shown w = [(0, 0, "hello"); (0, 1, "Error: cell contains non-numeric value")]%string).
Proof.
  intros fB fC s.
  destruct (C4_non_numeric_propagation Sample.NUM_ROWS Sample.NUM_COLS
              Sample.CELL_DISPLAY_WIDTH 3) as [Hgen Hrun].
  destruct (Hgen s eq_refl eq_refl ltac:(simpl; lia)) as [Hdirect Htrans].
  split; [|split].
  - apply (Hdirect fB 0 {| type := TEXT; value := value_text (Some "hello"%string);
                           state := NOT_EVALUATED |}); reflexivity.
  - apply (Htrans fC 1 {| type := FORMULA; value := value_formula (Some fB);
                          state := NOT_EVALUATED |} fB 0
                  {| type := TEXT; value := value_text (Some "hello"%string);
                     state := NOT_EVALUATED |}); reflexivity.
  - apply Hrun; unfold Sample.NUM_ROWS, Sample.NUM_COLS; lia.
Defined.

(** C4 as stated fails.  After A1 is set to [hello] and B1 to [=B1+A1], the
    formula of C1 set to [=B1] refers to the formula cell B1, of which the
    formula refers to the text cell A1; yet C1 displays the
    circular-dependency error, not the non-numeric one. *)
Lemma C4_circular_reported_over_text :
  exists w,
    run_edits Sample.NUM_ROWS Sample.NUM_COLS Sample.CELL_DISPLAY_WIDTH 3
      [(0, 0, "hello"); (0, 1, "=B1+A1"); (0, 2, "=B1")]%string
      (model_init (initial_world Sample.NUM_ROWS Sample.NUM_COLS)) = (w, Done tt) /\
    firstn 3 (contents (spreadsheet w)) =
      [ (TEXT, value_text (Some "hello"%string));
        (FORMULA, value_formula (Some {| terms := [Reference 1; Reference 0] |}));
        (FORMULA, value_formula (Some {| terms := [Reference 1] |})) ] /\
    shown w = [(0, 0, "hello"); (0, 1, "Error: cell contains non-numeric value");
               (0, 2, "Error: circular dependency detected")]%string /\
    "Error: circular dependency detected"%string
      <> "Error: cell contains non-numeric value"%string.
Proof.
  eexists. split; [vm_compute; reflexivity|].
  repeat split; try reflexivity. discriminate.
Qed.

Lemma C8_round_trip_witness :
  exists f',
    string_to_formula Sample.NUM_ROWS Sample.NUM_COLS "=A1+B1+2.000000" = Done (Some f') /\
    Forall2 reparsed [Reference 0; Reference 1; Constant (of_Z 2)] (terms f').
Proof.
  apply (C8_round_trip Sample.NUM_ROWS Sample.NUM_COLS Sample.CELL_DISPLAY_WIDTH
           "=A1+B1+2" {| terms := [Reference 0; Reference 1; Constant (of_Z 2)] |}
           "=A1+B1+2.000000").
  - unfold Sample.NUM_COLS. lia.
  - unfold Sample.NUM_ROWS. lia.
  - vm_compute; reflexivity.
  - intros cell Hin. simpl in Hin. unfold Sample.NUM_ROWS, Sample.NUM_COLS.
    destruct Hin as [[= <-]|[[= <-]|[[=]|[]]]]; lia.
  - vm_compute; reflexivity.
Defined.

(** C8 as stated fails: the text [=0.0000001] parses into the constant
    1e-7, which is rendered as [=0.000000]; that text parses into the
    constant 0. *)
Lemma C8_small_constant_lost :
  let f := {| terms := [Constant (of_decimal false 1 (-7))] |} in
  let f' := {| terms := [Constant (S754_zero false)] |} in
  string_to_formula Sample.NUM_ROWS Sample.NUM_COLS "=0.0000001" = Done (Some f) /\
  formula_to_string Sample.NUM_COLS Sample.CELL_DISPLAY_WIDTH (Some f) = Done "=0.000000"%string /\
  string_to_formula Sample.NUM_ROWS Sample.NUM_COLS "=0.000000" = Done (Some f') /\
  terms f' <> terms f.
Proof.
  cbv zeta. repeat split; try (vm_compute; reflexivity).
  intros H. vm_compute in H. discriminate H.
Qed.

(** ** Runs of the further properties *)

Lemma X1_numeric_formula_sum_witness :
  let number n st := {| type := NUMBER; value := value_number (of_Z n); state := st |} in
  evaluate_formula 0 (Some {| terms := [Reference 0; Reference 1; Constant (of_Z 2)] |})
    [number 5 NOT_EVALUATED; number 3 NOT_EVALUATED; zero_cell]
  = ([number 5 EVALUATED; number 3 EVALUATED; zero_cell], Done (of_Z 10)).
Proof.
  intros number.
  exact (X1_numeric_formula_sum 0
           {| terms := [Reference 0; Reference 1; Constant (of_Z 2)] |}
           [number 5 NOT_EVALUATED; number 3 NOT_EVALUATED; zero_cell]
           ltac:(repeat constructor; eexists; reflexivity)).
Defined.

Lemma X2_evaluation_ends_witness :
  let fB := {| terms := [Reference 0; Constant (of_Z 1)] |} in
  let fC := {| terms := [Reference 1; Reference 2] |} in
  let s := [ {| type := NUMBER; value := value_number (of_Z 4); state := NOT_EVALUATED |};
             {| type := FORMULA; value := value_formula (Some fB); state := NOT_EVALUATED |};
             {| type := FORMULA; value := value_formula (Some fC); state := NOT_EVALUATED |} ] in
  exists s' r,
    forall fuel, (3 <= fuel)%nat -> evaluate_formula fuel (Some fC) s = (s', Done r).
Proof.
  intros fB fC s. exact (X2_evaluation_ends fC s eq_refl eq_refl).
Defined.

Lemma X3_non_numeric_leaves_mark_witness :
  let A1 := {| type := TEXT; value := value_text (Some "hello"%string);
               state := NOT_EVALUATED |} in
  let B1 st := {| type := FORMULA; value := value_formula (Some {| terms := [Reference 0] |});
                  state := st |} in
  evaluate_formula 1 (Some {| terms := [Reference 1; Constant (of_Z 1)] |})
    [A1; B1 NOT_EVALUATED] = ([A1; B1 EVALUATING], Done INFINITY) /\
  [A1; B1 EVALUATING] !! Z.to_nat 1 = Some (B1 EVALUATING) /\
  (forall fuel' rest',
      evaluate_formula fuel' (Some {| terms := Reference 1 :: rest' |}) [A1; B1 EVALUATING]
        = ([A1; B1 EVALUATING], Done NAN)).
Proof.
  intros A1 B1.
  exact (X3_non_numeric_leaves_mark 0 [A1; B1 NOT_EVALUATED] 1 (B1 NOT_EVALUATED)
           (Some {| terms := [Reference 0] |}) [A1; B1 EVALUATING] INFINITY
           [Constant (of_Z 1)] ltac:(lia) eq_refl eq_refl eq_refl eq_refl eq_refl eq_refl).
Defined.

Lemma X4_marks_are_never_cleared_witness :
  let A1 := {| type := TEXT; value := value_text (Some "hello"%string);
               state := NOT_EVALUATED |} in
  let B1 := {| type := FORMULA; value := value_formula (Some {| terms := [Reference 0] |});
               state := EVALUATING |} in
  let w := {| spreadsheet := [A1; B1]; shown := [] |} in
  marks (spreadsheet
           (fst (set_cell_value Sample.NUM_ROWS Sample.NUM_COLS Sample.CELL_DISPLAY_WIDTH
                   1 0 1 "7" w))) !! 1%nat = Some true /\
  marks (spreadsheet (fst (clear_cell Sample.NUM_COLS 0 1 w))) !! 1%nat = Some true /\
  marks (spreadsheet (model_init w)) !! 1%nat = Some true.
Proof.
  intros A1 B1 w.
  destruct (X4_marks_are_never_cleared Sample.NUM_ROWS Sample.NUM_COLS
              Sample.CELL_DISPLAY_WIDTH w 1%nat eq_refl) as (Hset & Hclear & Hinit).
  split; [|split; [|exact Hinit]].
  - eapply Hset. apply surjective_pairing.
  - eapply Hclear. apply surjective_pairing.
Defined.

Lemma X5_edit_frame_witness :
  let A1 := {| type := NUMBER; value := value_number (of_Z 5); state := NOT_EVALUATED |} in
  let B1 := {| type := FORMULA; value := value_formula (Some {| terms := [Reference 0] |});
               state := NOT_EVALUATED |} in
  let w := {| spreadsheet := [A1; B1]; shown := [] |} in
  let w' := fst (set_cell_value Sample.NUM_ROWS Sample.NUM_COLS Sample.CELL_DISPLAY_WIDTH
                   1 0 0 "hello" w) in
  length (spreadsheet w') = 2%nat /\
  contents (spreadsheet w') !! 1%nat =
    Some (FORMULA, value_formula (Some {| terms := [Reference 0] |})).
Proof.
  intros A1 B1 w w'.
  destruct (proj1 (X5_edit_frame Sample.NUM_ROWS Sample.NUM_COLS Sample.CELL_DISPLAY_WIDTH
                     0 0 w) 1%nat "hello"%string _ _ (surjective_pairing _))
    as [Hlength Hothers].
  split; [exact Hlength|]. apply (Hothers 1%nat). discriminate.
Defined.

Lemma X6_edit_displays_one_cell_witness :
  let A1 := {| type := NUMBER; value := value_number (of_Z 5); state := NOT_EVALUATED |} in
  let B1 := {| type := FORMULA; value := value_formula (Some {| terms := [Reference 0] |});
               state := NOT_EVALUATED |} in
  let w := {| spreadsheet := [A1; B1]; shown := [] |} in
  let result := set_cell_value Sample.NUM_ROWS Sample.NUM_COLS Sample.CELL_DISPLAY_WIDTH
               1 0 0 "6" w in
  exists l,
    shown (fst result) = shown w ++ l /\
    Forall (fun e => fst e = (0, 0)) l /\
    (snd result = Done tt -> length l = 1%nat).
Proof.
  intros A1 B1 w result.
  exact (proj1 (X6_edit_displays_one_cell Sample.NUM_ROWS Sample.NUM_COLS
                  Sample.CELL_DISPLAY_WIDTH 0 0 w)
           1%nat "6"%string _ _ (surjective_pairing _)).
Defined.

Lemma X7_marks_after_edit_witness :
  let A1 := {| type := NUMBER; value := value_number (of_Z 5); state := NOT_EVALUATED |} in
  let w := {| spreadsheet := [A1; zero_cell]; shown := [] |} in
  let w' := fst (set_cell_value Sample.NUM_ROWS Sample.NUM_COLS Sample.CELL_DISPLAY_WIDTH
                   1 0 1 "=A1+1" w) in
  marks (spreadsheet w') = marks (spreadsheet w).
Proof.
  intros A1 w w'.
  apply (X7_marks_after_edit Sample.NUM_ROWS Sample.NUM_COLS Sample.CELL_DISPLAY_WIDTH
           1 0 1 "=A1+1"%string w w').
  - vm_compute. reflexivity.
  - vm_compute. discriminate.
Defined.

Lemma X8_typed_is_kept_witness :
  let w := initial_world Sample.NUM_ROWS Sample.NUM_COLS in
  typed (spreadsheet
           (fst (set_cell_value Sample.NUM_ROWS Sample.NUM_COLS Sample.CELL_DISPLAY_WIDTH
                   1 0 1 "=A1+1" w))) = true.
Proof.
  intros w.
  destruct (X8_typed_is_kept Sample.NUM_ROWS Sample.NUM_COLS Sample.CELL_DISPLAY_WIDTH)
    as (Hinitial & Hkept & _).
  apply (proj1 (Hkept w Hinitial) 1%nat 0 1 "=A1+1"%string).
  vm_compute. reflexivity.
Defined.

Lemma X9_get_textual_value_outcomes_witness :
  let f := {| terms := [Constant (of_Z 1); Constant (of_Z 2)] |} in
  let w := {| spreadsheet :=
                [{| type := FORMULA; value := value_formula (Some f);
                    state := NOT_EVALUATED |}];
              shown := [] |} in
  ((exists text,
       get_textual_value Sample.NUM_COLS Sample.CELL_DISPLAY_WIDTH 0 0 w = Done text) \/
   get_textual_value Sample.NUM_COLS Sample.CELL_DISPLAY_WIDTH 0 0 w
     = Undefined BufferOverflow) /\
  get_textual_value Sample.NUM_COLS Sample.CELL_DISPLAY_WIDTH 0 1 w
    = Undefined OutOfBounds.
Proof.
  intros f w. split.
  - exact (X9_get_textual_value_outcomes Sample.NUM_COLS Sample.CELL_DISPLAY_WIDTH
             0 0 w eq_refl).
  - exact (X9_get_textual_value_outcomes Sample.NUM_COLS Sample.CELL_DISPLAY_WIDTH
             0 1 w eq_refl).
Defined.

Lemma X10_get_after_set_witness :
  let w := initial_world Sample.NUM_ROWS Sample.NUM_COLS in
  let w' := fst (set_cell_value Sample.NUM_ROWS Sample.NUM_COLS Sample.CELL_DISPLAY_WIDTH
                   1 0 0 "5abc" w) in
  get_textual_value Sample.NUM_COLS Sample.CELL_DISPLAY_WIDTH 0 0 w' = Done "5.000000"%string.
Proof.
  intros w w'.
  apply (X10_get_after_set Sample.NUM_ROWS Sample.NUM_COLS Sample.CELL_DISPLAY_WIDTH
           1 0 0 "5abc"%string w w').
  vm_compute. reflexivity.
Defined.

Lemma X11_emptied_cells_witness :
  let A1 := {| type := NUMBER; value := value_number (of_Z 5); state := EVALUATED |} in
  let w := {| spreadsheet := [A1; zero_cell]; shown := [] |} in
  get_textual_value Sample.NUM_COLS Sample.CELL_DISPLAY_WIDTH 0 0
    (fst (clear_cell Sample.NUM_COLS 0 0 w)) = Done EmptyString /\
  get_textual_value Sample.NUM_COLS Sample.CELL_DISPLAY_WIDTH 0 0 (model_init w)
    = Done EmptyString.
Proof.
  intros A1 w.
  destruct (X11_emptied_cells Sample.NUM_COLS Sample.CELL_DISPLAY_WIDTH w)
    as (Hclear & Hinit & _).
  split.
  - apply Hclear. vm_compute. reflexivity.
  - apply Hinit. unfold cell_at, Sample.NUM_COLS. simpl. lia.
Defined.

Lemma X12_reference_white_space_witness :
  get_cell_by_reference Sample.NUM_ROWS Sample.NUM_COLS "B 3"
    = get_cell_by_reference Sample.NUM_ROWS Sample.NUM_COLS "B3" /\
  string_to_formula Sample.NUM_ROWS Sample.NUM_COLS "=B 3+2"
    = Done (Some {| terms := [Reference 15; Constant (of_Z 2)] |}).
Proof.
  split; [|vm_compute; reflexivity].
  exact (X12_reference_white_space Sample.NUM_ROWS Sample.NUM_COLS "B" " " "3" eq_refl).
Defined.

Lemma X13_column_is_not_checked_witness :
  (get_cell_by_reference Sample.NUM_ROWS Sample.NUM_COLS "H1" = Some 7 /\
   get_cell_by_reference Sample.NUM_ROWS Sample.NUM_COLS "H1"
     = get_cell_by_reference Sample.NUM_ROWS Sample.NUM_COLS "A2") /\
  (get_cell_by_reference Sample.NUM_ROWS Sample.NUM_COLS "H10" = Some 70 /\
   forall fuel,
     evaluate_formula fuel (Some {| terms := [Reference 70] |})
       (spreadsheet (initial_world Sample.NUM_ROWS Sample.NUM_COLS))
     = (spreadsheet (initial_world Sample.NUM_ROWS Sample.NUM_COLS),
        Undefined OutOfBounds)).
Proof.
  split.
  - destruct (X13_column_is_not_checked Sample.NUM_ROWS Sample.NUM_COLS 0 7)
      as (Hcell & Hnext & _); try (unfold Sample.NUM_ROWS, Sample.NUM_COLS; lia).
    split; [exact Hcell|].
    apply Hnext; unfold Sample.NUM_ROWS; lia.
  - destruct (X13_column_is_not_checked Sample.NUM_ROWS Sample.NUM_COLS 9 7)
      as (Hcell & _ & Hlast); try (unfold Sample.NUM_ROWS, Sample.NUM_COLS; lia).
    split; [exact Hcell|].
    intros fuel. apply (Hlast eq_refl fuel []). reflexivity.
Defined.

Lemma X14_empty_terms_are_skipped_witness :
  formula_tokens "=+1++2+" = ["1"; "2"]%string /\
  string_to_formula Sample.NUM_ROWS Sample.NUM_COLS "=+1++2+"
    = Done (Some {| terms := [Constant (of_Z 1); Constant (of_Z 2)] |}).
Proof.
  exact (X14_empty_terms_are_skipped Sample.NUM_ROWS Sample.NUM_COLS "="
           [""; "1"; ""; "2"; ""]%string ltac:(repeat constructor)).
Defined.

Lemma X15_null_formula_witness :
  string_to_formula Sample.NUM_ROWS Sample.NUM_COLS "=1+foo+2" = Done None.
Proof.
  apply (X15_null_formula Sample.NUM_ROWS Sample.NUM_COLS "=1+foo+2");
    [discriminate|].
  exists 1%nat, "foo"%string. repeat split; [lia|].
  intros [|j] tok' Hj; [|lia]. intros [= <-]. vm_compute. discriminate.
Defined.

Lemma X16_formula_text_buffer_witness :
  formula_to_string Sample.NUM_COLS Sample.CELL_DISPLAY_WIDTH
    (Some {| terms := [Constant (of_Z 1); Constant (of_Z 2)] |})
    = Done "=1.000000+2.000000"%string /\
  formula_to_string Sample.NUM_COLS Sample.CELL_DISPLAY_WIDTH
    (Some {| terms := [Constant (of_Z 1); Constant (of_Z 2); Constant (of_Z 3)] |})
    = Undefined BufferOverflow.
Proof.
  split.
  - exact (X16_formula_text_buffer Sample.NUM_COLS Sample.CELL_DISPLAY_WIDTH
             {| terms := [Constant (of_Z 1); Constant (of_Z 2)] |}
             ["1.000000"; "2.000000"]%string
             ltac:(unfold Sample.CELL_DISPLAY_WIDTH; lia)
             ltac:(repeat constructor)).
  - exact (X16_formula_text_buffer Sample.NUM_COLS Sample.CELL_DISPLAY_WIDTH
             {| terms := [Constant (of_Z 1); Constant (of_Z 2); Constant (of_Z 3)] |}
             ["1.000000"; "2.000000"; "3.000000"]%string
             ltac:(unfold Sample.CELL_DISPLAY_WIDTH; lia)
             ltac:(repeat constructor)).
Defined.

Lemma X17_reference_buffer_witness :
  get_cell_reference Sample.NUM_COLS (cell_at Sample.NUM_COLS 98 2) = Done "C99"%string /\
  get_cell_reference Sample.NUM_COLS (cell_at Sample.NUM_COLS 99 2)
    = Undefined BufferOverflow.
Proof.
  split.
  - apply (X17_reference_buffer Sample.NUM_COLS 98 2);
      unfold Sample.NUM_COLS; lia.
  - apply (X17_reference_buffer Sample.NUM_COLS 99 2);
      unfold Sample.NUM_COLS; lia.
Defined.

Lemma X18_self_reference_witness :
  let w := initial_world Sample.NUM_ROWS Sample.NUM_COLS in
  exists w',
    set_cell_value Sample.NUM_ROWS Sample.NUM_COLS Sample.CELL_DISPLAY_WIDTH 1 2 3 "=D3" w
      = (w', Done tt) /\
    shown w' = [(2, 3, "Error: circular dependency detected"%string)] /\
    marks (spreadsheet w') = marks (spreadsheet w).
Proof.
  intros w.
  apply (X18_self_reference Sample.NUM_ROWS Sample.NUM_COLS Sample.CELL_DISPLAY_WIDTH
           0 2 3 w zero_cell);
    try (unfold cell_at, Sample.NUM_ROWS, Sample.NUM_COLS; lia).
  reflexivity.
Defined.

Lemma X19_numeric_formula_display_witness :
  let w := initial_world Sample.NUM_ROWS Sample.NUM_COLS in
  (exists w',
      set_cell_value Sample.NUM_ROWS Sample.NUM_COLS Sample.CELL_DISPLAY_WIDTH 0 0 0
        "=nan" w = (w', Done tt) /\
      shown w' = [(0, 0, "Error: circular dependency detected"%string)]) /\
  (exists w',
      set_cell_value Sample.NUM_ROWS Sample.NUM_COLS Sample.CELL_DISPLAY_WIDTH 0 0 0
        "=1e308+1e308" w = (w', Done tt) /\
      shown w' = [(0, 0, "Error: cell contains non-numeric value"%string)]).
Proof.
  intros w. split.
  - apply (X19_numeric_formula_display Sample.NUM_ROWS Sample.NUM_COLS
             Sample.CELL_DISPLAY_WIDTH 0 0 0 "=nan"%string w zero_cell
             {| terms := [Constant NAN] |});
      [vm_compute; discriminate|reflexivity|reflexivity|reflexivity|].
    repeat constructor; [eexists; reflexivity|discriminate].
  - apply (X19_numeric_formula_display Sample.NUM_ROWS Sample.NUM_COLS
             Sample.CELL_DISPLAY_WIDTH 0 0 0 "=1e308+1e308"%string w zero_cell
             {| terms := [Constant (of_decimal false 1 308);
                          Constant (of_decimal false 1 308)] |});
      [vm_compute; discriminate|reflexivity|reflexivity|vm_compute; reflexivity|].
    repeat constructor; try (eexists; reflexivity); discriminate.
Defined.

Lemma X20_evaluated_is_never_read_witness :
  let A1 st := {| type := NUMBER; value := value_number (of_Z 5); state := st |} in
  let B1 st := {| type := FORMULA; value := value_formula (Some {| terms := [Reference 0] |});
                  state := st |} in
  let f := {| terms := [Reference 1; Reference 0] |} in
  snd (evaluate_formula 1 (Some f) [A1 NOT_EVALUATED; B1 NOT_EVALUATED])
    = snd (evaluate_formula 1 (Some f) [A1 EVALUATED; B1 EVALUATED]) /\
  snd (evaluate_formula 1 (Some f) [A1 EVALUATED; B1 EVALUATED]) = Done (of_Z 10).
Proof.
  intros A1 B1 f. split; [|reflexivity].
  exact (proj1 (X20_evaluated_is_never_read 1 (Some f)
                  [A1 NOT_EVALUATED; B1 NOT_EVALUATED] [A1 EVALUATED; B1 EVALUATED]
                  _ _ _ _ eq_refl eq_refl
                  (surjective_pairing _) (surjective_pairing _))).
Defined.
